(** * crypto/store/store_lib.c: the credential store facade

    A shallow embedding of [store_lib.c].  The C heap is a finite map from
    addresses to typed blocks, every C function is a computation over a
    [World] (heap, error queue, allocator plan, backend state), and a
    computation either returns, has undefined behaviour (a dangling or
    ill-typed pointer is dereferenced or freed) or runs out of fuel (only
    the retry loop of [OSSL_STORE_load] can). *)

From Stdlib Require Import ZArith String Ascii List Lia.
From stdpp Require Import base option gmap strings.

Open Scope Z_scope.
Open Scope string_scope.

(** ** Pointers and structures *)

Abbreviation ptr := Z.
Definition NULL : ptr := 0.

(** Modelled from the spec: the tag constants [OSSL_STORE_INFO_*] are macros
    of openssl/store.h and store_locl.h, which are not part of the sources
    at hand.  The spec names six variants; the values below are the ones of
    the public header, and only their being pairwise distinct and different
    from the zero left by [OPENSSL_zalloc] is ever used. *)
Definition OSSL_STORE_INFO_EMBEDDED : Z := -1.
Definition OSSL_STORE_INFO_NAME : Z := 1.
Definition OSSL_STORE_INFO_PARAMS : Z := 2.
Definition OSSL_STORE_INFO_PKEY : Z := 3.
Definition OSSL_STORE_INFO_CERT : Z := 4.
Definition OSSL_STORE_INFO_CRL : Z := 5.

(** [struct ossl_store_info_st]: the [int type] and the union [_].  Every
    member of the union starts at its first word ([data], [embedded.blob],
    [name.name], [params], [pkey], [x509], [crl]); the two-member structs
    [embedded] and [name] also use the second word ([embedded.pem_name],
    [name.desc]). *)
Record ossl_store_info_st := mk_info {
  type : Z;
  u_word0 : ptr;
  u_word1 : ptr
}.

Definition set_type (t : Z) (i : ossl_store_info_st) :=
  mk_info t (u_word0 i) (u_word1 i).
Definition set_u_word0 (p : ptr) (i : ossl_store_info_st) :=
  mk_info (type i) p (u_word1 i).
Definition set_u_word1 (p : ptr) (i : ossl_store_info_st) :=
  mk_info (type i) (u_word0 i) p.

Definition u_data := u_word0.
Definition u_embedded_blob := u_word0.
Definition u_embedded_pem_name := u_word1.
Definition u_name_name := u_word0.
Definition u_name_desc := u_word1.
Definition u_params := u_word0.
Definition u_pkey := u_word0.
Definition u_x509 := u_word0.
Definition u_crl := u_word0.
Definition set_u_data := set_u_word0.
Definition set_u_embedded_blob := set_u_word0.
Definition set_u_embedded_pem_name := set_u_word1.
Definition set_u_name_name := set_u_word0.
Definition set_u_name_desc := set_u_word1.

(** [struct ossl_store_ctx_st], lines 20-27.  [loader] and [post_process]
    are code pointers, resolved through the environment below. *)
Record ossl_store_ctx_st := mk_ctx {
  loader : ptr;
  loader_ctx : ptr;
  ui_method : ptr;
  ui_data : ptr;
  post_process : ptr;
  post_process_data : ptr
}.

(** The refcounted payload types, opaque to this file. *)
Inductive obj_kind := K_EVP_PKEY | K_X509 | K_X509_CRL.

Global Instance obj_kind_eq_dec : EqDecision obj_kind.
Proof. solve_decision. Defined.

Inductive block :=
| BInfo (i : ossl_store_info_st)
| BCtx (c : ossl_store_ctx_st)
| BStr (s : string)                       (* a NUL-terminated char array *)
| BBufMem (data : string)                 (* a BUF_MEM *)
| BObj (k : obj_kind) (references : Z).   (* EVP_PKEY, X509, X509_CRL *)

(** The error queue filled by [OSSL_STOREerr(f, r)]. *)
Inductive err_func :=
| OSSL_STORE_F_OSSL_STORE_OPEN
| OSSL_STORE_F_OSSL_STORE_INFO_NEW_NAME
| OSSL_STORE_F_OSSL_STORE_INFO_SET0_NAME_DESCRIPTION
| OSSL_STORE_F_OSSL_STORE_INFO_NEW_PARAMS
| OSSL_STORE_F_OSSL_STORE_INFO_NEW_PKEY
| OSSL_STORE_F_OSSL_STORE_INFO_NEW_CERT
| OSSL_STORE_F_OSSL_STORE_INFO_NEW_CRL
| OSSL_STORE_F_OSSL_STORE_INFO_GET1_NAME
| OSSL_STORE_F_OSSL_STORE_INFO_GET1_NAME_DESCRIPTION
| OSSL_STORE_F_OSSL_STORE_INFO_GET1_PARAMS
| OSSL_STORE_F_OSSL_STORE_INFO_GET1_PKEY
| OSSL_STORE_F_OSSL_STORE_INFO_GET1_CERT
| OSSL_STORE_F_OSSL_STORE_INFO_GET1_CRL
| OSSL_STORE_F_OSSL_STORE_INFO_NEW_EMBEDDED.

Inductive err_reason :=
| ERR_R_MALLOC_FAILURE
| ERR_R_PASSED_INVALID_ARGUMENT
| OSSL_STORE_R_NOT_A_NAME
| OSSL_STORE_R_NOT_PARAMETERS
| OSSL_STORE_R_NOT_A_KEY
| OSSL_STORE_R_NOT_A_CERTIFICATE
| OSSL_STORE_R_NOT_A_CRL.

(** The reasons the spec calls [TypeMismatch]. *)
Definition TypeMismatch (r : err_reason) : bool :=
  match r with
  | OSSL_STORE_R_NOT_A_NAME | OSSL_STORE_R_NOT_PARAMETERS
  | OSSL_STORE_R_NOT_A_KEY | OSSL_STORE_R_NOT_A_CERTIFICATE
  | OSSL_STORE_R_NOT_A_CRL => true
  | _ => false
  end.

(** ** C strings

    A [string] is the content of a NUL-terminated array, terminator left
    out. *)

Fixpoint str_take (n : nat) (s : string) : string :=
  match n, s with
  | S n', String c rest => String c (str_take n' rest)
  | _, _ => ""
  end.

(** Modelled from the spec: [OPENSSL_strlcpy] (crypto/o_str.c) is not part
    of the sources at hand; it is the bounded copy behind the spec's fixed
    maximum length.  [OPENSSL_strlcpy src size] is what the destination of
    [size] bytes holds afterwards: at most [size - 1] characters of [src],
    the last byte being kept for the terminator. *)
Definition OPENSSL_strlcpy (src : string) (size : nat) : string :=
  str_take (Nat.pred size) src.

(** [strchr(s, c)] for a [c] other than NUL: the offset of the first [c]. *)
Fixpoint strchr (s : string) (c : ascii) : option nat :=
  match s with
  | EmptyString => None
  | String a rest => if decide (a = c) then Some 0%nat else S <$> strchr rest c
  end.

(** Lines 37-45 of [OSSL_STORE_open]: the scheme handed to the registry.
    [*p = 0; p = scheme_copy] cuts the copy at the colon. *)
Definition open_scheme (uri : string) : string :=
  let scheme_copy := OPENSSL_strlcpy uri 256 in
  match strchr scheme_copy ":" with
  | Some off => str_take off scheme_copy
  | None => "file"
  end.

Section Store.

(** The state of the backends (loader sessions, open files, ...): opaque
    to this layer. *)
Context {Backend : Type}.

Record World := mk_world {
  heap : gmap Z block;
  err_queue : list (err_func * err_reason);
  alloc_plan : list bool;   (* outcome of the coming allocations; all
                               succeed once the plan is used up *)
  backend : Backend
}.

Definition set_heap (h : gmap Z block) (w : World) : World :=
  mk_world h (err_queue w) (alloc_plan w) (backend w).
Definition set_err_queue (e : list (err_func * err_reason)) (w : World) : World :=
  mk_world (heap w) e (alloc_plan w) (backend w).
Definition set_alloc_plan (a : list bool) (w : World) : World :=
  mk_world (heap w) (err_queue w) a (backend w).
Definition set_backend (b : Backend) (w : World) : World :=
  mk_world (heap w) (err_queue w) (alloc_plan w) b.

(** ** Computations *)

Inductive outcome (A : Type) :=
| Ret (a : A) (w : World)
| Undef
| Timeout.
Global Arguments Ret {A} a w.
Global Arguments Undef {A}.
Global Arguments Timeout {A}.

Definition M (A : Type) : Type := World → outcome A.

Definition ret {A} (a : A) : M A := λ w, Ret a w.
Definition bind {A B} (m : M A) (f : A → M B) : M B :=
  λ w, match m w with
       | Ret a w' => f a w'
       | Undef => Undef
       | Timeout => Timeout
       end.

Global Instance M_ret : MRet M := @ret.
Global Instance M_bind : MBind M := λ A B f m, bind m f.

(** ** The helpers of libcrypto this file calls *)

(** Modelled from the spec: the error queue (crypto/err) is outside this
    file; [OSSL_STOREerr(f, r)] records function and reason on that
    diagnostic side channel. *)
Definition OSSL_STOREerr (f : err_func) (r : err_reason) : M unit :=
  λ w, Ret () (set_err_queue ((f, r) :: err_queue w) w).

(** An address that is neither NULL nor in use. *)
Definition taken (h : gmap Z block) : gset Z := {[NULL]} ∪ dom h.
Definition fresh_ptr (h : gmap Z block) : ptr := fresh (taken h).

(** Modelled from the spec: the allocator (crypto/mem.c) is outside this
    file.  An allocation that fails is signalled by NULL; one that succeeds
    hands out a block that was not in use, here initialised to [b] (all
    zero for [OPENSSL_zalloc], the copy for [OPENSSL_strdup]). *)
Definition CRYPTO_malloc (b : block) : M ptr :=
  λ w, match alloc_plan w with
       | false :: plan => Ret NULL (set_alloc_plan plan w)
       | true :: plan =>
           let p := fresh_ptr (heap w) in
           Ret p (set_alloc_plan plan (set_heap (<[p := b]> (heap w)) w))
       | [] =>
           let p := fresh_ptr (heap w) in
           Ret p (set_heap (<[p := b]> (heap w)) w)
       end.

(** Modelled from the spec: [OPENSSL_free] is the plain deallocation of
    strings and structures.  Nothing happens on NULL; releasing an address
    that is not allocated is undefined. *)
Definition OPENSSL_free (p : ptr) : M unit :=
  λ w, if decide (p = NULL) then Ret () w
       else match heap w !! p with
            | Some _ => Ret () (set_heap (delete p (heap w)) w)
            | None => Undef
            end.

(** Reading a [const char *]: NULL has no content. *)
Definition read_str (p : ptr) : M (option string) :=
  λ w, if decide (p = NULL) then Ret None w
       else match heap w !! p with
            | Some (BStr s) => Ret (Some s) w
            | _ => Undef
            end.

(** Modelled from the spec: [OPENSSL_strdup] (crypto/o_str.c) makes the
    deep copy of a string: NULL for NULL, else a fresh block with the same
    content, or NULL when the allocation fails. *)
Definition OPENSSL_strdup (str : option string) : M ptr :=
  match str with
  | None => ret NULL
  | Some s => CRYPTO_malloc (BStr s)
  end.

(** Modelled from the spec: [BUF_MEM_free] (crypto/buffer) is the plain
    deallocation of a buffer; nothing on NULL. *)
Definition BUF_MEM_free (p : ptr) : M unit :=
  λ w, if decide (p = NULL) then Ret () w
       else match heap w !! p with
            | Some (BBufMem _) => Ret () (set_heap (delete p (heap w)) w)
            | _ => Undef
            end.

(** Modelled from the spec: [EVP_PKEY_up_ref], [X509_up_ref] and
    [X509_CRL_up_ref] belong to the payload types, outside this file; per
    the spec they increment the handle's reference count. *)
Definition up_ref (k : obj_kind) (p : ptr) : M Z :=
  λ w, match heap w !! p with
       | Some (BObj k' n) =>
           if decide (k' = k)
           then Ret (if decide (1 < n + 1) then 1 else 0)
                    (set_heap (<[p := BObj k (n + 1)]> (heap w)) w)
           else Undef
       | _ => Undef
       end.

(** Modelled from the spec: [EVP_PKEY_free], [X509_free] and [X509_CRL_free]
    release one reference (decrement, and free at zero); nothing on NULL. *)
Definition obj_free (k : obj_kind) (p : ptr) : M unit :=
  λ w, if decide (p = NULL) then Ret () w
       else match heap w !! p with
            | Some (BObj k' n) =>
                if decide (k' = k)
                then if decide (0 < n - 1)
                     then Ret () (set_heap (<[p := BObj k (n - 1)]> (heap w)) w)
                     else Ret () (set_heap (delete p (heap w)) w)
                else Undef
            | _ => Undef
            end.

Definition EVP_PKEY_up_ref := up_ref K_EVP_PKEY.
Definition X509_up_ref := up_ref K_X509.
Definition X509_CRL_up_ref := up_ref K_X509_CRL.
Definition EVP_PKEY_free := obj_free K_EVP_PKEY.
Definition X509_free := obj_free K_X509.
Definition X509_CRL_free := obj_free K_X509_CRL.

(** Access to the structures behind a pointer. *)
Definition get_info (p : ptr) : M ossl_store_info_st :=
  λ w, match heap w !! p with
       | Some (BInfo i) => Ret i w
       | _ => Undef
       end.

Definition put_info (p : ptr) (i : ossl_store_info_st) : M unit :=
  λ w, match heap w !! p with
       | Some (BInfo _) => Ret () (set_heap (<[p := BInfo i]> (heap w)) w)
       | _ => Undef
       end.

Definition get_ctx (p : ptr) : M ossl_store_ctx_st :=
  λ w, match heap w !! p with
       | Some (BCtx c) => Ret c w
       | _ => Undef
       end.

Definition put_ctx (p : ptr) (c : ossl_store_ctx_st) : M unit :=
  λ w, match heap w !! p with
       | Some (BCtx _) => Ret () (set_heap (<[p := BCtx c]> (heap w)) w)
       | _ => Undef
       end.

(** An assignment to one member: [info->type = ...], [info->_.m = ...]. *)
Definition assign_info (info : ptr)
    (f : ossl_store_info_st → ossl_store_info_st) : M unit :=
  i ← get_info info;
  put_info info (f i).

(** [OPENSSL_zalloc] at the size of an info structure and of a context:
    all members zero. *)
Definition zalloc_info : M ptr := CRYPTO_malloc (BInfo (mk_info 0 NULL NULL)).
Definition zalloc_ctx : M ptr :=
  CRYPTO_malloc (BCtx (mk_ctx NULL NULL NULL NULL NULL NULL)).

(** ** Credential objects, lines 127-410 *)

Definition store_info_new (type : Z) (data : ptr) : M ptr :=
  info ← zalloc_info;
  if decide (info = NULL) then mret NULL
  else
    assign_info info (set_type type);;
    assign_info info (set_u_data data);;
    mret info.

Definition OSSL_STORE_INFO_new_NAME (name : ptr) : M ptr :=
  info ← store_info_new OSSL_STORE_INFO_NAME NULL;
  if decide (info = NULL) then
    OSSL_STOREerr OSSL_STORE_F_OSSL_STORE_INFO_NEW_NAME ERR_R_MALLOC_FAILURE;;
    mret NULL
  else
    assign_info info (set_u_name_name name);;
    assign_info info (set_u_name_desc NULL);;
    mret info.

Definition OSSL_STORE_INFO_set0_NAME_description (info desc : ptr) : M Z :=
  i ← get_info info;
  if decide (type i ≠ OSSL_STORE_INFO_NAME) then
    OSSL_STOREerr OSSL_STORE_F_OSSL_STORE_INFO_SET0_NAME_DESCRIPTION
                  ERR_R_PASSED_INVALID_ARGUMENT;;
    mret 0
  else
    assign_info info (set_u_name_desc desc);;
    mret 1.

Definition OSSL_STORE_INFO_new_PARAMS (params : ptr) : M ptr :=
  info ← store_info_new OSSL_STORE_INFO_PARAMS params;
  (if decide (info = NULL)
   then OSSL_STOREerr OSSL_STORE_F_OSSL_STORE_INFO_NEW_PARAMS ERR_R_MALLOC_FAILURE
   else mret ());;
  mret info.

Definition OSSL_STORE_INFO_new_PKEY (pkey : ptr) : M ptr :=
  info ← store_info_new OSSL_STORE_INFO_PKEY pkey;
  (if decide (info = NULL)
   then OSSL_STOREerr OSSL_STORE_F_OSSL_STORE_INFO_NEW_PKEY ERR_R_MALLOC_FAILURE
   else mret ());;
  mret info.

Definition OSSL_STORE_INFO_new_CERT (x509 : ptr) : M ptr :=
  info ← store_info_new OSSL_STORE_INFO_CERT x509;
  (if decide (info = NULL)
   then OSSL_STOREerr OSSL_STORE_F_OSSL_STORE_INFO_NEW_CERT ERR_R_MALLOC_FAILURE
   else mret ());;
  mret info.

Definition OSSL_STORE_INFO_new_CRL (crl : ptr) : M ptr :=
  info ← store_info_new OSSL_STORE_INFO_CRL crl;
  (if decide (info = NULL)
   then OSSL_STOREerr OSSL_STORE_F_OSSL_STORE_INFO_NEW_CRL ERR_R_MALLOC_FAILURE
   else mret ());;
  mret info.

Definition OSSL_STORE_INFO_get_type (info : ptr) : M Z :=
  i ← get_info info;
  mret (type i).

Definition OSSL_STORE_INFO_get0_NAME (info : ptr) : M ptr :=
  i ← get_info info;
  if decide (type i = OSSL_STORE_INFO_NAME) then mret (u_name_name i)
  else mret NULL.

Definition OSSL_STORE_INFO_get1_NAME (info : ptr) : M ptr :=
  i ← get_info info;
  if decide (type i = OSSL_STORE_INFO_NAME) then
    s ← read_str (u_name_name i);
    r ← OPENSSL_strdup s;
    (if decide (r = NULL)
     then OSSL_STOREerr OSSL_STORE_F_OSSL_STORE_INFO_GET1_NAME ERR_R_MALLOC_FAILURE
     else mret ());;
    mret r
  else
    OSSL_STOREerr OSSL_STORE_F_OSSL_STORE_INFO_GET1_NAME OSSL_STORE_R_NOT_A_NAME;;
    mret NULL.

Definition OSSL_STORE_INFO_get0_NAME_description (info : ptr) : M ptr :=
  i ← get_info info;
  if decide (type i = OSSL_STORE_INFO_NAME) then mret (u_name_desc i)
  else mret NULL.

Definition OSSL_STORE_INFO_get1_NAME_description (info : ptr) : M ptr :=
  i ← get_info info;
  if decide (type i = OSSL_STORE_INFO_NAME) then
    s ← (if decide (u_name_desc i ≠ NULL) then read_str (u_name_desc i)
         else mret (Some ""));
    r ← OPENSSL_strdup s;
    (if decide (r = NULL)
     then OSSL_STOREerr OSSL_STORE_F_OSSL_STORE_INFO_GET1_NAME_DESCRIPTION
                        ERR_R_MALLOC_FAILURE
     else mret ());;
    mret r
  else
    OSSL_STOREerr OSSL_STORE_F_OSSL_STORE_INFO_GET1_NAME_DESCRIPTION
                  OSSL_STORE_R_NOT_A_NAME;;
    mret NULL.

Definition OSSL_STORE_INFO_get0_PARAMS (info : ptr) : M ptr :=
  i ← get_info info;
  if decide (type i = OSSL_STORE_INFO_PARAMS) then mret (u_params i)
  else mret NULL.

Definition OSSL_STORE_INFO_get1_PARAMS (info : ptr) : M ptr :=
  i ← get_info info;
  if decide (type i = OSSL_STORE_INFO_PARAMS) then
    EVP_PKEY_up_ref (u_params i);;
    mret (u_params i)
  else
    OSSL_STOREerr OSSL_STORE_F_OSSL_STORE_INFO_GET1_PARAMS OSSL_STORE_R_NOT_PARAMETERS;;
    mret NULL.

Definition OSSL_STORE_INFO_get0_PKEY (info : ptr) : M ptr :=
  i ← get_info info;
  if decide (type i = OSSL_STORE_INFO_PKEY) then mret (u_pkey i)
  else mret NULL.

Definition OSSL_STORE_INFO_get1_PKEY (info : ptr) : M ptr :=
  i ← get_info info;
  if decide (type i = OSSL_STORE_INFO_PKEY) then
    EVP_PKEY_up_ref (u_pkey i);;
    mret (u_pkey i)
  else
    OSSL_STOREerr OSSL_STORE_F_OSSL_STORE_INFO_GET1_PKEY OSSL_STORE_R_NOT_A_KEY;;
    mret NULL.

Definition OSSL_STORE_INFO_get0_CERT (info : ptr) : M ptr :=
  i ← get_info info;
  if decide (type i = OSSL_STORE_INFO_CERT) then mret (u_x509 i)
  else mret NULL.

Definition OSSL_STORE_INFO_get1_CERT (info : ptr) : M ptr :=
  i ← get_info info;
  if decide (type i = OSSL_STORE_INFO_CERT) then
    X509_up_ref (u_x509 i);;
    mret (u_x509 i)
  else
    OSSL_STOREerr OSSL_STORE_F_OSSL_STORE_INFO_GET1_CERT OSSL_STORE_R_NOT_A_CERTIFICATE;;
    mret NULL.

Definition OSSL_STORE_INFO_get0_CRL (info : ptr) : M ptr :=
  i ← get_info info;
  if decide (type i = OSSL_STORE_INFO_CRL) then mret (u_crl i)
  else mret NULL.

Definition OSSL_STORE_INFO_get1_CRL (info : ptr) : M ptr :=
  i ← get_info info;
  if decide (type i = OSSL_STORE_INFO_CRL) then
    X509_CRL_up_ref (u_crl i);;
    mret (u_crl i)
  else
    OSSL_STOREerr OSSL_STORE_F_OSSL_STORE_INFO_GET1_CRL OSSL_STORE_R_NOT_A_CRL;;
    mret NULL.

(** The [switch] of [OSSL_STORE_INFO_free] has no [default]: an unknown tag
    releases the structure alone. *)
Definition OSSL_STORE_INFO_free (info : ptr) : M unit :=
  if decide (info ≠ NULL) then
    i ← get_info info;
    (if decide (type i = OSSL_STORE_INFO_EMBEDDED) then
       BUF_MEM_free (u_embedded_blob i);;
       OPENSSL_free (u_embedded_pem_name i)
     else if decide (type i = OSSL_STORE_INFO_NAME) then
       OPENSSL_free (u_name_name i);;
       OPENSSL_free (u_name_desc i)
     else if decide (type i = OSSL_STORE_INFO_PARAMS) then
       EVP_PKEY_free (u_params i)
     else if decide (type i = OSSL_STORE_INFO_PKEY) then
       EVP_PKEY_free (u_pkey i)
     else if decide (type i = OSSL_STORE_INFO_CERT) then
       X509_free (u_x509 i)
     else if decide (type i = OSSL_STORE_INFO_CRL) then
       X509_CRL_free (u_crl i)
     else mret ());;
    OPENSSL_free info
  else mret ().

(** [new_pem_name] is a [const char *] that is only read: it is passed by
    content, [None] for NULL. *)
Definition ossl_store_info_new_EMBEDDED (new_pem_name : option string)
    (embedded : ptr) : M ptr :=
  info ← store_info_new OSSL_STORE_INFO_EMBEDDED NULL;
  if decide (info = NULL) then
    OSSL_STOREerr OSSL_STORE_F_OSSL_STORE_INFO_NEW_EMBEDDED ERR_R_MALLOC_FAILURE;;
    mret NULL
  else
    assign_info info (set_u_embedded_blob embedded);;
    pem_name ← (if decide (new_pem_name = None) then mret NULL
                else OPENSSL_strdup new_pem_name);
    assign_info info (set_u_embedded_pem_name pem_name);;
    if decide (new_pem_name ≠ None ∧ pem_name = NULL) then
      OSSL_STOREerr OSSL_STORE_F_OSSL_STORE_INFO_NEW_EMBEDDED ERR_R_MALLOC_FAILURE;;
      OSSL_STORE_INFO_free info;;
      mret NULL
    else mret info.

Definition ossl_store_info_get0_EMBEDDED_buffer (info : ptr) : M ptr :=
  i ← get_info info;
  if decide (type i = OSSL_STORE_INFO_EMBEDDED) then mret (u_embedded_blob i)
  else mret NULL.

Definition ossl_store_info_get0_EMBEDDED_pem_name (info : ptr) : M ptr :=
  i ← get_info info;
  if decide (type i = OSSL_STORE_INFO_EMBEDDED) then mret (u_embedded_pem_name i)
  else mret NULL.

(** ** Loaders and store contexts, lines 20-125 *)

(** [struct ossl_store_loader_st] (store_locl.h): the entry points of a
    backend.  [ctrl] is optional; its [va_list] is a list of words. *)
Record OSSL_STORE_LOADER := mk_loader {
  open : ptr → string → ptr → ptr → M ptr;
  ctrl : option (ptr → Z → list Z → M Z);
  load : ptr → ptr → ptr → M ptr;
  eof : ptr → M Z;
  error : ptr → M Z;
  close : ptr → M Z
}.

Definition OSSL_STORE_post_process_info_fn := ptr → ptr → M ptr.

(** What lies outside this file: the loader structures and callbacks behind
    code pointers, and the registry lookup of store_register.c. *)
Record Env := mk_env {
  loader_at : ptr → option OSSL_STORE_LOADER;
  post_process_at : ptr → option OSSL_STORE_post_process_info_fn;
  ossl_store_get0_loader_int : string → M ptr
}.

Variable env : Env.

Definition loader_deref (p : ptr) : M OSSL_STORE_LOADER :=
  λ w, match loader_at env p with
       | Some L => Ret L w
       | None => Undef
       end.

Definition post_process_deref (p : ptr) : M OSSL_STORE_post_process_info_fn :=
  λ w, match post_process_at env p with
       | Some f => Ret f w
       | None => Undef
       end.

(** The label [done] of [OSSL_STORE_open], lines 63-72. *)
Definition open_done (loader loader_ctx ctx : ptr) : M ptr :=
  (if decide (loader_ctx ≠ NULL) then
     L ← loader_deref loader;
     close L loader_ctx;;
     mret ()
   else mret ());;
  mret ctx.

Definition OSSL_STORE_open (uri : string)
    (ui_method ui_data post_process post_process_data : ptr) : M ptr :=
  let p := open_scheme uri in
  loader ← ossl_store_get0_loader_int env p;
  if decide (loader = NULL) then open_done loader NULL NULL
  else
    L ← loader_deref loader;
    loader_ctx ← open L loader uri ui_method ui_data;
    if decide (loader_ctx = NULL) then open_done loader NULL NULL
    else
      ctx ← zalloc_ctx;
      if decide (ctx = NULL) then
        OSSL_STOREerr OSSL_STORE_F_OSSL_STORE_OPEN ERR_R_MALLOC_FAILURE;;
        open_done loader loader_ctx ctx
      else
        put_ctx ctx (mk_ctx loader loader_ctx ui_method ui_data
                            post_process post_process_data);;
        open_done loader NULL ctx.

Definition OSSL_STORE_ctrl (ctx : ptr) (cmd : Z) (args : list Z) : M Z :=
  c ← get_ctx ctx;
  L ← loader_deref (loader c);
  match ctrl L with
  | Some f => f (loader_ctx c) cmd args
  | None => mret 0
  end.

(** [OSSL_STORE_load], lines 88-107.  Each turn of the [again] loop spends
    one unit of fuel. *)
Fixpoint OSSL_STORE_load (fuel : nat) (ctx : ptr) : M ptr :=
  match fuel with
  | O => λ _, Timeout
  | S fuel' =>
      c ← get_ctx ctx;
      L ← loader_deref (loader c);
      v ← load L (loader_ctx c) (ui_method c) (ui_data c);
      c ← get_ctx ctx;
      if decide (post_process c ≠ NULL ∧ v ≠ NULL) then
        f ← post_process_deref (post_process c);
        v ← f v (post_process_data c);
        if decide (v = NULL) then OSSL_STORE_load fuel' ctx
        else mret v
      else mret v
  end.

Definition OSSL_STORE_error (ctx : ptr) : M Z :=
  c ← get_ctx ctx;
  L ← loader_deref (loader c);
  error L (loader_ctx c).

Definition OSSL_STORE_eof (ctx : ptr) : M Z :=
  c ← get_ctx ctx;
  L ← loader_deref (loader c);
  eof L (loader_ctx c).

Definition OSSL_STORE_close (ctx : ptr) : M Z :=
  c ← get_ctx ctx;
  L ← loader_deref (loader c);
  loader_ret ← close L (loader_ctx c);
  OPENSSL_free ctx;;
  mret loader_ret.

(** ** The iteration protocol in the spec's words (4.2)

    One call of Load: the loader's load is invoked; a sentinel is returned
    at once; an object goes to the filter when one is installed, and is
    returned (possibly transformed) unless the filter discards it, in which
    case the load and filter step is retried.  [Load_spec ctx w r w'] says
    that a call in [w] yields [r] and leaves [w']. *)
Definition ctx_at (ctx : ptr) (w : World) : option ossl_store_ctx_st :=
  match heap w !! ctx with
  | Some (BCtx c) => Some c
  | _ => None
  end.

Inductive Load_spec (ctx : ptr) : World → ptr → World → Prop :=
| Load_sentinel w c L w1 c1 :
    ctx_at ctx w = Some c →
    loader_at env (loader c) = Some L →
    load L (loader_ctx c) (ui_method c) (ui_data c) w = Ret NULL w1 →
    ctx_at ctx w1 = Some c1 →
    Load_spec ctx w NULL w1
| Load_unfiltered w c L v w1 c1 :
    ctx_at ctx w = Some c →
    loader_at env (loader c) = Some L →
    load L (loader_ctx c) (ui_method c) (ui_data c) w = Ret v w1 →
    v ≠ NULL →
    ctx_at ctx w1 = Some c1 →
    post_process c1 = NULL →
    Load_spec ctx w v w1
| Load_kept w c L v w1 c1 f v' w2 :
    ctx_at ctx w = Some c →
    loader_at env (loader c) = Some L →
    load L (loader_ctx c) (ui_method c) (ui_data c) w = Ret v w1 →
    v ≠ NULL →
    ctx_at ctx w1 = Some c1 →
    post_process c1 ≠ NULL →
    post_process_at env (post_process c1) = Some f →
    f v (post_process_data c1) w1 = Ret v' w2 →
    v' ≠ NULL →
    Load_spec ctx w v' w2
| Load_discarded w c L v w1 c1 f w2 r w3 :
    ctx_at ctx w = Some c →
    loader_at env (loader c) = Some L →
    load L (loader_ctx c) (ui_method c) (ui_data c) w = Ret v w1 →
    v ≠ NULL →
    ctx_at ctx w1 = Some c1 →
    post_process c1 ≠ NULL →
    post_process_at env (post_process c1) = Some f →
    f v (post_process_data c1) w1 = Ret NULL w2 →
    Load_spec ctx w2 r w3 →
    Load_spec ctx w r w3.

(** ** The operations on a live credential object

    Every function of the file that takes an [OSSL_STORE_INFO *] and leaves
    it alive; all of them return a word (a pointer or an [int]). *)
Inductive info_op :=
| Op_get_type
| Op_get0_NAME | Op_get1_NAME
| Op_get0_NAME_description | Op_get1_NAME_description
| Op_get0_PARAMS | Op_get1_PARAMS
| Op_get0_PKEY | Op_get1_PKEY
| Op_get0_CERT | Op_get1_CERT
| Op_get0_CRL | Op_get1_CRL
| Op_get0_EMBEDDED_buffer | Op_get0_EMBEDDED_pem_name
| Op_set0_NAME_description (desc : ptr).

Definition run_op (op : info_op) (info : ptr) : M Z :=
  match op with
  | Op_get_type => OSSL_STORE_INFO_get_type info
  | Op_get0_NAME => OSSL_STORE_INFO_get0_NAME info
  | Op_get1_NAME => OSSL_STORE_INFO_get1_NAME info
  | Op_get0_NAME_description => OSSL_STORE_INFO_get0_NAME_description info
  | Op_get1_NAME_description => OSSL_STORE_INFO_get1_NAME_description info
  | Op_get0_PARAMS => OSSL_STORE_INFO_get0_PARAMS info
  | Op_get1_PARAMS => OSSL_STORE_INFO_get1_PARAMS info
  | Op_get0_PKEY => OSSL_STORE_INFO_get0_PKEY info
  | Op_get1_PKEY => OSSL_STORE_INFO_get1_PKEY info
  | Op_get0_CERT => OSSL_STORE_INFO_get0_CERT info
  | Op_get1_CERT => OSSL_STORE_INFO_get1_CERT info
  | Op_get0_CRL => OSSL_STORE_INFO_get0_CRL info
  | Op_get1_CRL => OSSL_STORE_INFO_get1_CRL info
  | Op_get0_EMBEDDED_buffer => ossl_store_info_get0_EMBEDDED_buffer info
  | Op_get0_EMBEDDED_pem_name => ossl_store_info_get0_EMBEDDED_pem_name info
  | Op_set0_NAME_description desc =>
      OSSL_STORE_INFO_set0_NAME_description info desc
  end.

(** Whether the coming allocation succeeds. *)
Definition next_alloc_ok (w : World) : bool :=
  match alloc_plan w with
  | false :: _ => false
  | _ => true
  end.

Definition push_err (f : err_func) (r : err_reason) (w : World) : World :=
  set_err_queue ((f, r) :: err_queue w) w.

(** The world after a successful allocation of a copy of [s] at [p]. *)
Definition copied (s : string) (p : ptr) (w : World) : World :=
  set_alloc_plan (tail (alloc_plan w)) (set_heap (<[p := BStr s]> (heap w)) w).

(** The world after a failed allocation reported by function [f]. *)
Definition alloc_failed (f : err_func) (w : World) : World :=
  push_err f ERR_R_MALLOC_FAILURE (set_alloc_plan (tail (alloc_plan w)) w).

(** A computation that leaves the credential object at [info] as it is. *)
Definition keeps {A} (info : ptr) (i : ossl_store_info_st) (m : M A) : Prop :=
  ∀ w a w', heap w !! info = Some (BInfo i) → m w = Ret a w' →
            heap w' !! info = Some (BInfo i).

Definition result {A} (o : outcome A) : option A :=
  match o with
  | Ret a _ => Some a
  | _ => None
  end.

End Store.

Global Arguments World : clear implicits.
Global Arguments Env : clear implicits.
Global Arguments OSSL_STORE_LOADER : clear implicits.

(** ** A test backend

    A stub loader: its session is a heap block, the objects it will yield
    are queued in the backend state, and its close reports a status chosen
    beforehand. *)
Module Stub.

Record state := mk_state {
  pending : list ptr;
  close_status : Z
}.

Abbreviation World := (World state).

Definition stub_open (loader : ptr) (uri : string) (ui_method ui_data : ptr)
  : M (Backend := state) ptr :=
  CRYPTO_malloc (BStr uri).

Definition stub_load (loader_ctx ui_method ui_data : ptr)
  : M (Backend := state) ptr :=
  λ w, match pending (backend w) with
       | [] => Ret NULL w
       | v :: rest =>
           Ret v (set_backend (mk_state rest (close_status (backend w))) w)
       end.

Definition stub_eof (loader_ctx : ptr) : M (Backend := state) Z :=
  λ w, match pending (backend w) with
       | [] => Ret 1 w
       | _ => Ret 0 w
       end.

Definition stub_error (loader_ctx : ptr) : M (Backend := state) Z := mret 0.

Definition chosen_status : M (Backend := state) Z :=
  λ w, Ret (close_status (backend w)) w.

Definition stub_close (loader_ctx : ptr) : M (Backend := state) Z :=
  OPENSSL_free loader_ctx;;
  chosen_status.

Definition stub_loader : OSSL_STORE_LOADER state :=
  mk_loader stub_open None stub_load stub_eof stub_error stub_close.

(** A filter that rejects (and releases) every Name object. *)
Definition reject_names (v data : ptr) : M (Backend := state) ptr :=
  t ← OSSL_STORE_INFO_get_type v;
  if decide (t = OSSL_STORE_INFO_NAME) then
    OSSL_STORE_INFO_free v;;
    mret NULL
  else mret v.

Definition file_loader : ptr := 100.
Definition reject_names_fn : ptr := 200.

(** The registry knows the scheme [file] alone. *)
Definition stub_env : Env state :=
  mk_env
    (λ p, if decide (p = file_loader) then Some stub_loader else None)
    (λ p, if decide (p = reject_names_fn) then Some reject_names else None)
    (λ scheme, if decide (scheme = "file") then mret file_loader else mret NULL).

Definition queue (items : list ptr) : M (Backend := state) unit :=
  λ w, Ret () (set_backend (mk_state items (close_status (backend w))) w).

(** Two strings and two certificates, nothing else. *)
Definition stub_world (plan : list bool) (status : Z) : World :=
  mk_world (<[1 := BStr "alice"]> (<[2 := BObj K_X509 1]>
           (<[3 := BStr "bob"]> (<[4 := BObj K_X509 1]> ∅))))
           [] plan (mk_state [] status).

(** The loader yields [Name; Certificate; Name; Certificate]; the context
    is opened with the filter; Load is called three times, then Eof. *)
Definition filtered_run
  : M (Backend := state) (list ptr * list ptr * list Z * Z) :=
  n1 ← OSSL_STORE_INFO_new_NAME 1;
  c1 ← OSSL_STORE_INFO_new_CERT 2;
  n2 ← OSSL_STORE_INFO_new_NAME 3;
  c2 ← OSSL_STORE_INFO_new_CERT 4;
  queue [n1; c1; n2; c2];;
  ctx ← OSSL_STORE_open stub_env "file:/tmp/x" NULL NULL reject_names_fn NULL;
  r1 ← OSSL_STORE_load stub_env 4 ctx;
  r2 ← OSSL_STORE_load stub_env 4 ctx;
  r3 ← OSSL_STORE_load stub_env 4 ctx;
  e ← OSSL_STORE_eof stub_env ctx;
  t1 ← OSSL_STORE_INFO_get_type r1;
  t2 ← OSSL_STORE_INFO_get_type r2;
  mret ([c1; c2], [r1; r2; r3], [t1; t2], e).

(** The same backend in mid-course: a Name object (5) and a Certificate
    object (6) are still to come, and the context at 10 has the filter. *)
Definition filter_world : World :=
  mk_world (<[1 := BStr "alice"]> (<[2 := BObj K_X509 1]>
           (<[5 := BInfo (mk_info OSSL_STORE_INFO_NAME 1 NULL)]>
           (<[6 := BInfo (mk_info OSSL_STORE_INFO_CERT 2 NULL)]>
           (<[9 := BStr "file:/tmp/x"]>
           (<[10 := BCtx (mk_ctx file_loader 9 NULL NULL reject_names_fn NULL)]>
              ∅))))))
           [] [] (mk_state [5; 6] 1).

(** A Name object at 5 (its string at 1) and a Certificate object at 6
    (its certificate, referenced once, at 2). *)
Definition objects_world (plan : list bool) : World :=
  mk_world (<[1 := BStr "alice"]> (<[2 := BObj K_X509 1]>
           (<[5 := BInfo (mk_info OSSL_STORE_INFO_NAME 1 NULL)]>
           (<[6 := BInfo (mk_info OSSL_STORE_INFO_CERT 2 NULL)]> ∅))))
           [] plan (mk_state [] 1).

(** An open context at 10 on the session at 9. *)
Definition open_world (status : Z) : World :=
  mk_world (<[9 := BStr "file:/tmp/x"]>
           (<[10 := BCtx (mk_ctx file_loader 9 NULL NULL NULL NULL)]> ∅))
           [] [] (mk_state [] status).

(** A buffer at 1; the first allocation will succeed, the second fail. *)
Definition blob_world : World :=
  mk_world (<[1 := BBufMem "blob"]> ∅) [] [true; false] (mk_state [] 1).

Fixpoint str_repeat (c : ascii) (n : nat) (tl : string) : string :=
  match n with
  | O => tl
  | S n' => String c (str_repeat c n' tl)
  end.

(** A URI whose scheme is 255 letters long. *)
Definition long_scheme : string := str_repeat "a" 255 "".
Definition long_uri : string := str_repeat "a" 255 ":x".

End Stub.

(** ** The embedded-stream bridge, lines 412-453 *)

Section Bridge.

Context {Backend : Type}.

(** What the bridge takes from outside this file: the two entry points of
    the file loader (loader_file.c) and the function code of storeerr.h
    under which [ossl_store_attach_pem_bio] reports. *)
Record FileBridge := mk_bridge {
  ossl_store_file_attach_pem_bio_int : ptr → M (Backend := Backend) ptr;
  ossl_store_file_detach_pem_bio_int : ptr → M (Backend := Backend) Z;
  OSSL_STORE_F_OSSL_STORE_ATTACH_PEM_BIO : err_func
}.

Variable env : Env Backend.
Variable file : FileBridge.

(** The label [done] of [ossl_store_attach_pem_bio], lines 436-444. *)
Definition attach_done (loader loader_ctx ctx : ptr) : M ptr :=
  (if decide (loader_ctx ≠ NULL) then
     L ← loader_deref env loader;
     close L loader_ctx;;
     mret ()
   else mret ());;
  mret ctx.

Definition ossl_store_attach_pem_bio (bp ui_method ui_data : ptr) : M ptr :=
  loader ← ossl_store_get0_loader_int env "file";
  if decide (loader = NULL) then attach_done loader NULL NULL
  else
    loader_ctx ← ossl_store_file_attach_pem_bio_int file bp;
    if decide (loader_ctx = NULL) then attach_done loader NULL NULL
    else
      ctx ← zalloc_ctx;
      if decide (ctx = NULL) then
        OSSL_STOREerr (OSSL_STORE_F_OSSL_STORE_ATTACH_PEM_BIO file)
                      ERR_R_MALLOC_FAILURE;;
        attach_done loader loader_ctx ctx
      else
        put_ctx ctx (mk_ctx loader loader_ctx ui_method ui_data NULL NULL);;
        attach_done loader NULL ctx.

Definition ossl_store_detach_pem_bio (ctx : ptr) : M Z :=
  c ← get_ctx ctx;
  loader_ret ← ossl_store_file_detach_pem_bio_int file (loader_ctx c);
  OPENSSL_free ctx;;
  mret loader_ret.

(** ** Heaps after construction and destruction *)

(** The world after a credential object with tag [t] and payload words
    [p0], [p1] has been allocated at the coming fresh address. *)
Definition constructed (t : Z) (p0 p1 : ptr) (w : World Backend)
  : World Backend :=
  set_alloc_plan (tail (alloc_plan w))
    (set_heap (<[fresh_ptr (heap w) := BInfo (mk_info t p0 p1)]> (heap w)) w).

(** The heap after [OPENSSL_free(p)] or [BUF_MEM_free(p)]. *)
Definition released (p : ptr) (h : gmap Z block) : gmap Z block :=
  if decide (p = NULL) then h else delete p h.

(** The heap after one reference of the handle [p], counted [n], has been
    given up. *)
Definition unreferenced (k : obj_kind) (n : Z) (p : ptr) (h : gmap Z block)
  : gmap Z block :=
  if decide (0 < n - 1) then <[p := BObj k (n - 1)]> h else delete p h.

(** Whether [p] is NULL or a live handle of kind [k] counted [n], and
    the heap after [EVP_PKEY_free(p)], [X509_free(p)] or
    [X509_CRL_free(p)] on such a pointer. *)
Definition handle_or_null (k : obj_kind) (n : Z) (p : ptr)
    (h : gmap Z block) : Prop :=
  p = NULL ∨ h !! p = Some (BObj k n).

Definition given_up (k : obj_kind) (n : Z) (p : ptr) (h : gmap Z block)
  : gmap Z block :=
  if decide (p = NULL) then h else unreferenced k n p h.

(** Whether a pointer can be released: it is NULL or allocated. *)
Definition releasable (p : ptr) (h : gmap Z block) : Prop :=
  p = NULL ∨ is_Some (h !! p).

(** A computation that queues an error only along with a zero result, and
    then a single one. *)
Definition reports_with_zero (m : M (Backend := Backend) Z) : Prop :=
  ∀ w r w', m w = Ret r w' →
    err_queue w' = err_queue w ∨
    (r = 0 ∧ ∃ e, err_queue w' = e :: err_queue w).

(** A computation that queues no error. *)
Definition quiet {A} (m : M (Backend := Backend) A) : Prop :=
  ∀ w a w', m w = Ret a w' → err_queue w' = err_queue w.

(** A constructor that returns NULL exactly when it queues an error, which
    is then a single allocation failure. *)
Definition reports_iff_null (m : M (Backend := Backend) ptr) : Prop :=
  ∀ w r w', m w = Ret r w' →
    (r ≠ NULL ∧ err_queue w' = err_queue w) ∨
    (r = NULL ∧ ∃ f, err_queue w' = (f, ERR_R_MALLOC_FAILURE) :: err_queue w).

End Bridge.

Global Arguments FileBridge : clear implicits.

(** A stub of the file loader's stream entry points: attaching allocates
    the session, detaching releases it and reports the chosen status. *)
Module BridgeStub.

Definition attach_int (bp : ptr) : M (Backend := Stub.state) ptr :=
  CRYPTO_malloc (BStr "bio").

Definition detach_int (loader_ctx : ptr) : M (Backend := Stub.state) Z :=
  OPENSSL_free loader_ctx;;
  Stub.chosen_status.

(** The function code is of no account in the runs below; the code of
    Open stands in. *)
Definition stub_bridge : FileBridge Stub.state :=
  mk_bridge attach_int detach_int OSSL_STORE_F_OSSL_STORE_OPEN.

(** A context at 10 without filter, on the session at 9; the loader will
    yield the object at 6. *)
Definition unfiltered_world : Stub.World :=
  mk_world (<[2 := BObj K_X509 1]>
           (<[6 := BInfo (mk_info OSSL_STORE_INFO_CERT 2 NULL)]>
           (<[9 := BStr "bio"]>
           (<[10 := BCtx (mk_ctx Stub.file_loader 9 NULL NULL NULL NULL)]>
              ∅))))
           [] [] (Stub.mk_state [6] 0).

(** A Name object at 5 whose name is at 1 and description at 3; a spare
    string at 4; a Certificate object at 6 on the certificate at 2,
    referenced twice; an embedded-stream object at 7 on the buffer at 8. *)
Definition described_world (plan : list bool) : Stub.World :=
  mk_world (<[1 := BStr "alice"]> (<[2 := BObj K_X509 2]>
           (<[3 := BStr "a name"]> (<[4 := BStr "spare"]>
           (<[5 := BInfo (mk_info OSSL_STORE_INFO_NAME 1 3)]>
           (<[6 := BInfo (mk_info OSSL_STORE_INFO_CERT 2 NULL)]>
           (<[7 := BInfo (mk_info OSSL_STORE_INFO_EMBEDDED 8 NULL)]>
           (<[8 := BBufMem "blob"]> ∅))))))))
           [] plan (Stub.mk_state [] 1).

End BridgeStub.

(** * Properties *)

(** ** The scheme of a URI *)

Lemma strchr_None (s : string) (c : ascii) :
  strchr s c = None ↔ ∀ k, String.get k s ≠ Some c.
Proof.
  induction s as [|a s IH]; cbn.
  - split; [by intros _ [|k] | done].
  - destruct (decide (a = c)) as [->|Hne].
    + split; [done|]. intros H. by destruct (H 0%nat).
    + destruct (strchr s c) as [off|]; cbn.
      * split; [done|]. intros H. exfalso.
        assert (Some off = None) as E; [|done].
        apply IH. intros k. apply (H (S k)).
      * split; [|done]. intros _ [|k]; cbn; [congruence|].
        by apply IH.
Qed.

Lemma strchr_take (n : nat) (s : string) (c : ascii) :
  strchr (str_take n s) c =
    match strchr s c with
    | Some off => if decide (off < n)%nat then Some off else None
    | None => None
    end.
Proof.
  revert n. induction s as [|a s IH]; intros [|n]; cbn; try done.
  - destruct (decide (a = c)); [done|]. by destruct (strchr s c).
  - destruct (decide (a = c)); [done|]. rewrite IH.
    destruct (strchr s c) as [off|]; cbn; [|done].
    destruct (decide (off < n)%nat), (decide (S off < S n)%nat);
      cbn; try done; lia.
Qed.

Lemma str_take_take (m n : nat) (s : string) :
  (m ≤ n)%nat → str_take m (str_take n s) = str_take m s.
Proof.
  revert n s. induction m as [|m IH]; intros [|n] [|a s] H; cbn; try done.
  - lia.
  - f_equal. apply IH. lia.
Qed.

(** The scheme Open hands to the registry: the text before the first colon
    when that colon is among the first 255 characters, [file] otherwise. *)
Lemma open_scheme_eq (uri : string) :
  open_scheme uri =
    match strchr uri ":" with
    | Some off => if decide (off < 255)%nat then str_take off uri else "file"
    | None => "file"
    end.
Proof.
  unfold open_scheme, OPENSSL_strlcpy. cbv zeta.
  change (Nat.pred 256) with 255%nat. rewrite strchr_take.
  destruct (strchr uri ":") as [off|]; [|done].
  destruct (decide _); [|done]. apply str_take_take. lia.
Qed.

(** C5, as the code has it: the registry is asked for the exact text
    before the first colon whenever that colon lies within the first 255
    characters; a scheme of 255 characters or more is neither cut short nor
    refused: the lookup is made with the default scheme [file], as for a
    URI without a colon. *)
Theorem open_scheme_overlong_is_file (uri : string) :
  open_scheme uri =
    match strchr uri ":" with
    | Some off => if decide (off < 255)%nat then str_take off uri else "file"
    | None => "file"
    end ∧
  (∀ off, strchr uri ":" = Some off → (255 ≤ off)%nat →
          open_scheme uri = "file").
Proof.
  split; [apply open_scheme_eq|].
  intros off Hoff Hlong. rewrite open_scheme_eq, Hoff.
  destruct (decide _); [lia | done].
Qed.


Section StoreFacts.

Context {Backend : Type}.
Implicit Types (w : World Backend) (p info ctx : ptr) (i : ossl_store_info_st).
Local Abbreviation M := (M (Backend := Backend)).
Local Abbreviation keeps := (keeps (Backend := Backend)).

Lemma bind_unfold {A B} (m : M A) (f : A → M B) w :
  (m ≫= f) w = match m w with
               | Ret a w' => f a w'
               | Undef => Undef
               | Timeout => Timeout
               end.
Proof. reflexivity. Qed.

Lemma bind_Ret {A B} (m : M A) (f : A → M B) w a w' :
  m w = Ret a w' → (m ≫= f) w = f a w'.
Proof. intros H. by rewrite bind_unfold, H. Qed.

Lemma get_info_live info i w :
  heap w !! info = Some (BInfo i) → get_info info w = Ret i w.
Proof. intros H. unfold get_info. by rewrite H. Qed.

Lemma get_ctx_live ctx c w :
  heap w !! ctx = Some (BCtx c) → get_ctx ctx w = Ret c w.
Proof. intros H. unfold get_ctx. by rewrite H. Qed.

Lemma ctx_at_Some ctx c w :
  ctx_at ctx w = Some c ↔ heap w !! ctx = Some (BCtx c).
Proof.
  unfold ctx_at. split.
  - destruct (heap w !! ctx) as [[]|]; congruence.
  - by intros ->.
Qed.

Lemma get_ctx_Ret ctx c w w' :
  get_ctx ctx w = Ret c w' → w' = w ∧ ctx_at ctx w = Some c.
Proof.
  unfold get_ctx, ctx_at.
  destruct (heap w !! ctx) as [[]|]; try discriminate.
  by intros [= -> ->].
Qed.

(** The allocator never hands out NULL nor an address in use. *)
Lemma fresh_ptr_not_NULL (h : gmap Z block) : fresh_ptr h ≠ NULL.
Proof.
  unfold fresh_ptr. intros E.
  pose proof (is_fresh (taken h)) as Hf.
  assert (NULL ∈ taken h) as Hin by (unfold taken; set_solver).
  congruence.
Qed.

Lemma fresh_ptr_unused (h : gmap Z block) : h !! fresh_ptr h = None.
Proof.
  unfold fresh_ptr. apply not_elem_of_dom. intros E.
  apply (is_fresh (taken h)). unfold taken at 2. set_solver.
Qed.

Lemma fresh_ptr_not_live (h : gmap Z block) (q : ptr) (b : block) :
  h !! q = Some b → fresh_ptr h ≠ q.
Proof. intros H E. rewrite <- E in H. by rewrite fresh_ptr_unused in H. Qed.

Lemma CRYPTO_malloc_fails b w :
  next_alloc_ok w = false →
  CRYPTO_malloc b w = Ret NULL (set_alloc_plan (tail (alloc_plan w)) w).
Proof.
  unfold next_alloc_ok, CRYPTO_malloc.
  destruct (alloc_plan w) as [|[] plan]; done.
Qed.

Lemma CRYPTO_malloc_succeeds b w :
  next_alloc_ok w = true →
  CRYPTO_malloc b w =
    Ret (fresh_ptr (heap w))
        (set_alloc_plan (tail (alloc_plan w))
           (set_heap (<[fresh_ptr (heap w) := b]> (heap w)) w)).
Proof.
  unfold next_alloc_ok, CRYPTO_malloc.
  destruct w as [h e [|[] plan] bk]; done.
Qed.

(** ** Destruction *)

(** C10: destroying a null credential object does nothing at all: no
    payload is released, nothing is deallocated, the world is unchanged. *)
Theorem OSSL_STORE_INFO_free_NULL w :
  OSSL_STORE_INFO_free NULL w = Ret () w.
Proof.
  unfold OSSL_STORE_INFO_free.
  destruct (decide (NULL ≠ NULL)) as [Hguard|_].
  - by destruct Hguard.
  - reflexivity.
Qed.

(** ** Accessors on a mismatched tag *)

(** C6: on an object whose tag does not match, every borrowing (get0)
    accessor returns NULL and leaves the world, error queue included, as it
    was, while the duplicating (get1) accessor of the same variant returns
    NULL and queues the TypeMismatch error of that variant. *)
Theorem get0_silent_get1_type_mismatch info i w :
  heap w !! info = Some (BInfo i) →
  (type i ≠ OSSL_STORE_INFO_PARAMS →
     OSSL_STORE_INFO_get0_PARAMS info w = Ret NULL w ∧
     OSSL_STORE_INFO_get1_PARAMS info w =
       Ret NULL (push_err OSSL_STORE_F_OSSL_STORE_INFO_GET1_PARAMS
                          OSSL_STORE_R_NOT_PARAMETERS w)) ∧
  (type i ≠ OSSL_STORE_INFO_PKEY →
     OSSL_STORE_INFO_get0_PKEY info w = Ret NULL w ∧
     OSSL_STORE_INFO_get1_PKEY info w =
       Ret NULL (push_err OSSL_STORE_F_OSSL_STORE_INFO_GET1_PKEY
                          OSSL_STORE_R_NOT_A_KEY w)) ∧
  (type i ≠ OSSL_STORE_INFO_CERT →
     OSSL_STORE_INFO_get0_CERT info w = Ret NULL w ∧
     OSSL_STORE_INFO_get1_CERT info w =
       Ret NULL (push_err OSSL_STORE_F_OSSL_STORE_INFO_GET1_CERT
                          OSSL_STORE_R_NOT_A_CERTIFICATE w)) ∧
  (type i ≠ OSSL_STORE_INFO_CRL →
     OSSL_STORE_INFO_get0_CRL info w = Ret NULL w ∧
     OSSL_STORE_INFO_get1_CRL info w =
       Ret NULL (push_err OSSL_STORE_F_OSSL_STORE_INFO_GET1_CRL
                          OSSL_STORE_R_NOT_A_CRL w)) ∧
  (type i ≠ OSSL_STORE_INFO_NAME →
     OSSL_STORE_INFO_get0_NAME info w = Ret NULL w ∧
     OSSL_STORE_INFO_get1_NAME info w =
       Ret NULL (push_err OSSL_STORE_F_OSSL_STORE_INFO_GET1_NAME
                          OSSL_STORE_R_NOT_A_NAME w)) ∧
  (type i ≠ OSSL_STORE_INFO_NAME →
     OSSL_STORE_INFO_get0_NAME_description info w = Ret NULL w ∧
     OSSL_STORE_INFO_get1_NAME_description info w =
       Ret NULL (push_err OSSL_STORE_F_OSSL_STORE_INFO_GET1_NAME_DESCRIPTION
                          OSSL_STORE_R_NOT_A_NAME w)) ∧
  TypeMismatch OSSL_STORE_R_NOT_PARAMETERS = true ∧
  TypeMismatch OSSL_STORE_R_NOT_A_KEY = true ∧
  TypeMismatch OSSL_STORE_R_NOT_A_CERTIFICATE = true ∧
  TypeMismatch OSSL_STORE_R_NOT_A_CRL = true ∧
  TypeMismatch OSSL_STORE_R_NOT_A_NAME = true.
Proof.
  intros Hl. repeat split; try reflexivity; revert H.
  all: unfold OSSL_STORE_INFO_get0_PARAMS, OSSL_STORE_INFO_get1_PARAMS,
    OSSL_STORE_INFO_get0_PKEY, OSSL_STORE_INFO_get1_PKEY,
    OSSL_STORE_INFO_get0_CERT, OSSL_STORE_INFO_get1_CERT,
    OSSL_STORE_INFO_get0_CRL, OSSL_STORE_INFO_get1_CRL,
    OSSL_STORE_INFO_get0_NAME, OSSL_STORE_INFO_get1_NAME,
    OSSL_STORE_INFO_get0_NAME_description,
    OSSL_STORE_INFO_get1_NAME_description.
  all: rewrite !bind_unfold, (get_info_live _ _ _ Hl).
  all: intros Hne; destruct (decide _); done.
Qed.

(** ** Open and Close *)

Variable env : Env Backend.

Lemma loader_deref_Some ld L w :
  loader_at env ld = Some L → loader_deref env ld w = Ret L w.
Proof. intros H. unfold loader_deref. by rewrite H. Qed.

Lemma OPENSSL_free_live p b w :
  p ≠ NULL → heap w !! p = Some b →
  OPENSSL_free p w = Ret () (set_heap (delete p (heap w)) w).
Proof.
  intros Hp Hl. unfold OPENSSL_free.
  destruct (decide _); [done|]. by rewrite Hl.
Qed.

(** C8: on an open context, Close calls the loader's close on the session,
    then releases the context's own block whatever status the loader
    reported (a failure included), and returns that status. *)
Theorem OSSL_STORE_close_releases_context ctx c L w status w1 :
  ctx ≠ NULL →
  heap w !! ctx = Some (BCtx c) →
  loader_at env (loader c) = Some L →
  close L (loader_ctx c) w = Ret status w1 →
  is_Some (heap w1 !! ctx) →
  OSSL_STORE_close env ctx w = Ret status (set_heap (delete ctx (heap w1)) w1) ∧
  heap (set_heap (delete ctx (heap w1)) w1) !! ctx = None.
Proof.
  intros Hn Hl HL Hc [b Hb]. split; [|apply lookup_delete_eq].
  unfold OSSL_STORE_close.
  rewrite (bind_Ret _ _ _ _ _ (get_ctx_live _ _ _ Hl)).
  rewrite (bind_Ret _ _ _ _ _ (loader_deref_Some _ _ _ HL)).
  rewrite (bind_Ret _ _ _ _ _ Hc).
  by rewrite (bind_Ret _ _ _ _ _ (OPENSSL_free_live _ _ _ Hn Hb)).
Qed.

Lemma open_done_no_session ld ctx w :
  open_done env ld NULL ctx w = Ret ctx w.
Proof. reflexivity. Qed.

Lemma open_done_session ld L session ctx w status w1 :
  session ≠ NULL →
  loader_at env ld = Some L →
  close L session w = Ret status w1 →
  open_done env ld session ctx w = Ret ctx w1.
Proof.
  intros Hs HL Hc. unfold open_done.
  destruct (decide _); [|done].
  rewrite bind_unfold.
  rewrite (bind_Ret _ _ _ _ _ (loader_deref_Some _ _ _ HL)).
  by rewrite (bind_Ret _ _ _ _ _ Hc).
Qed.

(** C3: the three ways Open fails.  When the registry has no loader for the
    scheme, Open returns NULL straight after the lookup; when the loader's
    open yields no session, Open returns NULL straight after it; when the
    context cannot be allocated, the session just obtained is handed to the
    loader's close and Open returns NULL whatever close reported. *)
Theorem OSSL_STORE_open_failure uri um ud pp ppd w :
  (∀ w1,
     ossl_store_get0_loader_int env (open_scheme uri) w = Ret NULL w1 →
     OSSL_STORE_open env uri um ud pp ppd w = Ret NULL w1) ∧
  (∀ ld L w1 w2,
     ossl_store_get0_loader_int env (open_scheme uri) w = Ret ld w1 →
     ld ≠ NULL →
     loader_at env ld = Some L →
     open L ld uri um ud w1 = Ret NULL w2 →
     OSSL_STORE_open env uri um ud pp ppd w = Ret NULL w2) ∧
  (∀ ld L w1 session w2 status w3,
     ossl_store_get0_loader_int env (open_scheme uri) w = Ret ld w1 →
     ld ≠ NULL →
     loader_at env ld = Some L →
     open L ld uri um ud w1 = Ret session w2 →
     session ≠ NULL →
     next_alloc_ok w2 = false →
     close L session
       (push_err OSSL_STORE_F_OSSL_STORE_OPEN ERR_R_MALLOC_FAILURE
          (set_alloc_plan (tail (alloc_plan w2)) w2)) = Ret status w3 →
     OSSL_STORE_open env uri um ud pp ppd w = Ret NULL w3).
Proof.
  repeat split.
  - intros w1 Hr. unfold OSSL_STORE_open. cbv zeta.
    by rewrite (bind_Ret _ _ _ _ _ Hr).
  - intros ld L w1 w2 Hr Hld HL Ho. unfold OSSL_STORE_open. cbv zeta.
    rewrite (bind_Ret _ _ _ _ _ Hr). destruct (decide _); [done|].
    rewrite (bind_Ret _ _ _ _ _ (loader_deref_Some _ _ _ HL)).
    by rewrite (bind_Ret _ _ _ _ _ Ho).
  - intros ld L w1 session w2 status w3 Hr Hld HL Ho Hs Ha Hc.
    unfold OSSL_STORE_open. cbv zeta.
    rewrite (bind_Ret _ _ _ _ _ Hr). destruct (decide _); [done|].
    rewrite (bind_Ret _ _ _ _ _ (loader_deref_Some _ _ _ HL)).
    rewrite (bind_Ret _ _ _ _ _ Ho). destruct (decide _); [done|].
    unfold zalloc_ctx. rewrite (bind_Ret _ _ _ _ _ (CRYPTO_malloc_fails _ _ Ha)).
    destruct (decide _); [|done].
    rewrite bind_unfold. cbn [OSSL_STOREerr].
    by apply open_done_session with (L := L) (status := status).
Qed.

(** A context that Open returns is bound to the loader the registry gave
    for the scheme. *)
Lemma OSSL_STORE_open_success uri um ud pp ppd w ctx w' :
  OSSL_STORE_open env uri um ud pp ppd w = Ret ctx w' →
  ctx ≠ NULL →
  ∃ ld w1 session,
    ossl_store_get0_loader_int env (open_scheme uri) w = Ret ld w1 ∧
    ctx_at ctx w' = Some (mk_ctx ld session um ud pp ppd).
Proof.
  unfold OSSL_STORE_open. cbv zeta. rewrite bind_unfold.
  destruct (ossl_store_get0_loader_int _ _ _) as [ld w1| |]; try done.
  destruct (decide _).
  { rewrite open_done_no_session. by intros [= <- <-]. }
  rewrite bind_unfold. unfold loader_deref at 1.
  destruct (loader_at env ld) as [L|] eqn:HL; [|done].
  rewrite bind_unfold.
  destruct (open L ld uri um ud w1) as [session w2| |]; try done.
  destruct (decide _).
  { rewrite open_done_no_session. by intros [= <- <-]. }
  rewrite bind_unfold.
  destruct (zalloc_ctx w2) as [c w3| |] eqn:Hz; try done.
  destruct (decide (c = NULL)) as [->|Hc].
  { rewrite bind_unfold. cbn [OSSL_STOREerr]. unfold open_done.
    destruct (decide _); [|done]. rewrite !bind_unfold.
    unfold loader_deref. rewrite HL.
    rewrite bind_unfold.
    match goal with
    | |- context [close L session ?x] => destruct (close L session x)
    end; try done.
    cbn. by intros [= <- <-]. }
  rewrite bind_unfold. unfold put_ctx.
  destruct (heap w3 !! c) as [[]|] eqn:Hh; try done.
  rewrite open_done_no_session. intros [= <- <-] _.
  exists ld, w1, session. split; [done|].
  unfold ctx_at. cbn. by rewrite lookup_insert_eq.
Qed.

(** C4: a URI without a colon is looked up under the scheme [file]; so
    ["file:/tmp/x"] and ["/tmp/x"] are looked up under the same scheme, and
    the contexts Open returns for them are bound to the same loader, the
    one the registry holds for [file]. *)
Theorem open_default_scheme_file :
  (∀ uri, (∀ k, String.get k uri ≠ Some ":"%char) → open_scheme uri = "file") ∧
  open_scheme "file:/tmp/x" = "file" ∧
  open_scheme "/tmp/x" = "file" ∧
  (∀ uri um ud pp ppd w ctx w',
     (∀ k, String.get k uri ≠ Some ":"%char) →
     OSSL_STORE_open env uri um ud pp ppd w = Ret ctx w' →
     ctx ≠ NULL →
     ∃ ld w1 c,
       ossl_store_get0_loader_int env "file" w = Ret ld w1 ∧
       ctx_at ctx w' = Some c ∧ loader c = ld) ∧
  (∀ um ud pp ppd um' ud' pp' ppd' w ctx1 w1 ctx2 w2 c1 c2,
     OSSL_STORE_open env "file:/tmp/x" um ud pp ppd w = Ret ctx1 w1 →
     OSSL_STORE_open env "/tmp/x" um' ud' pp' ppd' w = Ret ctx2 w2 →
     ctx1 ≠ NULL → ctx2 ≠ NULL →
     ctx_at ctx1 w1 = Some c1 → ctx_at ctx2 w2 = Some c2 →
     loader c1 = loader c2).
Proof.
  assert (∀ uri, (∀ k, String.get k uri ≠ Some ":"%char) →
                 open_scheme uri = "file") as Hdefault.
  { intros uri H. rewrite open_scheme_eq.
    by rewrite (proj2 (strchr_None uri ":") H). }
  split; [done|]. split; [reflexivity|]. split; [reflexivity|]. split.
  - intros uri um ud pp ppd w ctx w' Hno Ho Hctx.
    destruct (OSSL_STORE_open_success _ _ _ _ _ _ _ _ Ho Hctx)
      as (ld & w1 & session & Hr & Hc).
    rewrite (Hdefault uri Hno) in Hr. by eexists ld, w1, _.
  - intros um ud pp ppd um' ud' pp' ppd' w ctx1 w1 ctx2 w2 c1 c2
           Ho1 Ho2 Hn1 Hn2 Hc1 Hc2.
    destruct (OSSL_STORE_open_success _ _ _ _ _ _ _ _ Ho1 Hn1)
      as (ld & w3 & s1 & Hr1 & Hc1').
    destruct (OSSL_STORE_open_success _ _ _ _ _ _ _ _ Ho2 Hn2)
      as (ld' & w4 & s2 & Hr2 & Hc2').
    change (open_scheme "file:/tmp/x") with "file" in Hr1.
    change (open_scheme "/tmp/x") with "file" in Hr2.
    rewrite Hr1 in Hr2. injection Hr2 as <- <-.
    rewrite Hc1 in Hc1'. rewrite Hc2 in Hc2'.
    injection Hc1' as ->. by injection Hc2' as ->.
Qed.

(** ** Load *)

Lemma OSSL_STORE_load_S fuel ctx :
  OSSL_STORE_load env (S fuel) ctx =
    (c ← get_ctx ctx;
     L ← loader_deref env (loader c);
     v ← load L (loader_ctx c) (ui_method c) (ui_data c);
     c ← get_ctx ctx;
     if decide (post_process c ≠ NULL ∧ v ≠ NULL) then
       f ← post_process_deref env (post_process c);
       v ← f v (post_process_data c);
       if decide (v = NULL) then OSSL_STORE_load env fuel ctx
       else mret v
     else mret v).
Proof. reflexivity. Qed.

Lemma post_process_deref_Some fp f w :
  post_process_at env fp = Some f → post_process_deref env fp w = Ret f w.
Proof. intros H. unfold post_process_deref. by rewrite H. Qed.

Lemma load_prefix ctx c L w v w1 c1 fuel :
  ctx_at ctx w = Some c →
  loader_at env (loader c) = Some L →
  load L (loader_ctx c) (ui_method c) (ui_data c) w = Ret v w1 →
  ctx_at ctx w1 = Some c1 →
  OSSL_STORE_load env (S fuel) ctx w =
    (if decide (post_process c1 ≠ NULL ∧ v ≠ NULL) then
       f ← post_process_deref env (post_process c1);
       v ← f v (post_process_data c1);
       if decide (v = NULL) then OSSL_STORE_load env fuel ctx
       else mret v
     else mret v) w1.
Proof.
  intros Hc HL Hl Hc1. rewrite OSSL_STORE_load_S.
  apply ctx_at_Some in Hc, Hc1.
  rewrite (bind_Ret _ _ _ _ _ (get_ctx_live _ _ _ Hc)).
  rewrite (bind_Ret _ _ _ _ _ (loader_deref_Some _ _ _ HL)).
  rewrite (bind_Ret _ _ _ _ _ Hl).
  by rewrite (bind_Ret _ _ _ _ _ (get_ctx_live _ _ _ Hc1)).
Qed.

(** The loader reports the sentinel: Load returns it at once, in the world
    the loader left; the filter is not run. *)
Lemma load_step_sentinel ctx c L w w1 c1 fuel :
  ctx_at ctx w = Some c →
  loader_at env (loader c) = Some L →
  load L (loader_ctx c) (ui_method c) (ui_data c) w = Ret NULL w1 →
  ctx_at ctx w1 = Some c1 →
  OSSL_STORE_load env (S fuel) ctx w = Ret NULL w1.
Proof.
  intros Hc HL Hl Hc1. rewrite (load_prefix _ _ _ _ _ _ _ _ Hc HL Hl Hc1).
  destruct (decide _) as [[_ ?]|]; done.
Qed.

Lemma load_step_unfiltered ctx c L w v w1 c1 fuel :
  ctx_at ctx w = Some c →
  loader_at env (loader c) = Some L →
  load L (loader_ctx c) (ui_method c) (ui_data c) w = Ret v w1 →
  ctx_at ctx w1 = Some c1 →
  post_process c1 = NULL →
  OSSL_STORE_load env (S fuel) ctx w = Ret v w1.
Proof.
  intros Hc HL Hl Hc1 Hpp. rewrite (load_prefix _ _ _ _ _ _ _ _ Hc HL Hl Hc1).
  destruct (decide _) as [[? _]|]; done.
Qed.

(** The filter keeps the object: Load returns what the filter returned. *)
Lemma load_step_kept ctx c L w v w1 c1 f v' w2 fuel :
  ctx_at ctx w = Some c →
  loader_at env (loader c) = Some L →
  load L (loader_ctx c) (ui_method c) (ui_data c) w = Ret v w1 →
  v ≠ NULL →
  ctx_at ctx w1 = Some c1 →
  post_process c1 ≠ NULL →
  post_process_at env (post_process c1) = Some f →
  f v (post_process_data c1) w1 = Ret v' w2 →
  v' ≠ NULL →
  OSSL_STORE_load env (S fuel) ctx w = Ret v' w2.
Proof.
  intros Hc HL Hl Hv Hc1 Hpp Hf Hr Hv'.
  rewrite (load_prefix _ _ _ _ _ _ _ _ Hc HL Hl Hc1).
  destruct (decide _) as [_|Hno]; [|by destruct Hno].
  rewrite (bind_Ret _ _ _ _ _ (post_process_deref_Some _ _ _ Hf)).
  rewrite (bind_Ret _ _ _ _ _ Hr).
  by destruct (decide _).
Qed.

(** The filter discards the object: Load starts over, from the world the
    filter left. *)
Lemma load_step_discarded ctx c L w v w1 c1 f w2 fuel :
  ctx_at ctx w = Some c →
  loader_at env (loader c) = Some L →
  load L (loader_ctx c) (ui_method c) (ui_data c) w = Ret v w1 →
  v ≠ NULL →
  ctx_at ctx w1 = Some c1 →
  post_process c1 ≠ NULL →
  post_process_at env (post_process c1) = Some f →
  f v (post_process_data c1) w1 = Ret NULL w2 →
  OSSL_STORE_load env (S fuel) ctx w = OSSL_STORE_load env fuel ctx w2.
Proof.
  intros Hc HL Hl Hv Hc1 Hpp Hf Hr.
  rewrite (load_prefix _ _ _ _ _ _ _ _ Hc HL Hl Hc1).
  destruct (decide _) as [_|Hno]; [|by destruct Hno].
  rewrite (bind_Ret _ _ _ _ _ (post_process_deref_Some _ _ _ Hf)).
  rewrite (bind_Ret _ _ _ _ _ Hr).
  by destruct (decide _).
Qed.

(** Whatever the code returns is what the protocol prescribes. *)
Lemma load_sound fuel : ∀ ctx w r w',
  OSSL_STORE_load env fuel ctx w = Ret r w' → Load_spec env ctx w r w'.
Proof.
  induction fuel as [|fuel IH]; intros ctx w r w'; [done|].
  rewrite OSSL_STORE_load_S, bind_unfold.
  destruct (get_ctx ctx w) as [c w0| |] eqn:Hg; try done.
  apply get_ctx_Ret in Hg as [-> Hc].
  rewrite bind_unfold. unfold loader_deref at 1.
  destruct (loader_at env (loader c)) as [L|] eqn:HL; [|done].
  rewrite bind_unfold.
  destruct (load L _ _ _ w) as [v w1| |] eqn:Hl; try done.
  rewrite bind_unfold.
  destruct (get_ctx ctx w1) as [c1 w0| |] eqn:Hg; try done.
  apply get_ctx_Ret in Hg as [-> Hc1].
  destruct (decide _) as [[Hpp Hv]|Hno].
  - rewrite bind_unfold. unfold post_process_deref at 1.
    destruct (post_process_at env (post_process c1)) as [f|] eqn:Hf; [|done].
    rewrite bind_unfold.
    destruct (f v _ w1) as [v' w2| |] eqn:Hr; try done.
    destruct (decide (v' = NULL)) as [->|Hv'].
    + intros Hrec. eapply Load_discarded; eauto.
    + intros [= <- <-]. eapply Load_kept; eauto.
  - intros [= <- <-].
    destruct (decide (v = NULL)) as [->|Hv].
    + eapply Load_sentinel; eauto.
    + eapply Load_unfiltered; eauto.
      destruct (decide (post_process c1 = NULL)); [done|]. by destruct Hno.
Qed.

(** What the protocol prescribes is returned by the code, from some amount
    of fuel on. *)
Lemma load_complete ctx w r w' :
  Load_spec env ctx w r w' →
  ∃ fuel, ∀ fuel', (fuel ≤ fuel')%nat →
    OSSL_STORE_load env fuel' ctx w = Ret r w'.
Proof.
  induction 1 as [w c L w1 c1 Hc HL Hl Hc1
                 |w c L v w1 c1 Hc HL Hl Hv Hc1 Hpp
                 |w c L v w1 c1 f v' w2 Hc HL Hl Hv Hc1 Hpp Hf Hr Hv'
                 |w c L v w1 c1 f w2 r w3 Hc HL Hl Hv Hc1 Hpp Hf Hr _ IH].
  - exists 1%nat. intros [|fuel'] ?; [lia|]. by eapply load_step_sentinel.
  - exists 1%nat. intros [|fuel'] ?; [lia|]. by eapply load_step_unfiltered.
  - exists 1%nat. intros [|fuel'] ?; [lia|]. by eapply load_step_kept.
  - destruct IH as [fuel IH]. exists (S fuel). intros [|fuel'] ?; [lia|].
    rewrite (load_step_discarded _ _ _ _ _ _ _ _ _ _ Hc HL Hl Hv Hc1 Hpp Hf Hr).
    apply IH. lia.
Qed.

Lemma load_fuel_mono ctx w r w' fuel fuel' :
  (fuel ≤ fuel')%nat →
  OSSL_STORE_load env fuel ctx w = Ret r w' →
  OSSL_STORE_load env fuel' ctx w = Ret r w'.
Proof.
  revert fuel' ctx w. induction fuel as [|fuel IH]; intros fuel' ctx w Hle;
    [done|].
  destruct fuel' as [|fuel']; [lia|].
  rewrite !OSSL_STORE_load_S, !bind_unfold.
  destruct (get_ctx ctx w) as [c w0| |]; try done.
  rewrite !bind_unfold. destruct (loader_deref env (loader c) w0) as [L w0'| |];
    try done.
  rewrite !bind_unfold. destruct (load L _ _ _ w0') as [v w1| |]; try done.
  rewrite !bind_unfold. destruct (get_ctx ctx w1) as [c1 w1'| |]; try done.
  destruct (decide _); [|done].
  rewrite !bind_unfold.
  destruct (post_process_deref env (post_process c1) w1') as [f w1''| |];
    try done.
  rewrite !bind_unfold. destruct (f v _ w1'') as [v' w2| |]; try done.
  destruct (decide _); [|done]. apply IH. lia.
Qed.

(** ** Credential objects *)

Lemma assign_info_live info i f w :
  heap w !! info = Some (BInfo i) →
  assign_info info f w =
    Ret () (set_heap (<[info := BInfo (f i)]> (heap w)) w).
Proof.
  intros H. unfold assign_info.
  rewrite (bind_Ret _ _ _ _ _ (get_info_live _ _ _ H)).
  unfold put_info. by rewrite H.
Qed.

Lemma store_info_new_fails t data w :
  next_alloc_ok w = false →
  store_info_new t data w = Ret NULL (set_alloc_plan (tail (alloc_plan w)) w).
Proof.
  intros Ha. unfold store_info_new, zalloc_info.
  by rewrite (bind_Ret _ _ _ _ _ (CRYPTO_malloc_fails _ _ Ha)).
Qed.

Lemma store_info_new_succeeds t data w :
  next_alloc_ok w = true →
  store_info_new t data w =
    Ret (fresh_ptr (heap w))
        (set_alloc_plan (tail (alloc_plan w))
           (set_heap (<[fresh_ptr (heap w) := BInfo (mk_info t data NULL)]>
                        (heap w)) w)).
Proof.
  intros Ha. unfold store_info_new, zalloc_info.
  rewrite (bind_Ret _ _ _ _ _ (CRYPTO_malloc_succeeds _ _ Ha)).
  destruct (decide _) as [E|_]; [by apply fresh_ptr_not_NULL in E|].
  erewrite (bind_Ret (assign_info _ _));
    [|apply assign_info_live; cbn; apply lookup_insert_eq].
  erewrite (bind_Ret (assign_info _ _));
    [|apply assign_info_live; cbn; apply lookup_insert_eq].
  cbn. unfold set_heap, set_alloc_plan. cbn.
  by rewrite !insert_insert_eq.
Qed.

(** When the allocation of the structure fails, the five public
    constructors and the internal one return NULL and leave the heap, the
    caller's payload with it, untouched. *)
Lemma constructors_keep_payload_when_zalloc_fails payload pem_name w :
  next_alloc_ok w = false →
  OSSL_STORE_INFO_new_NAME payload w =
    Ret NULL (alloc_failed OSSL_STORE_F_OSSL_STORE_INFO_NEW_NAME w) ∧
  OSSL_STORE_INFO_new_PARAMS payload w =
    Ret NULL (alloc_failed OSSL_STORE_F_OSSL_STORE_INFO_NEW_PARAMS w) ∧
  OSSL_STORE_INFO_new_PKEY payload w =
    Ret NULL (alloc_failed OSSL_STORE_F_OSSL_STORE_INFO_NEW_PKEY w) ∧
  OSSL_STORE_INFO_new_CERT payload w =
    Ret NULL (alloc_failed OSSL_STORE_F_OSSL_STORE_INFO_NEW_CERT w) ∧
  OSSL_STORE_INFO_new_CRL payload w =
    Ret NULL (alloc_failed OSSL_STORE_F_OSSL_STORE_INFO_NEW_CRL w) ∧
  ossl_store_info_new_EMBEDDED pem_name payload w =
    Ret NULL (alloc_failed OSSL_STORE_F_OSSL_STORE_INFO_NEW_EMBEDDED w) ∧
  ∀ f, heap (alloc_failed f w) = heap w.
Proof.
  intros Ha.
  unfold OSSL_STORE_INFO_new_NAME, OSSL_STORE_INFO_new_PARAMS,
    OSSL_STORE_INFO_new_PKEY, OSSL_STORE_INFO_new_CERT,
    OSSL_STORE_INFO_new_CRL, ossl_store_info_new_EMBEDDED.
  rewrite !(bind_Ret _ _ _ _ _ (store_info_new_fails _ _ _ Ha)).
  repeat split.
Qed.

(** C2, where the code departs from it: when the structure is allocated
    but the copy of the format name is not, the internal constructor
    returns NULL after having released the caller's buffer; all that is
    left of the call is the heap without that buffer. *)
Theorem ossl_store_info_new_EMBEDDED_consumes_payload
    pem_name embedded data plan w :
  embedded ≠ NULL →
  heap w !! embedded = Some (BBufMem data) →
  alloc_plan w = true :: false :: plan →
  ∃ w',
    ossl_store_info_new_EMBEDDED (Some pem_name) embedded w = Ret NULL w' ∧
    heap w' = delete embedded (heap w) ∧
    heap w' !! embedded = None.
Proof.
  intros Hn Hl Hp. destruct w as [h e a bk]. cbn in *. subst a.
  set (p := fresh_ptr h).
  assert (h !! p = None) as Hfresh by apply fresh_ptr_unused.
  assert (p ≠ NULL) as Hp by apply fresh_ptr_not_NULL.
  assert (p ≠ embedded) as Hpe by congruence.
  unfold ossl_store_info_new_EMBEDDED.
  erewrite bind_Ret by (by apply store_info_new_succeeds).
  cbn [heap alloc_plan tail]. fold p.
  destruct (decide _) as [E|_]; [done|].
  erewrite (bind_Ret (assign_info _ _));
    [|apply assign_info_live; apply lookup_insert_eq].
  destruct (decide (Some pem_name = None)); [done|].
  unfold OPENSSL_strdup.
  erewrite bind_Ret by (by apply CRYPTO_malloc_fails).
  erewrite (bind_Ret (assign_info _ _));
    [|apply assign_info_live; apply lookup_insert_eq].
  destruct (decide _) as [_|Hno]; [|by destruct Hno].
  rewrite bind_unfold. cbn [OSSL_STOREerr]. rewrite bind_unfold.
  unfold OSSL_STORE_INFO_free. destruct (decide _); [|done].
  erewrite (bind_Ret (get_info _));
    [|apply get_info_live; apply lookup_insert_eq].
  cbn [type set_u_embedded_pem_name set_u_word1 set_u_embedded_blob
       set_u_word0 u_word0 u_word1 u_embedded_blob u_embedded_pem_name].
  destruct (decide _) as [_|Hno]; [|done].
  rewrite !bind_unfold. unfold BUF_MEM_free.
  destruct (decide _); [done|]. cbn [heap set_heap set_err_queue
    set_alloc_plan err_queue alloc_plan backend].
  rewrite !insert_insert_eq. rewrite lookup_insert_ne; [|exact Hpe]. rewrite Hl.
  cbn. unfold OPENSSL_free. destruct (decide (NULL = NULL)); [|done].
  destruct (decide (p = NULL)); [done|]. cbn.
  rewrite lookup_delete_ne; [|congruence]. rewrite lookup_insert_eq.
  eexists. split; [reflexivity|]. cbn.
  rewrite (delete_delete _ p embedded), delete_insert_eq.
  rewrite (delete_id h p) by done.
  split; [done | apply lookup_delete_eq].
Qed.

(** *** Duplication *)

Lemma up_ref_live k h n w :
  heap w !! h = Some (BObj k n) →
  up_ref k h w = Ret (if decide (1 < n + 1) then 1 else 0)
                     (set_heap (<[h := BObj k (n + 1)]> (heap w)) w).
Proof.
  intros H. unfold up_ref. rewrite H. by destruct (decide (k = k)).
Qed.

Lemma read_str_live p s w :
  p ≠ NULL → heap w !! p = Some (BStr s) → read_str p w = Ret (Some s) w.
Proof.
  intros Hp H. unfold read_str. destruct (decide _); [done|]. by rewrite H.
Qed.

Lemma strdup_then_report s f w :
  (r ← OPENSSL_strdup (Some s);
   (if decide (r = NULL) then OSSL_STOREerr f ERR_R_MALLOC_FAILURE
    else mret ());;
   mret r) w =
  if next_alloc_ok w
  then Ret (fresh_ptr (heap w)) (copied s (fresh_ptr (heap w)) w)
  else Ret NULL (alloc_failed f w).
Proof.
  unfold OPENSSL_strdup. destruct (next_alloc_ok w) eqn:Ha.
  - rewrite (bind_Ret _ _ _ _ _ (CRYPTO_malloc_succeeds _ _ Ha)).
    destruct (decide _) as [E|_]; [by apply fresh_ptr_not_NULL in E|done].
  - by rewrite (bind_Ret _ _ _ _ _ (CRYPTO_malloc_fails _ _ Ha)).
Qed.

(** C7, as the code has it.  On a matching tag, the duplicating accessor
    of a refcounted variant whose handle is live adds exactly one to the
    handle's reference count and returns that handle.  For a Name, the
    accessor copies the stored string into a fresh block, distinct from the
    original, which stays in place, when the copy can be allocated; when it
    cannot, NULL is returned and the allocation failure queued.  The same
    holds for the description, an absent description being copied as the
    empty string. *)
Theorem get1_duplicates info i w :
  heap w !! info = Some (BInfo i) →
  (∀ n, type i = OSSL_STORE_INFO_PARAMS →
     heap w !! u_params i = Some (BObj K_EVP_PKEY n) →
     OSSL_STORE_INFO_get1_PARAMS info w =
       Ret (u_params i)
           (set_heap (<[u_params i := BObj K_EVP_PKEY (n + 1)]> (heap w)) w)) ∧
  (∀ n, type i = OSSL_STORE_INFO_PKEY →
     heap w !! u_pkey i = Some (BObj K_EVP_PKEY n) →
     OSSL_STORE_INFO_get1_PKEY info w =
       Ret (u_pkey i)
           (set_heap (<[u_pkey i := BObj K_EVP_PKEY (n + 1)]> (heap w)) w)) ∧
  (∀ n, type i = OSSL_STORE_INFO_CERT →
     heap w !! u_x509 i = Some (BObj K_X509 n) →
     OSSL_STORE_INFO_get1_CERT info w =
       Ret (u_x509 i)
           (set_heap (<[u_x509 i := BObj K_X509 (n + 1)]> (heap w)) w)) ∧
  (∀ n, type i = OSSL_STORE_INFO_CRL →
     heap w !! u_crl i = Some (BObj K_X509_CRL n) →
     OSSL_STORE_INFO_get1_CRL info w =
       Ret (u_crl i)
           (set_heap (<[u_crl i := BObj K_X509_CRL (n + 1)]> (heap w)) w)) ∧
  (∀ s, type i = OSSL_STORE_INFO_NAME →
     u_name_name i ≠ NULL →
     heap w !! u_name_name i = Some (BStr s) →
     OSSL_STORE_INFO_get1_NAME info w =
       (if next_alloc_ok w
        then Ret (fresh_ptr (heap w)) (copied s (fresh_ptr (heap w)) w)
        else Ret NULL (alloc_failed OSSL_STORE_F_OSSL_STORE_INFO_GET1_NAME w))) ∧
  (∀ s, type i = OSSL_STORE_INFO_NAME →
     u_name_desc i ≠ NULL →
     heap w !! u_name_desc i = Some (BStr s) →
     OSSL_STORE_INFO_get1_NAME_description info w =
       (if next_alloc_ok w
        then Ret (fresh_ptr (heap w)) (copied s (fresh_ptr (heap w)) w)
        else Ret NULL
               (alloc_failed
                  OSSL_STORE_F_OSSL_STORE_INFO_GET1_NAME_DESCRIPTION w))) ∧
  (type i = OSSL_STORE_INFO_NAME →
     u_name_desc i = NULL →
     OSSL_STORE_INFO_get1_NAME_description info w =
       (if next_alloc_ok w
        then Ret (fresh_ptr (heap w)) (copied "" (fresh_ptr (heap w)) w)
        else Ret NULL
               (alloc_failed
                  OSSL_STORE_F_OSSL_STORE_INFO_GET1_NAME_DESCRIPTION w))) ∧
  (∀ s q b, heap w !! q = Some b →
     fresh_ptr (heap w) ≠ NULL ∧
     fresh_ptr (heap w) ≠ q ∧
     heap (copied s (fresh_ptr (heap w)) w) !! fresh_ptr (heap w)
       = Some (BStr s) ∧
     heap (copied s (fresh_ptr (heap w)) w) !! q = Some b).
Proof.
  intros Hl. repeat split.
  1-4: intros n Ht Hh.
  5-6: intros s Ht Hn Hs.
  7: intros Ht Hn.
  1-7: unfold OSSL_STORE_INFO_get1_PARAMS, OSSL_STORE_INFO_get1_PKEY,
    OSSL_STORE_INFO_get1_CERT, OSSL_STORE_INFO_get1_CRL,
    OSSL_STORE_INFO_get1_NAME, OSSL_STORE_INFO_get1_NAME_description;
    rewrite (bind_Ret _ _ _ _ _ (get_info_live _ _ _ Hl));
    (destruct (decide _); [|done]).
  1-4: unfold EVP_PKEY_up_ref, X509_up_ref, X509_CRL_up_ref;
    by rewrite (bind_Ret _ _ _ _ _ (up_ref_live _ _ _ _ Hh)).
  - rewrite (bind_Ret _ _ _ _ _ (read_str_live _ _ _ Hn Hs)).
    apply strdup_then_report.
  - destruct (decide _); [|done].
    rewrite (bind_Ret _ _ _ _ _ (read_str_live _ _ _ Hn Hs)).
    apply strdup_then_report.
  - destruct (decide _); [done|].
    rewrite bind_unfold. cbn [mret M_ret ret]. apply strdup_then_report.
  - apply fresh_ptr_not_NULL.
  - eapply fresh_ptr_not_live; eauto.
  - cbn. apply lookup_insert_eq.
  - cbn. rewrite lookup_insert_ne; [done|]. eapply fresh_ptr_not_live; eauto.
Qed.

(** *** The tag never changes *)

Lemma keeps_ret {A} info i (a : A) : keeps info i (mret a : M A).
Proof. by intros w a' w' H [= _ <-]. Qed.

Lemma keeps_bind {A B} info i (m : M A) (f : A → M B) :
  keeps info i m → (∀ a, keeps info i (f a)) → keeps info i (m ≫= f).
Proof.
  intros Hm Hf w b w' H. rewrite bind_unfold.
  destruct (m w) as [a w1| |] eqn:E; try done.
  intros Hr. eapply Hf; [|exact Hr]. by eapply Hm.
Qed.

Lemma keeps_get_info info i p : keeps info i (get_info p).
Proof.
  intros w a w' H. unfold get_info.
  destruct (heap w !! p) as [[]|]; try done. by intros [= _ <-].
Qed.

Lemma keeps_OSSL_STOREerr info i f r : keeps info i (OSSL_STOREerr f r).
Proof. intros w a w' H [= _ <-]. exact H. Qed.

Lemma keeps_read_str info i p : keeps info i (read_str p).
Proof.
  intros w a w' H. unfold read_str.
  destruct (decide _); [by intros [= _ <-]|].
  destruct (heap w !! p) as [[]|]; try done. by intros [= _ <-].
Qed.

Lemma keeps_CRYPTO_malloc info i b : keeps info i (CRYPTO_malloc b).
Proof.
  intros w a w' H. unfold CRYPTO_malloc.
  assert (fresh_ptr (heap w) ≠ info) as Hne.
  { intros E. rewrite <- E in H. by rewrite fresh_ptr_unused in H. }
  destruct (alloc_plan w) as [|[] plan]; intros [= _ <-]; cbn; try done.
  all: by rewrite lookup_insert_ne.
Qed.

Lemma keeps_OPENSSL_strdup info i s : keeps info i (OPENSSL_strdup s).
Proof.
  destruct s; [apply keeps_CRYPTO_malloc | apply (keeps_ret info i NULL)].
Qed.

Lemma keeps_up_ref info i k h : keeps info i (up_ref k h).
Proof.
  intros w a w' H. unfold up_ref.
  destruct (heap w !! h) as [[]|] eqn:Hh; try done.
  destruct (decide _); [|done]. intros [= _ <-]. cbn.
  rewrite lookup_insert_ne; [done|]. intros ->. congruence.
Qed.

Ltac keeps_tac :=
  repeat first
    [ apply keeps_ret
    | apply keeps_get_info
    | apply keeps_OSSL_STOREerr
    | apply keeps_read_str
    | apply keeps_OPENSSL_strdup
    | apply keeps_up_ref
    | apply keeps_bind; [|intros ?]
    | match goal with |- keeps _ _ (if ?b then _ else _) => destruct b end ].

(** Every accessor, borrowing or duplicating, leaves the object as it is. *)
Lemma accessors_keep_object info i op :
  (∀ desc, op ≠ Op_set0_NAME_description desc) →
  keeps info i (run_op op info).
Proof.
  intros Hop. destruct op; cbn [run_op].
  16: by destruct (Hop desc).
  all: unfold OSSL_STORE_INFO_get_type,
    OSSL_STORE_INFO_get0_NAME, OSSL_STORE_INFO_get1_NAME,
    OSSL_STORE_INFO_get0_NAME_description,
    OSSL_STORE_INFO_get1_NAME_description,
    OSSL_STORE_INFO_get0_PARAMS, OSSL_STORE_INFO_get1_PARAMS,
    OSSL_STORE_INFO_get0_PKEY, OSSL_STORE_INFO_get1_PKEY,
    OSSL_STORE_INFO_get0_CERT, OSSL_STORE_INFO_get1_CERT,
    OSSL_STORE_INFO_get0_CRL, OSSL_STORE_INFO_get1_CRL,
    ossl_store_info_get0_EMBEDDED_buffer,
    ossl_store_info_get0_EMBEDDED_pem_name,
    EVP_PKEY_up_ref, X509_up_ref, X509_CRL_up_ref.
  all: keeps_tac.
Qed.

Lemma set0_NAME_description_not_a_name info i desc w :
  heap w !! info = Some (BInfo i) →
  type i ≠ OSSL_STORE_INFO_NAME →
  OSSL_STORE_INFO_set0_NAME_description info desc w =
    Ret 0 (push_err OSSL_STORE_F_OSSL_STORE_INFO_SET0_NAME_DESCRIPTION
                    ERR_R_PASSED_INVALID_ARGUMENT w).
Proof.
  intros Hl Ht. unfold OSSL_STORE_INFO_set0_NAME_description.
  rewrite (bind_Ret _ _ _ _ _ (get_info_live _ _ _ Hl)).
  by destruct (decide _).
Qed.

Lemma set0_NAME_description_name info i desc w :
  heap w !! info = Some (BInfo i) →
  type i = OSSL_STORE_INFO_NAME →
  OSSL_STORE_INFO_set0_NAME_description info desc w =
    Ret 1 (set_heap (<[info := BInfo (set_u_name_desc desc i)]> (heap w)) w).
Proof.
  intros Hl Ht. unfold OSSL_STORE_INFO_set0_NAME_description.
  rewrite (bind_Ret _ _ _ _ _ (get_info_live _ _ _ Hl)).
  destruct (decide _); [done|].
  by rewrite (bind_Ret _ _ _ _ _ (assign_info_live _ _ _ _ Hl)).
Qed.

(** A constructor that succeeds returns a live object carrying its own
    tag and the payload it was given. *)
Lemma store_info_new_Ret t data w p w' :
  store_info_new t data w = Ret p w' → p ≠ NULL →
  heap w' !! p = Some (BInfo (mk_info t data NULL)).
Proof.
  destruct (next_alloc_ok w) eqn:Ha.
  - rewrite (store_info_new_succeeds _ _ _ Ha). intros [= <- <-] _.
    cbn. apply lookup_insert_eq.
  - rewrite (store_info_new_fails _ _ _ Ha). by intros [= <- <-].
Qed.

Lemma tagged_constructor_Ret t data f w p w' :
  (info ← store_info_new t data;
   (if decide (info = NULL) then OSSL_STOREerr f ERR_R_MALLOC_FAILURE
    else mret ());;
   mret info) w = Ret p w' →
  p ≠ NULL →
  heap w' !! p = Some (BInfo (mk_info t data NULL)).
Proof.
  rewrite bind_unfold.
  destruct (store_info_new t data w) as [q w1| |] eqn:E; try done.
  destruct (decide (q = NULL)) as [->|Hq].
  - by intros [= <- _].
  - intros [= <- <-] _. by eapply store_info_new_Ret.
Qed.

Lemma new_NAME_Ret name w p w' :
  OSSL_STORE_INFO_new_NAME name w = Ret p w' → p ≠ NULL →
  heap w' !! p = Some (BInfo (mk_info OSSL_STORE_INFO_NAME name NULL)).
Proof.
  unfold OSSL_STORE_INFO_new_NAME. rewrite bind_unfold.
  destruct (store_info_new _ _ w) as [q w1| |] eqn:E; try done.
  destruct (decide (q = NULL)) as [->|Hq]; [by intros [= <- _]|].
  pose proof (store_info_new_Ret _ _ _ _ _ E Hq) as Hl.
  rewrite (bind_Ret _ _ _ _ _ (assign_info_live _ _ _ _ Hl)).
  erewrite (bind_Ret (assign_info _ _));
    [|apply assign_info_live; cbn; apply lookup_insert_eq].
  intros [= <- <-] _. cbn. apply lookup_insert_eq.
Qed.

Lemma new_EMBEDDED_Ret pem_name embedded w p w' :
  ossl_store_info_new_EMBEDDED pem_name embedded w = Ret p w' → p ≠ NULL →
  ∃ i, heap w' !! p = Some (BInfo i) ∧
       type i = OSSL_STORE_INFO_EMBEDDED ∧ u_embedded_blob i = embedded.
Proof.
  unfold ossl_store_info_new_EMBEDDED. rewrite bind_unfold.
  destruct (store_info_new _ _ w) as [q w1| |] eqn:E; try done.
  destruct (decide (q = NULL)) as [->|Hq]; [by intros [= <- _]|].
  pose proof (store_info_new_Ret _ _ _ _ _ E Hq) as Hl.
  rewrite (bind_Ret _ _ _ _ _ (assign_info_live _ _ _ _ Hl)).
  rewrite bind_unfold.
  match goal with
  | |- context [(if decide (pem_name = None) then _ else _) ?x] =>
      set (w2 := x);
      destruct ((if decide (pem_name = None) then mret NULL
                 else OPENSSL_strdup pem_name) w2)
        as [r w3| |] eqn:Ed
  end; try done.
  assert (heap w3 !! q =
            Some (BInfo (set_u_embedded_blob embedded
                           (mk_info OSSL_STORE_INFO_EMBEDDED NULL NULL))))
    as Hl3.
  { assert (keeps q (set_u_embedded_blob embedded
                       (mk_info OSSL_STORE_INFO_EMBEDDED NULL NULL))
                    (if decide (pem_name = None) then mret NULL
                     else OPENSSL_strdup pem_name)) as Hk.
    { destruct (decide _); [apply keeps_ret | apply keeps_OPENSSL_strdup]. }
    eapply Hk; [|exact Ed]. subst w2. cbn. apply lookup_insert_eq. }
  rewrite (bind_Ret _ _ _ _ _ (assign_info_live _ _ _ _ Hl3)).
  destruct (decide (pem_name ≠ None ∧ r = NULL)).
  - rewrite !bind_unfold. cbn [OSSL_STOREerr]. rewrite !bind_unfold.
    match goal with
    | |- context [OSSL_STORE_INFO_free q ?x] =>
        destruct (OSSL_STORE_INFO_free q x)
    end; try done.
    by intros [= <- _].
  - intros [= <- <-] _. eexists. split; [cbn; apply lookup_insert_eq|done].
Qed.

(** C9: a live credential object carries one tag, the one its
    constructor stamped, and nothing changes it.  Whatever operation runs
    on the object (any accessor, borrowing or duplicating, or the setting
    of a Name description), the object is still there afterwards with the
    same tag; the accessors leave the whole object as it was; setting a
    description on an object that is not a Name returns 0 and changes
    nothing but the error queue, and on a Name it returns 1 and replaces
    the description alone. *)
Theorem info_type_immutable op info i w :
  heap w !! info = Some (BInfo i) →
  (∀ r w', run_op op info w = Ret r w' →
     ∃ i', heap w' !! info = Some (BInfo i') ∧
           type i' = type i ∧
           ((∀ desc, op ≠ Op_set0_NAME_description desc) → i' = i)) ∧
  (∀ desc, type i ≠ OSSL_STORE_INFO_NAME →
     OSSL_STORE_INFO_set0_NAME_description info desc w =
       Ret 0 (push_err OSSL_STORE_F_OSSL_STORE_INFO_SET0_NAME_DESCRIPTION
                       ERR_R_PASSED_INVALID_ARGUMENT w) ∧
     heap (push_err OSSL_STORE_F_OSSL_STORE_INFO_SET0_NAME_DESCRIPTION
                    ERR_R_PASSED_INVALID_ARGUMENT w) = heap w) ∧
  (∀ desc, type i = OSSL_STORE_INFO_NAME →
     OSSL_STORE_INFO_set0_NAME_description info desc w =
       Ret 1 (set_heap (<[info := BInfo (mk_info (type i) (u_name_name i) desc)]>
                          (heap w)) w)) ∧
  (∀ payload pem_name w0 p w', p ≠ NULL →
     (OSSL_STORE_INFO_new_NAME payload w0 = Ret p w' →
        heap w' !! p = Some (BInfo (mk_info OSSL_STORE_INFO_NAME payload NULL))) ∧
     (OSSL_STORE_INFO_new_PARAMS payload w0 = Ret p w' →
        heap w' !! p = Some (BInfo (mk_info OSSL_STORE_INFO_PARAMS payload NULL))) ∧
     (OSSL_STORE_INFO_new_PKEY payload w0 = Ret p w' →
        heap w' !! p = Some (BInfo (mk_info OSSL_STORE_INFO_PKEY payload NULL))) ∧
     (OSSL_STORE_INFO_new_CERT payload w0 = Ret p w' →
        heap w' !! p = Some (BInfo (mk_info OSSL_STORE_INFO_CERT payload NULL))) ∧
     (OSSL_STORE_INFO_new_CRL payload w0 = Ret p w' →
        heap w' !! p = Some (BInfo (mk_info OSSL_STORE_INFO_CRL payload NULL))) ∧
     (ossl_store_info_new_EMBEDDED pem_name payload w0 = Ret p w' →
        ∃ i0, heap w' !! p = Some (BInfo i0) ∧
              type i0 = OSSL_STORE_INFO_EMBEDDED ∧
              u_embedded_blob i0 = payload)) ∧
  NoDup [OSSL_STORE_INFO_EMBEDDED; OSSL_STORE_INFO_NAME;
         OSSL_STORE_INFO_PARAMS; OSSL_STORE_INFO_PKEY;
         OSSL_STORE_INFO_CERT; OSSL_STORE_INFO_CRL].
Proof.
  intros Hl. split; [|split; [|split; [|split]]].
  - intros r w' Hr.
    assert ((∃ desc, op = Op_set0_NAME_description desc) ∨
            (∀ desc, op ≠ Op_set0_NAME_description desc))
      as [[desc ->]|Hop] by (destruct op; eauto).
    + cbn [run_op] in Hr.
      destruct (decide (type i = OSSL_STORE_INFO_NAME)) as [Ht|Ht].
      * rewrite (set0_NAME_description_name _ _ _ _ Hl Ht) in Hr.
        injection Hr as _ <-. eexists. split; [cbn; apply lookup_insert_eq|].
        split; [done|]. intros H. by destruct (H desc).
      * rewrite (set0_NAME_description_not_a_name _ _ _ _ Hl Ht) in Hr.
        injection Hr as _ <-. by exists i.
    + exists i. split; [|done].
      by eapply (accessors_keep_object _ _ _ Hop).
  - intros desc Ht. split; [|done].
    by apply set0_NAME_description_not_a_name with (i := i).
  - intros desc Ht. by apply set0_NAME_description_name.
  - intros payload pem_name w0 p w' Hp. repeat split.
    + intros Hr. by eapply new_NAME_Ret.
    + intros Hr. by eapply tagged_constructor_Ret.
    + intros Hr. by eapply tagged_constructor_Ret.
    + intros Hr. by eapply tagged_constructor_Ret.
    + intros Hr. by eapply tagged_constructor_Ret.
    + intros Hr. by eapply new_EMBEDDED_Ret.
  - unfold OSSL_STORE_INFO_EMBEDDED, OSSL_STORE_INFO_NAME,
      OSSL_STORE_INFO_PARAMS, OSSL_STORE_INFO_PKEY, OSSL_STORE_INFO_CERT,
      OSSL_STORE_INFO_CRL.
    repeat (apply NoDup_cons; split;
            [rewrite ?elem_of_cons, elem_of_nil; lia|]).
    apply NoDup_nil_2.
Qed.

End StoreFacts.

(** * The protocol of Load, and the behaviours on the test backend *)

(** C1: Load against the protocol.  A call of Load returns [r] and leaves
    [w'] exactly when the protocol prescribes it: the loader's load is
    called; its sentinel is returned at once, the filter not being run; an
    object is passed to the installed filter, and returned as the filter
    returned it unless the filter discards it, in which case the load and
    filter step is taken again.  A result once reached is kept with more
    fuel.  On the test backend yielding Name, Certificate, Name,
    Certificate with the filter that rejects Names, three calls of Load
    yield the first Certificate object, the second Certificate object and
    the sentinel, and Eof then answers 1. *)
Theorem OSSL_STORE_load_filter_protocol :
  (∀ Backend (env : Env Backend) ctx w r w',
     Load_spec env ctx w r w' ↔
     ∃ fuel, OSSL_STORE_load env fuel ctx w = Ret r w') ∧
  (∀ Backend (env : Env Backend) ctx w r w' fuel fuel',
     (fuel ≤ fuel')%nat →
     OSSL_STORE_load env fuel ctx w = Ret r w' →
     OSSL_STORE_load env fuel' ctx w = Ret r w') ∧
  (∀ Backend (env : Env Backend) ctx c L w v w1 c1 f fuel,
     ctx_at ctx w = Some c →
     loader_at env (loader c) = Some L →
     load L (loader_ctx c) (ui_method c) (ui_data c) w = Ret v w1 →
     ctx_at ctx w1 = Some c1 →
     post_process c1 ≠ NULL →
     post_process_at env (post_process c1) = Some f →
     (v = NULL → OSSL_STORE_load env (S fuel) ctx w = Ret NULL w1) ∧
     (v ≠ NULL → ∀ v' w2,
        f v (post_process_data c1) w1 = Ret v' w2 →
        (v' ≠ NULL → OSSL_STORE_load env (S fuel) ctx w = Ret v' w2) ∧
        (v' = NULL →
           OSSL_STORE_load env (S fuel) ctx w =
             OSSL_STORE_load env fuel ctx w2))) ∧
  (∃ c1 c2,
     c1 ≠ NULL ∧ c2 ≠ NULL ∧ c1 ≠ c2 ∧
     result (Stub.filtered_run (Stub.stub_world [] 1)) =
       Some ([c1; c2], [c1; c2; NULL],
             [OSSL_STORE_INFO_CERT; OSSL_STORE_INFO_CERT], 1)).
Proof.
  split; [|split; [|split]].
  - intros Backend env ctx w r w'. split.
    + intros H. destruct (load_complete env _ _ _ _ H) as [fuel Hf].
      exists fuel. by apply Hf.
    + intros [fuel H]. by eapply load_sound.
  - intros Backend env ctx w r w' fuel fuel'. apply load_fuel_mono.
  - intros Backend env ctx c L w v w1 c1 f fuel Hc HL Hl Hc1 Hpp Hf. split.
    + intros ->. by eapply load_step_sentinel.
    + intros Hv v' w2 Hr. split.
      * intros Hv'. by eapply load_step_kept.
      * intros ->. by eapply load_step_discarded.
  - exists 6, 8. by vm_compute.
Qed.

Lemma ossl_store_info_new_EMBEDDED_consumes_payload_witness :
  heap Stub.blob_world !! 1 = Some (BBufMem "blob") ∧
  alloc_plan Stub.blob_world = [true; false] ∧
  ∃ w',
    ossl_store_info_new_EMBEDDED (Some "ENCRYPTED PRIVATE KEY") 1
      Stub.blob_world = Ret NULL w' ∧
    heap w' = delete 1 (heap Stub.blob_world) ∧
    heap w' !! 1 = None.
Proof.
  split; [reflexivity|]. split; [reflexivity|].
  apply (ossl_store_info_new_EMBEDDED_consumes_payload
           "ENCRYPTED PRIVATE KEY" 1 "blob" [] Stub.blob_world).
  - unfold NULL. lia.
  - reflexivity.
  - reflexivity.
Defined.

Lemma OSSL_STORE_open_failure_witness :
  OSSL_STORE_open Stub.stub_env "nosuch:foo" NULL NULL NULL NULL
    (Stub.stub_world [] 0) = Ret NULL (Stub.stub_world [] 0) ∧
  ∃ w3,
    OSSL_STORE_open Stub.stub_env "file:/tmp/x" NULL NULL NULL NULL
      (Stub.stub_world [true; false] 0) = Ret NULL w3 ∧
    heap w3 = heap (Stub.stub_world [] 0).
Proof.
  split.
  - apply (proj1 (OSSL_STORE_open_failure Stub.stub_env "nosuch:foo"
                    NULL NULL NULL NULL (Stub.stub_world [] 0))).
    reflexivity.
  - eexists. split.
    + eapply (proj2 (proj2 (OSSL_STORE_open_failure Stub.stub_env
                "file:/tmp/x" NULL NULL NULL NULL
                (Stub.stub_world [true; false] 0)))
                Stub.file_loader Stub.stub_loader).
      * reflexivity.
      * unfold Stub.file_loader, NULL. lia.
      * reflexivity.
      * reflexivity.
      * vm_compute. discriminate.
      * reflexivity.
      * vm_compute. reflexivity.
    + vm_compute. reflexivity.
Defined.

Lemma open_default_scheme_file_witness :
  (∀ k, String.get k "/tmp/x" ≠ Some ":"%char) ∧
  ∃ ctx1 w1 ctx2 w2 c1 c2,
    OSSL_STORE_open Stub.stub_env "file:/tmp/x" NULL NULL NULL NULL
      (Stub.stub_world [] 1) = Ret ctx1 w1 ∧
    OSSL_STORE_open Stub.stub_env "/tmp/x" NULL NULL NULL NULL
      (Stub.stub_world [] 1) = Ret ctx2 w2 ∧
    ctx1 ≠ NULL ∧ ctx2 ≠ NULL ∧
    ctx_at ctx1 w1 = Some c1 ∧ ctx_at ctx2 w2 = Some c2 ∧
    loader c1 = loader c2.
Proof.
  split.
  - apply strchr_None. reflexivity.
  - do 6 eexists.
    assert (∀ A B C D E F G : Prop,
              A → B → C → D → E → F → (A → B → C → D → E → F → G) →
              A ∧ B ∧ C ∧ D ∧ E ∧ F ∧ G) as pack by tauto.
    apply pack; cycle 6.
    + apply (proj2 (proj2 (proj2 (proj2
               (open_default_scheme_file Stub.stub_env))))).
    + vm_compute. reflexivity.
    + vm_compute. reflexivity.
    + vm_compute. discriminate.
    + vm_compute. discriminate.
    + vm_compute. reflexivity.
    + vm_compute. reflexivity.
Defined.

(** The spec's sentence on overlong schemes fails on this URI: its scheme,
    255 letters long, is neither cut short nor refused; the registry, which
    has no loader for that scheme, is asked for [file] instead (no prefix
    of the scheme), and Open returns a context bound to the loader
    registered for [file]. *)
Lemma overlong_scheme_dispatched_as_file :
  strchr Stub.long_uri ":" = Some 255%nat ∧
  str_take 255 Stub.long_uri = Stub.long_scheme ∧
  open_scheme Stub.long_uri = "file" ∧
  str_take 4 Stub.long_scheme ≠ "file" ∧
  ossl_store_get0_loader_int Stub.stub_env Stub.long_scheme
    (Stub.stub_world [] 1) = Ret NULL (Stub.stub_world [] 1) ∧
  ∃ ctx w' c,
    OSSL_STORE_open Stub.stub_env Stub.long_uri NULL NULL NULL NULL
      (Stub.stub_world [] 1) = Ret ctx w' ∧
    ctx ≠ NULL ∧
    ctx_at ctx w' = Some c ∧
    loader c = Stub.file_loader.
Proof.
  split; [by vm_compute|]. split; [by vm_compute|]. split; [by vm_compute|].
  split; [by vm_compute|]. split; [by vm_compute|].
  do 3 eexists. split; [vm_compute; reflexivity|].
  split; [by vm_compute|]. split; [vm_compute; reflexivity|]. reflexivity.
Qed.

Lemma get0_silent_get1_type_mismatch_witness :
  heap (Stub.objects_world []) !! 5 =
    Some (BInfo (mk_info OSSL_STORE_INFO_NAME 1 NULL)) ∧
  OSSL_STORE_INFO_NAME ≠ OSSL_STORE_INFO_CERT ∧
  OSSL_STORE_INFO_get0_CERT 5 (Stub.objects_world []) =
    Ret NULL (Stub.objects_world []) ∧
  OSSL_STORE_INFO_get1_CERT 5 (Stub.objects_world []) =
    Ret NULL (push_err OSSL_STORE_F_OSSL_STORE_INFO_GET1_CERT
                       OSSL_STORE_R_NOT_A_CERTIFICATE (Stub.objects_world [])).
Proof.
  split; [reflexivity|].
  split; [unfold OSSL_STORE_INFO_NAME, OSSL_STORE_INFO_CERT; lia|].
  apply (proj1 (proj2 (proj2
           (get0_silent_get1_type_mismatch 5
              (mk_info OSSL_STORE_INFO_NAME 1 NULL) (Stub.objects_world [])
              eq_refl)))).
  cbn. unfold OSSL_STORE_INFO_NAME, OSSL_STORE_INFO_CERT. lia.
Defined.

(** The spec's sentence on the duplication of a Name fails on this input:
    the object at 5 is a Name holding a string, the allocator will fail,
    and neither the name nor the absent description is duplicated: both
    accessors return NULL and queue the allocation failure. *)
Lemma get1_NAME_without_memory :
  heap (Stub.objects_world [false]) !! 5 =
    Some (BInfo (mk_info OSSL_STORE_INFO_NAME 1 NULL)) ∧
  heap (Stub.objects_world [false]) !! 1 = Some (BStr "alice") ∧
  OSSL_STORE_INFO_get1_NAME 5 (Stub.objects_world [false]) =
    Ret NULL (alloc_failed OSSL_STORE_F_OSSL_STORE_INFO_GET1_NAME
                           (Stub.objects_world [false])) ∧
  OSSL_STORE_INFO_get1_NAME_description 5 (Stub.objects_world [false]) =
    Ret NULL (alloc_failed OSSL_STORE_F_OSSL_STORE_INFO_GET1_NAME_DESCRIPTION
                           (Stub.objects_world [false])).
Proof. repeat split. Qed.

Lemma get1_duplicates_witness :
  heap (Stub.objects_world []) !! 6 =
    Some (BInfo (mk_info OSSL_STORE_INFO_CERT 2 NULL)) ∧
  heap (Stub.objects_world []) !! 2 = Some (BObj K_X509 1) ∧
  OSSL_STORE_INFO_get1_CERT 6 (Stub.objects_world []) =
    Ret 2 (set_heap (<[2 := BObj K_X509 (1 + 1)]> (heap (Stub.objects_world [])))
                    (Stub.objects_world [])).
Proof.
  split; [reflexivity|]. split; [reflexivity|].
  apply (proj1 (proj2 (proj2
           (get1_duplicates 6 (mk_info OSSL_STORE_INFO_CERT 2 NULL)
              (Stub.objects_world []) eq_refl))) 1).
  - reflexivity.
  - reflexivity.
Defined.

Lemma OSSL_STORE_close_releases_context_witness :
  heap (Stub.open_world 0) !! 10 =
    Some (BCtx (mk_ctx Stub.file_loader 9 NULL NULL NULL NULL)) ∧
  ∃ w1,
    Stub.stub_close 9 (Stub.open_world 0) = Ret 0 w1 ∧
    OSSL_STORE_close Stub.stub_env 10 (Stub.open_world 0) =
      Ret 0 (set_heap (delete 10 (heap w1)) w1) ∧
    heap (set_heap (delete 10 (heap w1)) w1) !! 10 = None.
Proof.
  split; [reflexivity|]. eexists. split; [reflexivity|].
  apply (OSSL_STORE_close_releases_context Stub.stub_env 10
           (mk_ctx Stub.file_loader 9 NULL NULL NULL NULL) Stub.stub_loader
           (Stub.open_world 0) 0).
  - unfold NULL. lia.
  - reflexivity.
  - reflexivity.
  - reflexivity.
  - vm_compute. eexists. reflexivity.
Defined.

Lemma info_type_immutable_witness :
  heap (Stub.objects_world []) !! 6 =
    Some (BInfo (mk_info OSSL_STORE_INFO_CERT 2 NULL)) ∧
  OSSL_STORE_INFO_set0_NAME_description 6 1 (Stub.objects_world []) =
    Ret 0 (push_err OSSL_STORE_F_OSSL_STORE_INFO_SET0_NAME_DESCRIPTION
                    ERR_R_PASSED_INVALID_ARGUMENT (Stub.objects_world [])) ∧
  heap (push_err OSSL_STORE_F_OSSL_STORE_INFO_SET0_NAME_DESCRIPTION
                 ERR_R_PASSED_INVALID_ARGUMENT (Stub.objects_world []))
    = heap (Stub.objects_world []).
Proof.
  split; [reflexivity|].
  apply (proj1 (proj2
           (info_type_immutable Op_get1_CERT 6
              (mk_info OSSL_STORE_INFO_CERT 2 NULL) (Stub.objects_world [])
              eq_refl)) 1).
  cbn. unfold OSSL_STORE_INFO_NAME, OSSL_STORE_INFO_CERT. lia.
Defined.

Lemma OSSL_STORE_load_filter_protocol_witness :
  ∃ w',
    OSSL_STORE_load Stub.stub_env 2 10 Stub.filter_world = Ret 6 w' ∧
    Load_spec Stub.stub_env 10 Stub.filter_world 6 w' ∧
    heap w' !! 5 = None ∧
    Stub.pending (backend w') = [].
Proof.
  eexists. split; [vm_compute; reflexivity|]. split.
  - apply (proj1 OSSL_STORE_load_filter_protocol).
    exists 2%nat. vm_compute. reflexivity.
  - split; vm_compute; reflexivity.
Defined.

Lemma open_scheme_overlong_is_file_witness :
  strchr Stub.long_uri ":" = Some 255%nat ∧
  open_scheme Stub.long_uri = "file".
Proof.
  split; [vm_compute; reflexivity|].
  apply (proj2 (open_scheme_overlong_is_file Stub.long_uri) 255%nat).
  - vm_compute. reflexivity.
  - lia.
Defined.

(** * Further properties *)

(** ** The scheme of a URI, continued *)

Lemma strchr_append (s rest : string) (c : ascii) :
  strchr s c = None →
  strchr (String.append s (String c rest)) c = Some (String.length s).
Proof.
  induction s as [|a s IH].
  - intros _. change (strchr (String c rest) c = Some 0%nat). cbn.
    destruct (decide (c = c)); [done | congruence].
  - change (strchr (String a s) c = None →
            strchr (String a (String.append s (String c rest))) c =
              Some (S (String.length s))).
    cbn. destruct (decide (a = c)); [by intros [=]|].
    destruct (strchr s c) eqn:E; [by intros [=]|]. intros _. by rewrite IH.
Qed.

Lemma str_take_append (s t : string) :
  str_take (String.length s) (String.append s t) = s.
Proof.
  induction s as [|a s IH].
  - change (str_take 0 t = ""). by destruct t.
  - change (String a (str_take (String.length s) (String.append s t)) =
            String a s).
    by rewrite IH.
Qed.

Lemma str_take_length (n : nat) (s : string) :
  (String.length (str_take n s) ≤ n)%nat.
Proof.
  revert s. induction n as [|n IH]; intros [|a s]; cbn; try lia.
  specialize (IH s). lia.
Qed.

(** X1: scheme round trip.  A scheme of at most 254 characters without a
    colon, followed by a colon and anything at all, is the scheme Open
    looks up: exactly as written, the empty scheme included, with no case
    folding and whatever follows the colon. *)
Theorem open_scheme_of_prefixed (scheme rest : string) :
  (∀ k, String.get k scheme ≠ Some ":"%char) →
  (String.length scheme ≤ 254)%nat →
  open_scheme (String.append scheme (String ":" rest)) = scheme.
Proof.
  intros Hno Hlen. apply strchr_None in Hno.
  rewrite open_scheme_eq, (strchr_append _ rest _ Hno).
  destruct (decide _); [apply str_take_append | lia].
Qed.

(** X2: whatever the URI, the scheme handed to the registry holds no colon
    and is at most 254 characters long. *)
Theorem open_scheme_bounded (uri : string) :
  (∀ k, String.get k (open_scheme uri) ≠ Some ":"%char) ∧
  (String.length (open_scheme uri) ≤ 254)%nat.
Proof.
  rewrite open_scheme_eq.
  destruct (strchr uri ":") as [off|] eqn:E.
  - destruct (decide (off < 255)%nat) as [Hlt|_].
    + split.
      * apply strchr_None. rewrite strchr_take, E.
        destruct (decide (off < off)%nat); [lia | done].
      * pose proof (str_take_length off uri). lia.
    + split; [apply strchr_None; reflexivity | cbn; lia].
  - split; [apply strchr_None; reflexivity | cbn; lia].
Qed.

Lemma open_scheme_of_prefixed_witness :
  (∀ k, String.get k "" ≠ Some ":"%char) ∧
  open_scheme ":memory" = "" ∧
  open_scheme "File:/tmp/x" = "File".
Proof.
  split; [apply strchr_None; reflexivity|]. split.
  - apply (open_scheme_of_prefixed "" "memory").
    + apply strchr_None. reflexivity.
    + cbn. lia.
  - apply (open_scheme_of_prefixed "File" "/tmp/x").
    + apply strchr_None. reflexivity.
    + cbn. lia.
Defined.

Section MoreFacts.

Context {Backend : Type}.
Implicit Types (w : World Backend) (p info ctx : ptr) (i : ossl_store_info_st).
Local Abbreviation M := (M (Backend := Backend)).
Variable env : Env Backend.
Variable file : FileBridge Backend.

(** ** Open, Close and the loader queries *)

Lemma open_succeeds_eq uri um ud pp ppd w ld L w1 session w2 :
  ossl_store_get0_loader_int env (open_scheme uri) w = Ret ld w1 →
  ld ≠ NULL →
  loader_at env ld = Some L →
  open L ld uri um ud w1 = Ret session w2 →
  session ≠ NULL →
  next_alloc_ok w2 = true →
  OSSL_STORE_open env uri um ud pp ppd w =
    Ret (fresh_ptr (heap w2))
        (set_alloc_plan (tail (alloc_plan w2))
           (set_heap (<[fresh_ptr (heap w2) :=
                          BCtx (mk_ctx ld session um ud pp ppd)]> (heap w2))
              w2)).
Proof.
  intros Hr Hld HL Ho Hs Ha. unfold OSSL_STORE_open. cbv zeta.
  rewrite (bind_Ret _ _ _ _ _ Hr). destruct (decide _); [done|].
  rewrite (bind_Ret _ _ _ _ _ (loader_deref_Some _ _ _ _ HL)).
  rewrite (bind_Ret _ _ _ _ _ Ho). destruct (decide _); [done|].
  unfold zalloc_ctx.
  rewrite (bind_Ret _ _ _ _ _ (CRYPTO_malloc_succeeds _ _ Ha)).
  destruct (decide _) as [E|_]; [by apply fresh_ptr_not_NULL in E|].
  rewrite bind_unfold. unfold put_ctx. cbn [heap set_heap set_alloc_plan].
  rewrite lookup_insert_eq. rewrite open_done_no_session.
  unfold set_heap, set_alloc_plan. cbn. by rewrite insert_insert_eq.
Qed.

Lemma close_eq ctx c L w status w1 :
  ctx ≠ NULL →
  heap w !! ctx = Some (BCtx c) →
  loader_at env (loader c) = Some L →
  close L (loader_ctx c) w = Ret status w1 →
  is_Some (heap w1 !! ctx) →
  OSSL_STORE_close env ctx w = Ret status (set_heap (delete ctx (heap w1)) w1).
Proof.
  intros Hn Hl HL Hc [b Hb]. unfold OSSL_STORE_close.
  rewrite (bind_Ret _ _ _ _ _ (get_ctx_live _ _ _ Hl)).
  rewrite (bind_Ret _ _ _ _ _ (loader_deref_Some _ _ _ _ HL)).
  rewrite (bind_Ret _ _ _ _ _ Hc).
  by rewrite (bind_Ret _ _ _ _ _ (OPENSSL_free_live _ _ _ Hn Hb)).
Qed.

(** X3: when the registry has a loader for the scheme, the loader opens a
    session and the context can be allocated, Open returns a fresh,
    non-null context holding that loader, that session and the caller's
    four arguments as given; the session is not closed, no error is
    queued and no other block of the heap is touched. *)
Theorem OSSL_STORE_open_succeeds uri um ud pp ppd w ld L w1 session w2 :
  ossl_store_get0_loader_int env (open_scheme uri) w = Ret ld w1 →
  ld ≠ NULL →
  loader_at env ld = Some L →
  open L ld uri um ud w1 = Ret session w2 →
  session ≠ NULL →
  next_alloc_ok w2 = true →
  ∃ ctx w3,
    OSSL_STORE_open env uri um ud pp ppd w = Ret ctx w3 ∧
    ctx ≠ NULL ∧
    heap w2 !! ctx = None ∧
    heap w3 = <[ctx := BCtx (mk_ctx ld session um ud pp ppd)]> (heap w2) ∧
    err_queue w3 = err_queue w2 ∧
    backend w3 = backend w2.
Proof.
  intros Hr Hld HL Ho Hs Ha. eexists _, _. split.
  - by eapply open_succeeds_eq.
  - split; [apply fresh_ptr_not_NULL|]. split; [apply fresh_ptr_unused|done].
Qed.

(** X4: Open followed by Close.  Close, given the context Open returned,
    runs the close of the very loader on the very session Open obtained,
    returns its status, and the context is no longer allocated: the heap
    is the one that close left. *)
Theorem OSSL_STORE_open_then_close
    uri um ud pp ppd w ld L w1 session w2 status w4 :
  ossl_store_get0_loader_int env (open_scheme uri) w = Ret ld w1 →
  ld ≠ NULL →
  loader_at env ld = Some L →
  open L ld uri um ud w1 = Ret session w2 →
  session ≠ NULL →
  next_alloc_ok w2 = true →
  close L session
    (set_alloc_plan (tail (alloc_plan w2))
       (set_heap (<[fresh_ptr (heap w2) :=
                      BCtx (mk_ctx ld session um ud pp ppd)]> (heap w2)) w2))
    = Ret status w4 →
  heap w4 !! fresh_ptr (heap w2) =
    Some (BCtx (mk_ctx ld session um ud pp ppd)) →
  (ctx ← OSSL_STORE_open env uri um ud pp ppd;
   OSSL_STORE_close env ctx) w =
    Ret status (set_heap (delete (fresh_ptr (heap w2)) (heap w4)) w4) ∧
  delete (fresh_ptr (heap w2)) (heap w4) !! fresh_ptr (heap w2) = None.
Proof.
  intros Hr Hld HL Ho Hs Ha Hc Hstill. split; [|apply lookup_delete_eq].
  rewrite (bind_Ret _ _ _ _ _
             (open_succeeds_eq _ _ _ pp ppd _ _ _ _ _ _ Hr Hld HL Ho Hs Ha)).
  apply (close_eq _ (mk_ctx ld session um ud pp ppd) L).
  - apply fresh_ptr_not_NULL.
  - cbn. apply lookup_insert_eq.
  - exact HL.
  - exact Hc.
  - by eexists.
Qed.

(** X5: Ctrl, Eof and Error on an open context.  When the loader has no
    ctrl entry point, Ctrl returns 0 for every command and argument list
    and changes nothing; otherwise it is the loader's ctrl on the session
    with the command and arguments as given.  Eof and Error are the
    loader's own answers on the session. *)
Theorem OSSL_STORE_ctrl_eof_error_delegate ctx c L w :
  heap w !! ctx = Some (BCtx c) →
  loader_at env (loader c) = Some L →
  (ctrl L = None →
     ∀ cmd args, OSSL_STORE_ctrl env ctx cmd args w = Ret 0 w) ∧
  (∀ f, ctrl L = Some f →
     ∀ cmd args,
       OSSL_STORE_ctrl env ctx cmd args w = f (loader_ctx c) cmd args w) ∧
  OSSL_STORE_eof env ctx w = eof L (loader_ctx c) w ∧
  OSSL_STORE_error env ctx w = error L (loader_ctx c) w.
Proof.
  intros Hl HL. split; [|split; [|split]].
  - intros Hno cmd args. unfold OSSL_STORE_ctrl.
    rewrite (bind_Ret _ _ _ _ _ (get_ctx_live _ _ _ Hl)).
    rewrite (bind_Ret _ _ _ _ _ (loader_deref_Some _ _ _ _ HL)).
    by rewrite Hno.
  - intros f Hf cmd args. unfold OSSL_STORE_ctrl.
    rewrite (bind_Ret _ _ _ _ _ (get_ctx_live _ _ _ Hl)).
    rewrite (bind_Ret _ _ _ _ _ (loader_deref_Some _ _ _ _ HL)).
    by rewrite Hf.
  - unfold OSSL_STORE_eof.
    rewrite (bind_Ret _ _ _ _ _ (get_ctx_live _ _ _ Hl)).
    by rewrite (bind_Ret _ _ _ _ _ (loader_deref_Some _ _ _ _ HL)).
  - unfold OSSL_STORE_error.
    rewrite (bind_Ret _ _ _ _ _ (get_ctx_live _ _ _ Hl)).
    by rewrite (bind_Ret _ _ _ _ _ (loader_deref_Some _ _ _ _ HL)).
Qed.

(** ** Load without a filter *)

(** X6: on a context without filter, Load is one call of the loader's
    load: whatever the loader returns, object or sentinel, is returned at
    once, in the world the loader left, with any fuel; no callback is
    looked up. *)
Theorem OSSL_STORE_load_without_filter ctx c L w v w1 c1 fuel :
  ctx_at ctx w = Some c →
  loader_at env (loader c) = Some L →
  load L (loader_ctx c) (ui_method c) (ui_data c) w = Ret v w1 →
  ctx_at ctx w1 = Some c1 →
  post_process c1 = NULL →
  OSSL_STORE_load env (S fuel) ctx w = Ret v w1.
Proof.
  intros Hc HL Hl Hc1 Hpp.
  rewrite (load_prefix _ _ _ _ _ _ _ _ _ Hc HL Hl Hc1).
  destruct (decide _) as [[Hno _]|_]; [by destruct Hno | done].
Qed.

(** ** Construction and borrowing *)

Lemma set_heap_same w : set_heap (heap w) w = w.
Proof. by destruct w. Qed.

Lemma tags_distinct :
  OSSL_STORE_INFO_NAME ≠ OSSL_STORE_INFO_EMBEDDED ∧
  OSSL_STORE_INFO_PARAMS ≠ OSSL_STORE_INFO_EMBEDDED ∧
  OSSL_STORE_INFO_PARAMS ≠ OSSL_STORE_INFO_NAME ∧
  OSSL_STORE_INFO_PKEY ≠ OSSL_STORE_INFO_EMBEDDED ∧
  OSSL_STORE_INFO_PKEY ≠ OSSL_STORE_INFO_NAME ∧
  OSSL_STORE_INFO_PKEY ≠ OSSL_STORE_INFO_PARAMS ∧
  OSSL_STORE_INFO_CERT ≠ OSSL_STORE_INFO_EMBEDDED ∧
  OSSL_STORE_INFO_CERT ≠ OSSL_STORE_INFO_NAME ∧
  OSSL_STORE_INFO_CERT ≠ OSSL_STORE_INFO_PARAMS ∧
  OSSL_STORE_INFO_CERT ≠ OSSL_STORE_INFO_PKEY ∧
  OSSL_STORE_INFO_CRL ≠ OSSL_STORE_INFO_EMBEDDED ∧
  OSSL_STORE_INFO_CRL ≠ OSSL_STORE_INFO_NAME ∧
  OSSL_STORE_INFO_CRL ≠ OSSL_STORE_INFO_PARAMS ∧
  OSSL_STORE_INFO_CRL ≠ OSSL_STORE_INFO_PKEY ∧
  OSSL_STORE_INFO_CRL ≠ OSSL_STORE_INFO_CERT.
Proof.
  unfold OSSL_STORE_INFO_EMBEDDED, OSSL_STORE_INFO_NAME,
    OSSL_STORE_INFO_PARAMS, OSSL_STORE_INFO_PKEY, OSSL_STORE_INFO_CERT,
    OSSL_STORE_INFO_CRL.
  repeat split; lia.
Qed.

(** Decide a comparison of tags once the tag is known. *)
Ltac tag_decide Ht :=
  repeat match goal with
  | |- context [decide (type ?i = ?t)] =>
      destruct (decide (type i = t)) as [Heq|Hne];
      [ try (exfalso; rewrite Ht in Heq; revert Heq;
             unfold OSSL_STORE_INFO_EMBEDDED, OSSL_STORE_INFO_NAME,
               OSSL_STORE_INFO_PARAMS, OSSL_STORE_INFO_PKEY,
               OSSL_STORE_INFO_CERT, OSSL_STORE_INFO_CRL; lia); clear Heq
      | try (exfalso; apply Hne; exact Ht); clear Hne ]
  end.

Lemma tagged_constructor_succeeds t payload f w :
  next_alloc_ok w = true →
  (info ← store_info_new t payload;
   (if decide (info = NULL) then OSSL_STOREerr f ERR_R_MALLOC_FAILURE
    else mret ());;
   mret info) w = Ret (fresh_ptr (heap w)) (constructed t payload NULL w).
Proof.
  intros Ha. rewrite (bind_Ret _ _ _ _ _ (store_info_new_succeeds _ _ _ Ha)).
  destruct (decide _) as [E|_]; [by apply fresh_ptr_not_NULL in E|done].
Qed.

Lemma new_NAME_succeeds name w :
  next_alloc_ok w = true →
  OSSL_STORE_INFO_new_NAME name w =
    Ret (fresh_ptr (heap w)) (constructed OSSL_STORE_INFO_NAME name NULL w).
Proof.
  intros Ha. unfold OSSL_STORE_INFO_new_NAME.
  rewrite (bind_Ret _ _ _ _ _ (store_info_new_succeeds _ _ _ Ha)).
  destruct (decide _) as [E|_]; [by apply fresh_ptr_not_NULL in E|].
  erewrite (bind_Ret (assign_info _ _));
    [|apply assign_info_live; cbn; apply lookup_insert_eq].
  erewrite (bind_Ret (assign_info _ _));
    [|apply assign_info_live; cbn; apply lookup_insert_eq].
  cbn. unfold constructed, set_heap, set_alloc_plan. cbn.
  by rewrite !insert_insert_eq.
Qed.

(** On a live object every borrowing accessor answers from the structure
    alone and leaves the world as it is. *)
Lemma borrowing_accessors info i w :
  heap w !! info = Some (BInfo i) →
  OSSL_STORE_INFO_get_type info w = Ret (type i) w ∧
  OSSL_STORE_INFO_get0_NAME info w =
    Ret (if decide (type i = OSSL_STORE_INFO_NAME) then u_name_name i
         else NULL) w ∧
  OSSL_STORE_INFO_get0_NAME_description info w =
    Ret (if decide (type i = OSSL_STORE_INFO_NAME) then u_name_desc i
         else NULL) w ∧
  OSSL_STORE_INFO_get0_PARAMS info w =
    Ret (if decide (type i = OSSL_STORE_INFO_PARAMS) then u_params i
         else NULL) w ∧
  OSSL_STORE_INFO_get0_PKEY info w =
    Ret (if decide (type i = OSSL_STORE_INFO_PKEY) then u_pkey i
         else NULL) w ∧
  OSSL_STORE_INFO_get0_CERT info w =
    Ret (if decide (type i = OSSL_STORE_INFO_CERT) then u_x509 i
         else NULL) w ∧
  OSSL_STORE_INFO_get0_CRL info w =
    Ret (if decide (type i = OSSL_STORE_INFO_CRL) then u_crl i
         else NULL) w ∧
  ossl_store_info_get0_EMBEDDED_buffer info w =
    Ret (if decide (type i = OSSL_STORE_INFO_EMBEDDED) then u_embedded_blob i
         else NULL) w ∧
  ossl_store_info_get0_EMBEDDED_pem_name info w =
    Ret (if decide (type i = OSSL_STORE_INFO_EMBEDDED)
         then u_embedded_pem_name i else NULL) w.
Proof.
  intros Hl.
  unfold OSSL_STORE_INFO_get_type, OSSL_STORE_INFO_get0_NAME,
    OSSL_STORE_INFO_get0_NAME_description, OSSL_STORE_INFO_get0_PARAMS,
    OSSL_STORE_INFO_get0_PKEY, OSSL_STORE_INFO_get0_CERT,
    OSSL_STORE_INFO_get0_CRL, ossl_store_info_get0_EMBEDDED_buffer,
    ossl_store_info_get0_EMBEDDED_pem_name.
  rewrite !(bind_Ret _ _ _ _ _ (get_info_live _ _ _ Hl)).
  repeat split; by destruct (decide _).
Qed.

Lemma constructed_lookup t p0 p1 w :
  heap (constructed t p0 p1 w) !! fresh_ptr (heap w) =
    Some (BInfo (mk_info t p0 p1)).
Proof. cbn. apply lookup_insert_eq. Qed.

(** X7: construction and borrowing round trip.  When the structure can be
    allocated, each public constructor returns a fresh non-null object,
    queues no error and leaves every block that was there, the payload
    included, as it was (no reference is taken); on the new object
    get_type answers the constructor's tag and the matching borrowing
    accessor answers the very payload given, NULL included, changing
    nothing; a new Name has no description. *)
Theorem constructor_get0_roundtrip payload w :
  next_alloc_ok w = true →
  (OSSL_STORE_INFO_new_NAME payload w =
     Ret (fresh_ptr (heap w)) (constructed OSSL_STORE_INFO_NAME payload NULL w) ∧
   (info ← OSSL_STORE_INFO_new_NAME payload;
    t ← OSSL_STORE_INFO_get_type info;
    a ← OSSL_STORE_INFO_get0_NAME info;
    d ← OSSL_STORE_INFO_get0_NAME_description info;
    mret (t, a, d)) w =
     Ret (OSSL_STORE_INFO_NAME, payload, NULL)
         (constructed OSSL_STORE_INFO_NAME payload NULL w)) ∧
  (OSSL_STORE_INFO_new_PARAMS payload w =
     Ret (fresh_ptr (heap w)) (constructed OSSL_STORE_INFO_PARAMS payload NULL w) ∧
   (info ← OSSL_STORE_INFO_new_PARAMS payload;
    t ← OSSL_STORE_INFO_get_type info;
    a ← OSSL_STORE_INFO_get0_PARAMS info;
    mret (t, a)) w =
     Ret (OSSL_STORE_INFO_PARAMS, payload)
         (constructed OSSL_STORE_INFO_PARAMS payload NULL w)) ∧
  (OSSL_STORE_INFO_new_PKEY payload w =
     Ret (fresh_ptr (heap w)) (constructed OSSL_STORE_INFO_PKEY payload NULL w) ∧
   (info ← OSSL_STORE_INFO_new_PKEY payload;
    t ← OSSL_STORE_INFO_get_type info;
    a ← OSSL_STORE_INFO_get0_PKEY info;
    mret (t, a)) w =
     Ret (OSSL_STORE_INFO_PKEY, payload)
         (constructed OSSL_STORE_INFO_PKEY payload NULL w)) ∧
  (OSSL_STORE_INFO_new_CERT payload w =
     Ret (fresh_ptr (heap w)) (constructed OSSL_STORE_INFO_CERT payload NULL w) ∧
   (info ← OSSL_STORE_INFO_new_CERT payload;
    t ← OSSL_STORE_INFO_get_type info;
    a ← OSSL_STORE_INFO_get0_CERT info;
    mret (t, a)) w =
     Ret (OSSL_STORE_INFO_CERT, payload)
         (constructed OSSL_STORE_INFO_CERT payload NULL w)) ∧
  (OSSL_STORE_INFO_new_CRL payload w =
     Ret (fresh_ptr (heap w)) (constructed OSSL_STORE_INFO_CRL payload NULL w) ∧
   (info ← OSSL_STORE_INFO_new_CRL payload;
    t ← OSSL_STORE_INFO_get_type info;
    a ← OSSL_STORE_INFO_get0_CRL info;
    mret (t, a)) w =
     Ret (OSSL_STORE_INFO_CRL, payload)
         (constructed OSSL_STORE_INFO_CRL payload NULL w)) ∧
  fresh_ptr (heap w) ≠ NULL ∧
  heap w !! fresh_ptr (heap w) = None ∧
  (∀ t p0 p1,
     err_queue (constructed t p0 p1 w) = err_queue w ∧
     ∀ q b, heap w !! q = Some b →
            heap (constructed t p0 p1 w) !! q = Some b).
Proof.
  intros Ha.
  assert (∀ t, let w' := constructed t payload NULL w in
            OSSL_STORE_INFO_get_type (fresh_ptr (heap w)) w' = Ret t w')
    as Htype.
  { intros t w'. apply (borrowing_accessors _ _ _ (constructed_lookup _ _ _ _)). }
  split; [|split; [|split; [|split; [|split; [|split; [|split]]]]]].
  - split; [by apply new_NAME_succeeds|].
    rewrite (bind_Ret _ _ _ _ _ (new_NAME_succeeds _ _ Ha)).
    rewrite (bind_Ret _ _ _ _ _ (Htype _)).
    pose proof (borrowing_accessors _ _ _
                  (constructed_lookup OSSL_STORE_INFO_NAME payload NULL w))
      as (_ & Hn & Hd & _).
    rewrite (bind_Ret _ _ _ _ _ Hn), (bind_Ret _ _ _ _ _ Hd). done.
  - split; [by apply tagged_constructor_succeeds|].
    unfold OSSL_STORE_INFO_new_PARAMS.
    rewrite (bind_Ret _ _ _ _ _ (tagged_constructor_succeeds _ _ _ _ Ha)).
    rewrite (bind_Ret _ _ _ _ _ (Htype _)).
    pose proof (borrowing_accessors _ _ _
                  (constructed_lookup OSSL_STORE_INFO_PARAMS payload NULL w))
      as (_ & _ & _ & H & _).
    rewrite (bind_Ret _ _ _ _ _ H). done.
  - split; [by apply tagged_constructor_succeeds|].
    unfold OSSL_STORE_INFO_new_PKEY.
    rewrite (bind_Ret _ _ _ _ _ (tagged_constructor_succeeds _ _ _ _ Ha)).
    rewrite (bind_Ret _ _ _ _ _ (Htype _)).
    pose proof (borrowing_accessors _ _ _
                  (constructed_lookup OSSL_STORE_INFO_PKEY payload NULL w))
      as (_ & _ & _ & _ & H & _).
    rewrite (bind_Ret _ _ _ _ _ H). done.
  - split; [by apply tagged_constructor_succeeds|].
    unfold OSSL_STORE_INFO_new_CERT.
    rewrite (bind_Ret _ _ _ _ _ (tagged_constructor_succeeds _ _ _ _ Ha)).
    rewrite (bind_Ret _ _ _ _ _ (Htype _)).
    pose proof (borrowing_accessors _ _ _
                  (constructed_lookup OSSL_STORE_INFO_CERT payload NULL w))
      as (_ & _ & _ & _ & _ & H & _).
    rewrite (bind_Ret _ _ _ _ _ H). done.
  - split; [by apply tagged_constructor_succeeds|].
    unfold OSSL_STORE_INFO_new_CRL.
    rewrite (bind_Ret _ _ _ _ _ (tagged_constructor_succeeds _ _ _ _ Ha)).
    rewrite (bind_Ret _ _ _ _ _ (Htype _)).
    pose proof (borrowing_accessors _ _ _
                  (constructed_lookup OSSL_STORE_INFO_CRL payload NULL w))
      as (_ & _ & _ & _ & _ & _ & H & _).
    rewrite (bind_Ret _ _ _ _ _ H). done.
  - apply fresh_ptr_not_NULL.
  - apply fresh_ptr_unused.
  - intros t p0 p1. split; [done|]. intros q b Hq. cbn.
    rewrite lookup_insert_ne; [done|]. by eapply fresh_ptr_not_live.
Qed.

(** ** Destruction *)

Lemma OPENSSL_free_released p w :
  releasable p (heap w) →
  OPENSSL_free p w = Ret () (set_heap (released p (heap w)) w).
Proof.
  unfold releasable, released, OPENSSL_free.
  destruct (decide (p = NULL)); [intros _; by rewrite set_heap_same|].
  intros [?|[b Hb]]; [done|]. by rewrite Hb.
Qed.

Lemma BUF_MEM_free_released p w :
  (p = NULL ∨ ∃ data, heap w !! p = Some (BBufMem data)) →
  BUF_MEM_free p w = Ret () (set_heap (released p (heap w)) w).
Proof.
  unfold released, BUF_MEM_free.
  destruct (decide (p = NULL)); [intros _; by rewrite set_heap_same|].
  intros [?|[b Hb]]; [done|]. by rewrite Hb.
Qed.

Lemma obj_free_live k h n w :
  h ≠ NULL →
  heap w !! h = Some (BObj k n) →
  obj_free k h w = Ret () (set_heap (unreferenced k n h (heap w)) w).
Proof.
  intros Hn Hl. unfold obj_free, unreferenced.
  destruct (decide (h = NULL)); [done|]. rewrite Hl.
  destruct (decide (k = k)); [|done]. by destruct (decide (0 < n - 1)).
Qed.

Lemma released_lookup_ne p q (h : gmap Z block) :
  q ≠ p → released p h !! q = h !! q.
Proof.
  intros Hne. unfold released. destruct (decide _); [done|].
  by rewrite lookup_delete_ne.
Qed.

Lemma released_lookup p (h : gmap Z block) :
  p ≠ NULL → released p h !! p = None.
Proof.
  intros Hne. unfold released. destruct (decide _); [done|].
  apply lookup_delete_eq.
Qed.

Lemma unreferenced_lookup_ne k n h q (m : gmap Z block) :
  q ≠ h → unreferenced k n h m !! q = m !! q.
Proof.
  intros Hne. unfold unreferenced. destruct (decide _).
  - by rewrite lookup_insert_ne.
  - by rewrite lookup_delete_ne.
Qed.

Lemma releasable_elsewhere p q (h : gmap Z block) :
  releasable p (delete q h) → releasable p h ∧ (p = NULL ∨ p ≠ q).
Proof.
  intros [->|[b Hb]]; [split; by left|].
  destruct (decide (p = q)) as [->|Hne].
  - by rewrite lookup_delete_eq in Hb.
  - rewrite lookup_delete_ne in Hb by done. split; [right; by exists b|by right].
Qed.

(** The tail of [OSSL_STORE_INFO_free]: the structure itself goes, once
    the payload has been dealt with in a way that left it allocated. *)
Lemma free_structure info i (payload : M ()) w h1 :
  info ≠ NULL →
  heap w !! info = Some (BInfo i) →
  payload w = Ret () (set_heap h1 w) →
  is_Some (h1 !! info) →
  (payload;; OPENSSL_free info) w = Ret () (set_heap (delete info h1) w).
Proof.
  intros Hn Hl Hp [b Hb]. rewrite (bind_Ret _ _ _ _ _ Hp).
  unfold OPENSSL_free. destruct (decide _); [done|]. cbn. by rewrite Hb.
Qed.

Lemma free_NAME_eq info i w :
  info ≠ NULL →
  heap w !! info = Some (BInfo i) →
  type i = OSSL_STORE_INFO_NAME →
  releasable (u_name_name i) (delete info (heap w)) →
  releasable (u_name_desc i)
    (released (u_name_name i) (delete info (heap w))) →
  OSSL_STORE_INFO_free info w =
    Ret () (set_heap (delete info (released (u_name_desc i)
                                     (released (u_name_name i) (heap w)))) w).
Proof.
  intros Hn Hl Ht Hname Hdesc. unfold OSSL_STORE_INFO_free.
  destruct (decide (info ≠ NULL)); [|done].
  rewrite (bind_Ret _ _ _ _ _ (get_info_live _ _ _ Hl)).
  destruct (releasable_elsewhere _ _ _ Hname) as [Hname' Hname_ne].
  assert (releasable (u_name_desc i) (released (u_name_name i) (heap w)) ∧
          (u_name_desc i = NULL ∨ u_name_desc i ≠ info)) as [Hdesc' Hdesc_ne].
  { destruct Hdesc as [->|[b Hb]]; [split; by left|].
    unfold released in *. destruct (decide (u_name_name i = NULL)).
    - destruct (decide (u_name_desc i = info)) as [E|Hne].
      + rewrite E, lookup_delete_eq in Hb. done.
      + rewrite lookup_delete_ne in Hb by done.
        split; [right; by exists b | by right].
    - destruct (decide (u_name_desc i = info)) as [E|Hne].
      + rewrite E, delete_delete, lookup_delete_eq in Hb. done.
      + rewrite delete_delete, lookup_delete_ne in Hb by done.
        split; [right; by exists b | by right]. }
  apply free_structure with (i := i); [done|done| |].
  - tag_decide Ht.
    rewrite (bind_Ret _ _ _ _ _ (OPENSSL_free_released _ _ Hname')).
    by rewrite (OPENSSL_free_released _ (set_heap _ w) Hdesc').
  - rewrite !released_lookup_ne, Hl; [by eexists| |].
    + intros E. destruct Hname_ne; congruence.
    + intros E. destruct Hdesc_ne; congruence.
Qed.

Lemma obj_free_given_up k h n w :
  handle_or_null k n h (heap w) →
  obj_free k h w = Ret () (set_heap (given_up k n h (heap w)) w).
Proof.
  unfold handle_or_null, given_up. intros [->|Hl].
  - unfold obj_free. destruct (decide (NULL = NULL)); [|done].
    by rewrite set_heap_same.
  - destruct (decide (h = NULL)) as [->|Hn].
    + unfold obj_free. destruct (decide (NULL = NULL)); [|done].
      by rewrite set_heap_same.
    + by apply obj_free_live.
Qed.

Lemma given_up_lookup_info k n h info i (m : gmap Z block) :
  m !! info = Some (BInfo i) →
  handle_or_null k n h m →
  given_up k n h m !! info = Some (BInfo i).
Proof.
  intros Hl Hh. unfold given_up. destruct (decide _); [done|].
  rewrite unreferenced_lookup_ne; [done|].
  destruct Hh as [?|Hh]; [done|]. intros ->. congruence.
Qed.

Ltac free_refcounted Hn Hl Ht Hh :=
  unfold OSSL_STORE_INFO_free;
  destruct (decide (_ ≠ NULL)); [|done];
  rewrite (bind_Ret _ _ _ _ _ (get_info_live _ _ _ Hl));
  eapply free_structure; [exact Hn | exact Hl | |];
  [ tag_decide Ht;
    unfold EVP_PKEY_free, X509_free, X509_CRL_free;
    apply (obj_free_given_up _ _ _ _ Hh)
  | rewrite (given_up_lookup_info _ _ _ _ _ _ Hl Hh); by eexists ].

Lemma free_PARAMS_eq info i n w :
  info ≠ NULL →
  heap w !! info = Some (BInfo i) →
  type i = OSSL_STORE_INFO_PARAMS →
  handle_or_null K_EVP_PKEY n (u_params i) (heap w) →
  OSSL_STORE_INFO_free info w =
    Ret () (set_heap (delete info
                        (given_up K_EVP_PKEY n (u_params i) (heap w))) w).
Proof. intros Hn Hl Ht Hh. free_refcounted Hn Hl Ht Hh. Qed.

Lemma free_PKEY_eq info i n w :
  info ≠ NULL →
  heap w !! info = Some (BInfo i) →
  type i = OSSL_STORE_INFO_PKEY →
  handle_or_null K_EVP_PKEY n (u_pkey i) (heap w) →
  OSSL_STORE_INFO_free info w =
    Ret () (set_heap (delete info
                        (given_up K_EVP_PKEY n (u_pkey i) (heap w))) w).
Proof. intros Hn Hl Ht Hh. free_refcounted Hn Hl Ht Hh. Qed.

Lemma free_CERT_eq info i n w :
  info ≠ NULL →
  heap w !! info = Some (BInfo i) →
  type i = OSSL_STORE_INFO_CERT →
  handle_or_null K_X509 n (u_x509 i) (heap w) →
  OSSL_STORE_INFO_free info w =
    Ret () (set_heap (delete info
                        (given_up K_X509 n (u_x509 i) (heap w))) w).
Proof. intros Hn Hl Ht Hh. free_refcounted Hn Hl Ht Hh. Qed.

Lemma free_CRL_eq info i n w :
  info ≠ NULL →
  heap w !! info = Some (BInfo i) →
  type i = OSSL_STORE_INFO_CRL →
  handle_or_null K_X509_CRL n (u_crl i) (heap w) →
  OSSL_STORE_INFO_free info w =
    Ret () (set_heap (delete info
                        (given_up K_X509_CRL n (u_crl i) (heap w))) w).
Proof. intros Hn Hl Ht Hh. free_refcounted Hn Hl Ht Hh. Qed.

(** X8: destroying a Name.  Provided the name and the description are
    each NULL or allocated, apart from each other and from the structure,
    the destructor releases the name, the description and the structure,
    in that order; none of them is allocated afterwards, every other block
    is as before and no error is queued. *)
Theorem OSSL_STORE_INFO_free_NAME_releases info i w :
  info ≠ NULL →
  heap w !! info = Some (BInfo i) →
  type i = OSSL_STORE_INFO_NAME →
  releasable (u_name_name i) (delete info (heap w)) →
  releasable (u_name_desc i)
    (released (u_name_name i) (delete info (heap w))) →
  ∃ w',
    OSSL_STORE_INFO_free info w = Ret () w' ∧
    heap w' = delete info (released (u_name_desc i)
                             (released (u_name_name i) (heap w))) ∧
    heap w' !! info = None ∧
    (u_name_name i ≠ NULL → heap w' !! u_name_name i = None) ∧
    (u_name_desc i ≠ NULL → heap w' !! u_name_desc i = None) ∧
    (∀ q, q ≠ info → q ≠ u_name_name i → q ≠ u_name_desc i →
          heap w' !! q = heap w !! q) ∧
    err_queue w' = err_queue w.
Proof.
  intros Hn Hl Ht Hname Hdesc. eexists. split.
  { by apply free_NAME_eq. }
  cbn. split; [done|]. split; [apply lookup_delete_eq|]. split; [|split].
  - intros Hp. destruct (decide (u_name_name i = info)) as [->|Hne];
      [apply lookup_delete_eq|].
    rewrite lookup_delete_ne by done.
    destruct (decide (u_name_name i = u_name_desc i)) as [E|Hne'].
    + rewrite E. apply released_lookup. by rewrite <- E.
    + rewrite released_lookup_ne by done. by apply released_lookup.
  - intros Hp. destruct (decide (u_name_desc i = info)) as [->|Hne];
      [apply lookup_delete_eq|].
    rewrite lookup_delete_ne by done. by apply released_lookup.
  - split; [|done]. intros q Hq1 Hq2 Hq3.
    rewrite lookup_delete_ne by done. by rewrite !released_lookup_ne.
Qed.

(** X9: destroying an object of a refcounted variant gives up exactly one
    reference of its handle and releases the structure.  A NULL handle is
    left alone; a handle counted more than once stays alive with its count
    one lower; a handle counted once is freed.  Nothing else changes. *)
Theorem OSSL_STORE_INFO_free_gives_up_one_reference info i n w :
  info ≠ NULL →
  heap w !! info = Some (BInfo i) →
  (type i = OSSL_STORE_INFO_PARAMS →
     handle_or_null K_EVP_PKEY n (u_params i) (heap w) →
     OSSL_STORE_INFO_free info w =
       Ret () (set_heap (delete info
                 (given_up K_EVP_PKEY n (u_params i) (heap w))) w)) ∧
  (type i = OSSL_STORE_INFO_PKEY →
     handle_or_null K_EVP_PKEY n (u_pkey i) (heap w) →
     OSSL_STORE_INFO_free info w =
       Ret () (set_heap (delete info
                 (given_up K_EVP_PKEY n (u_pkey i) (heap w))) w)) ∧
  (type i = OSSL_STORE_INFO_CERT →
     handle_or_null K_X509 n (u_x509 i) (heap w) →
     OSSL_STORE_INFO_free info w =
       Ret () (set_heap (delete info
                 (given_up K_X509 n (u_x509 i) (heap w))) w)) ∧
  (type i = OSSL_STORE_INFO_CRL →
     handle_or_null K_X509_CRL n (u_crl i) (heap w) →
     OSSL_STORE_INFO_free info w =
       Ret () (set_heap (delete info
                 (given_up K_X509_CRL n (u_crl i) (heap w))) w)) ∧
  (∀ k h (m : gmap Z block),
     given_up k n NULL m = m ∧
     (h ≠ NULL → (1 < n)%Z →
        given_up k n h m !! h = Some (BObj k (n - 1))) ∧
     (h ≠ NULL → (n ≤ 1)%Z → given_up k n h m !! h = None) ∧
     (∀ q, q ≠ h → given_up k n h m !! q = m !! q)).
Proof.
  intros Hn Hl. split; [|split; [|split; [|split]]].
  - intros Ht Hh. by apply free_PARAMS_eq.
  - intros Ht Hh. by apply free_PKEY_eq.
  - intros Ht Hh. by apply free_CERT_eq.
  - intros Ht Hh. by apply free_CRL_eq.
  - intros k h m. unfold given_up, unreferenced. repeat split.
    + intros Hh Hlt. destruct (decide (h = NULL)); [done|].
      destruct (decide (0 < n - 1)); [apply lookup_insert_eq | lia].
    + intros Hh Hle. destruct (decide (h = NULL)); [done|].
      destruct (decide (0 < n - 1)); [lia | apply lookup_delete_eq].
    + intros q Hq. destruct (decide (h = NULL)); [done|].
      destruct (decide (0 < n - 1)).
      * by rewrite lookup_insert_ne.
      * by rewrite lookup_delete_ne.
Qed.

(** ** Duplicates and the object they come from *)

Lemma up_ref_then_given_up k n h (m : gmap Z block) :
  m !! h = Some (BObj k n) → h ≠ NULL → (1 ≤ n)%Z →
  given_up k (n + 1) h (<[h := BObj k (n + 1)]> m) = m.
Proof.
  intros Hl Hn Hpos. unfold given_up, unreferenced.
  destruct (decide (h = NULL)); [done|].
  destruct (decide (0 < n + 1 - 1)); [|lia].
  rewrite insert_insert_eq. replace (n + 1 - 1) with n by lia.
  by apply insert_id.
Qed.

Lemma get1_then_free_handle k h n info i (get1 : ptr → M ptr) w :
  info ≠ NULL →
  heap w !! info = Some (BInfo i) →
  h ≠ NULL →
  heap w !! h = Some (BObj k n) →
  (1 ≤ n)%Z →
  get1 info w = Ret h (set_heap (<[h := BObj k (n + 1)]> (heap w)) w) →
  (∀ w1, heap w1 !! info = Some (BInfo i) →
         handle_or_null k (n + 1) h (heap w1) →
         OSSL_STORE_INFO_free info w1 =
           Ret () (set_heap (delete info (given_up k (n + 1) h (heap w1))) w1)) →
  (x ← get1 info; OSSL_STORE_INFO_free info;; mret x) w =
    Ret h (set_heap (delete info (heap w)) w).
Proof.
  intros Hn Hl Hh Hlh Hpos Hget Hfree.
  rewrite (bind_Ret _ _ _ _ _ Hget).
  erewrite (bind_Ret (OSSL_STORE_INFO_free info)); cycle 1.
  { apply Hfree.
    - cbn. rewrite lookup_insert_ne; [done|]. intros ->. congruence.
    - right. cbn. apply lookup_insert_eq. }
  cbn [heap set_heap]. rewrite (up_ref_then_given_up _ _ _ _ Hlh Hh Hpos).
  reflexivity.
Qed.

(** X10: duplicating a handle and then destroying the object hands the
    object's reference over.  For each refcounted variant, with a live
    handle counted at least once: the duplicating accessor followed by the
    destructor returns the handle and leaves the heap as it was but for the
    structure; the handle is alive with the count it had. *)
Theorem get1_then_free_hands_over info i n w :
  info ≠ NULL →
  heap w !! info = Some (BInfo i) →
  (1 ≤ n)%Z →
  (type i = OSSL_STORE_INFO_PARAMS → u_params i ≠ NULL →
     heap w !! u_params i = Some (BObj K_EVP_PKEY n) →
     (x ← OSSL_STORE_INFO_get1_PARAMS info;
      OSSL_STORE_INFO_free info;; mret x) w =
       Ret (u_params i) (set_heap (delete info (heap w)) w)) ∧
  (type i = OSSL_STORE_INFO_PKEY → u_pkey i ≠ NULL →
     heap w !! u_pkey i = Some (BObj K_EVP_PKEY n) →
     (x ← OSSL_STORE_INFO_get1_PKEY info;
      OSSL_STORE_INFO_free info;; mret x) w =
       Ret (u_pkey i) (set_heap (delete info (heap w)) w)) ∧
  (type i = OSSL_STORE_INFO_CERT → u_x509 i ≠ NULL →
     heap w !! u_x509 i = Some (BObj K_X509 n) →
     (x ← OSSL_STORE_INFO_get1_CERT info;
      OSSL_STORE_INFO_free info;; mret x) w =
       Ret (u_x509 i) (set_heap (delete info (heap w)) w)) ∧
  (type i = OSSL_STORE_INFO_CRL → u_crl i ≠ NULL →
     heap w !! u_crl i = Some (BObj K_X509_CRL n) →
     (x ← OSSL_STORE_INFO_get1_CRL info;
      OSSL_STORE_INFO_free info;; mret x) w =
       Ret (u_crl i) (set_heap (delete info (heap w)) w)) ∧
  (∀ q, q ≠ info →
        heap (set_heap (delete info (heap w)) w) !! q = heap w !! q).
Proof.
  intros Hn Hl Hpos. split; [|split; [|split; [|split]]].
  - intros Ht Hh Hlh.
    apply (get1_then_free_handle K_EVP_PKEY _ n _ i); try done.
    + unfold OSSL_STORE_INFO_get1_PARAMS, EVP_PKEY_up_ref.
      rewrite (bind_Ret _ _ _ _ _ (get_info_live _ _ _ Hl)).
      destruct (decide _); [|done].
      by rewrite (bind_Ret _ _ _ _ _ (up_ref_live _ _ _ _ Hlh)).
    + intros w1 Hl1 Hh1. by apply free_PARAMS_eq.
  - intros Ht Hh Hlh.
    apply (get1_then_free_handle K_EVP_PKEY _ n _ i); try done.
    + unfold OSSL_STORE_INFO_get1_PKEY, EVP_PKEY_up_ref.
      rewrite (bind_Ret _ _ _ _ _ (get_info_live _ _ _ Hl)).
      destruct (decide _); [|done].
      by rewrite (bind_Ret _ _ _ _ _ (up_ref_live _ _ _ _ Hlh)).
    + intros w1 Hl1 Hh1. by apply free_PKEY_eq.
  - intros Ht Hh Hlh.
    apply (get1_then_free_handle K_X509 _ n _ i); try done.
    + unfold OSSL_STORE_INFO_get1_CERT, X509_up_ref.
      rewrite (bind_Ret _ _ _ _ _ (get_info_live _ _ _ Hl)).
      destruct (decide _); [|done].
      by rewrite (bind_Ret _ _ _ _ _ (up_ref_live _ _ _ _ Hlh)).
    + intros w1 Hl1 Hh1. by apply free_CERT_eq.
  - intros Ht Hh Hlh.
    apply (get1_then_free_handle K_X509_CRL _ n _ i); try done.
    + unfold OSSL_STORE_INFO_get1_CRL, X509_CRL_up_ref.
      rewrite (bind_Ret _ _ _ _ _ (get_info_live _ _ _ Hl)).
      destruct (decide _); [|done].
      by rewrite (bind_Ret _ _ _ _ _ (up_ref_live _ _ _ _ Hlh)).
    + intros w1 Hl1 Hh1. by apply free_CRL_eq.
  - intros q Hq. cbn. by rewrite lookup_delete_ne.
Qed.

(** ** Construction followed by destruction *)

Lemma delete_fresh_given_up k n x p b (h : gmap Z block) :
  h !! p = None →
  handle_or_null k n x h →
  delete p (given_up k n x (<[p := b]> h)) = given_up k n x h.
Proof.
  intros Hp Hx. unfold given_up, unreferenced.
  destruct (decide (x = NULL)); [by apply delete_insert_id|].
  destruct Hx as [?|Hx]; [done|].
  assert (p ≠ x) as Hne by (intros ->; congruence).
  destruct (decide (0 < n - 1)).
  - rewrite delete_insert_ne by done. by rewrite delete_insert_id.
  - rewrite delete_delete. by rewrite delete_insert_id.
Qed.

Lemma delete_fresh_released x p b (h : gmap Z block) :
  h !! p = None →
  delete p (released x (<[p := b]> h)) = released x h.
Proof.
  intros Hp. unfold released.
  destruct (decide (x = NULL)); [by apply delete_insert_id|].
  rewrite delete_delete. by rewrite delete_insert_id.
Qed.

Lemma handle_or_null_constructed k n x t p0 p1 w :
  handle_or_null k n x (heap w) →
  handle_or_null k n x (heap (constructed t p0 p1 w)).
Proof.
  intros [?|Hx]; [by left|]. right. cbn.
  rewrite lookup_insert_ne; [done|]. by eapply fresh_ptr_not_live.
Qed.

(** X11: an object owns exactly one reference of its payload.  Building
    an object around a payload and destroying it at once leaves no
    structure behind and gives up one reference of a handle (NULL being
    left alone), resp. releases the name string; but for the allocation
    spent, the world is the one in which the payload alone was let go. *)
Theorem construct_then_free_consumes_payload payload n w :
  next_alloc_ok w = true →
  (handle_or_null K_EVP_PKEY n payload (heap w) →
     (info ← OSSL_STORE_INFO_new_PARAMS payload;
      OSSL_STORE_INFO_free info) w =
       Ret () (set_alloc_plan (tail (alloc_plan w))
                 (set_heap (given_up K_EVP_PKEY n payload (heap w)) w))) ∧
  (handle_or_null K_EVP_PKEY n payload (heap w) →
     (info ← OSSL_STORE_INFO_new_PKEY payload;
      OSSL_STORE_INFO_free info) w =
       Ret () (set_alloc_plan (tail (alloc_plan w))
                 (set_heap (given_up K_EVP_PKEY n payload (heap w)) w))) ∧
  (handle_or_null K_X509 n payload (heap w) →
     (info ← OSSL_STORE_INFO_new_CERT payload;
      OSSL_STORE_INFO_free info) w =
       Ret () (set_alloc_plan (tail (alloc_plan w))
                 (set_heap (given_up K_X509 n payload (heap w)) w))) ∧
  (handle_or_null K_X509_CRL n payload (heap w) →
     (info ← OSSL_STORE_INFO_new_CRL payload;
      OSSL_STORE_INFO_free info) w =
       Ret () (set_alloc_plan (tail (alloc_plan w))
                 (set_heap (given_up K_X509_CRL n payload (heap w)) w))) ∧
  (releasable payload (heap w) →
     (info ← OSSL_STORE_INFO_new_NAME payload;
      OSSL_STORE_INFO_free info) w =
       Ret () (set_alloc_plan (tail (alloc_plan w))
                 (set_heap (released payload (heap w)) w))).
Proof.
  intros Ha.
  pose proof (fresh_ptr_unused (heap w)) as Hfresh.
  pose proof (fresh_ptr_not_NULL (heap w)) as Hnn.
  split; [|split; [|split; [|split]]].
  - intros Hh. unfold OSSL_STORE_INFO_new_PARAMS.
    rewrite (bind_Ret _ _ _ _ _ (tagged_constructor_succeeds _ _ _ _ Ha)).
    rewrite (free_PARAMS_eq _ _ n _ Hnn (constructed_lookup _ _ _ _) eq_refl
               (handle_or_null_constructed _ _ _ _ _ _ _ Hh)).
    unfold constructed, set_heap, set_alloc_plan. cbn.
    by rewrite (delete_fresh_given_up _ _ _ _ _ _ Hfresh Hh).
  - intros Hh. unfold OSSL_STORE_INFO_new_PKEY.
    rewrite (bind_Ret _ _ _ _ _ (tagged_constructor_succeeds _ _ _ _ Ha)).
    rewrite (free_PKEY_eq _ _ n _ Hnn (constructed_lookup _ _ _ _) eq_refl
               (handle_or_null_constructed _ _ _ _ _ _ _ Hh)).
    unfold constructed, set_heap, set_alloc_plan. cbn.
    by rewrite (delete_fresh_given_up _ _ _ _ _ _ Hfresh Hh).
  - intros Hh. unfold OSSL_STORE_INFO_new_CERT.
    rewrite (bind_Ret _ _ _ _ _ (tagged_constructor_succeeds _ _ _ _ Ha)).
    rewrite (free_CERT_eq _ _ n _ Hnn (constructed_lookup _ _ _ _) eq_refl
               (handle_or_null_constructed _ _ _ _ _ _ _ Hh)).
    unfold constructed, set_heap, set_alloc_plan. cbn.
    by rewrite (delete_fresh_given_up _ _ _ _ _ _ Hfresh Hh).
  - intros Hh. unfold OSSL_STORE_INFO_new_CRL.
    rewrite (bind_Ret _ _ _ _ _ (tagged_constructor_succeeds _ _ _ _ Ha)).
    rewrite (free_CRL_eq _ _ n _ Hnn (constructed_lookup _ _ _ _) eq_refl
               (handle_or_null_constructed _ _ _ _ _ _ _ Hh)).
    unfold constructed, set_heap, set_alloc_plan. cbn.
    by rewrite (delete_fresh_given_up _ _ _ _ _ _ Hfresh Hh).
  - intros Hr.
    rewrite (bind_Ret _ _ _ _ _ (new_NAME_succeeds _ _ Ha)).
    rewrite (free_NAME_eq _ _ _ Hnn (constructed_lookup _ _ _ _) eq_refl).
    + unfold constructed, set_heap, set_alloc_plan. cbn.
      unfold released at 1. destruct (decide (NULL = NULL)); [|done].
      by rewrite (delete_fresh_released _ _ _ _ Hfresh).
    + cbn. by rewrite (delete_insert_id _ _ _ Hfresh).
    + by left.
Qed.

(** ** The description of a Name *)

Lemma get1_NAME_description_present info i s w :
  heap w !! info = Some (BInfo i) →
  type i = OSSL_STORE_INFO_NAME →
  u_name_desc i ≠ NULL →
  heap w !! u_name_desc i = Some (BStr s) →
  next_alloc_ok w = true →
  OSSL_STORE_INFO_get1_NAME_description info w =
    Ret (fresh_ptr (heap w)) (copied s (fresh_ptr (heap w)) w).
Proof.
  intros Hl Ht Hn Hs Ha. unfold OSSL_STORE_INFO_get1_NAME_description.
  rewrite (bind_Ret _ _ _ _ _ (get_info_live _ _ _ Hl)).
  destruct (decide (type i = _)); [|done].
  destruct (decide (u_name_desc i ≠ NULL)); [|done].
  rewrite (bind_Ret _ _ _ _ _ (read_str_live _ _ _ Hn Hs)).
  by rewrite strdup_then_report, Ha.
Qed.

(** X12: description round trip.  Once a description has been set on a
    Name, the borrowing accessor returns that very pointer, whose content
    is unchanged, the name is still what it was, and the duplicating
    accessor returns another, freshly allocated string with the same
    content, the original staying in place. *)
Theorem set0_NAME_description_roundtrip info i desc s w :
  heap w !! info = Some (BInfo i) →
  type i = OSSL_STORE_INFO_NAME →
  desc ≠ NULL →
  heap w !! desc = Some (BStr s) →
  next_alloc_ok w = true →
  ∃ w1 copy w2,
    OSSL_STORE_INFO_set0_NAME_description info desc w = Ret 1 w1 ∧
    OSSL_STORE_INFO_get0_NAME_description info w1 = Ret desc w1 ∧
    read_str desc w1 = Ret (Some s) w1 ∧
    OSSL_STORE_INFO_get0_NAME info w1 = Ret (u_name_name i) w1 ∧
    OSSL_STORE_INFO_get1_NAME_description info w1 = Ret copy w2 ∧
    copy ≠ NULL ∧ copy ≠ desc ∧
    heap w !! copy = None ∧
    heap w2 !! copy = Some (BStr s) ∧
    heap w2 !! desc = Some (BStr s).
Proof.
  intros Hl Ht Hn Hs Ha.
  assert (desc ≠ info) as Hdi by (intros ->; congruence).
  set (w1 := set_heap (<[info := BInfo (set_u_name_desc desc i)]> (heap w)) w).
  assert (heap w1 !! info = Some (BInfo (set_u_name_desc desc i))) as Hl1
    by (cbn; apply lookup_insert_eq).
  assert (heap w1 !! desc = Some (BStr s)) as Hs1
    by (cbn; by rewrite lookup_insert_ne).
  pose proof (borrowing_accessors _ _ _ Hl1) as (_ & Hname & Hdesc & _).
  cbn [type set_u_name_desc set_u_word1] in Hname, Hdesc.
  destruct (decide (type i = OSSL_STORE_INFO_NAME)); [|done].
  exists w1, (fresh_ptr (heap w1)), (copied s (fresh_ptr (heap w1)) w1).
  split; [by apply set0_NAME_description_name|].
  split; [exact Hdesc|]. split; [by apply read_str_live|].
  split; [exact Hname|]. split.
  { by apply (get1_NAME_description_present info (set_u_name_desc desc i)). }
  split; [apply fresh_ptr_not_NULL|].
  split; [by eapply fresh_ptr_not_live|]. split; [|split].
  - pose proof (fresh_ptr_unused (heap w1)) as Hf.
    assert (fresh_ptr (heap w1) ≠ info) as Hne
      by (by eapply fresh_ptr_not_live).
    revert Hf Hne. generalize (fresh_ptr (heap w1)). intros q Hf Hne.
    cbn in Hf. by rewrite lookup_insert_ne in Hf.
  - cbn. apply lookup_insert_eq.
  - cbn. rewrite lookup_insert_ne; [by rewrite lookup_insert_ne|].
    by eapply fresh_ptr_not_live.
Qed.

(** X13: a description that is replaced is never released.  Setting a
    description twice and then destroying the Name releases the name, the
    second description and the structure; the first description is still
    allocated, with its content, and nothing refers to it any more. *)
Theorem set0_NAME_description_overwrite_leaks info i d1 s1 d2 w :
  info ≠ NULL →
  heap w !! info = Some (BInfo i) →
  type i = OSSL_STORE_INFO_NAME →
  heap w !! d1 = Some (BStr s1) →
  d1 ≠ d2 →
  d1 ≠ u_name_name i →
  releasable (u_name_name i) (delete info (heap w)) →
  releasable d2 (released (u_name_name i) (delete info (heap w))) →
  ∃ w',
    (OSSL_STORE_INFO_set0_NAME_description info d1;;
     OSSL_STORE_INFO_set0_NAME_description info d2;;
     OSSL_STORE_INFO_free info) w = Ret () w' ∧
    heap w' !! d1 = Some (BStr s1) ∧
    heap w' !! info = None ∧
    (d2 ≠ NULL → heap w' !! d2 = None) ∧
    (u_name_name i ≠ NULL → heap w' !! u_name_name i = None).
Proof.
  intros Hn Hl Ht Hd1 Hd12 Hd1n Hname Hd2.
  assert (d1 ≠ info) as Hd1i by (intros ->; congruence).
  rewrite (bind_Ret _ _ _ _ _ (set0_NAME_description_name _ _ d1 _ Hl Ht)).
  erewrite (bind_Ret (OSSL_STORE_INFO_set0_NAME_description _ _)); cycle 1.
  { apply set0_NAME_description_name with (i := set_u_name_desc d1 i);
      [cbn; apply lookup_insert_eq | exact Ht]. }
  cbn [heap set_heap]. rewrite insert_insert_eq.
  set (i2 := set_u_name_desc d2 (set_u_name_desc d1 i)).
  eexists. split.
  { apply (free_NAME_eq info i2); [done| cbn; apply lookup_insert_eq | exact Ht
                                  | cbn; by rewrite delete_insert_eq
                                  | cbn; by rewrite delete_insert_eq]. }
  cbn [heap set_heap].
  change (u_name_name i2) with (u_name_name i).
  change (u_name_desc i2) with d2.
  split; [|split; [apply lookup_delete_eq|split]].
  - rewrite lookup_delete_ne by done.
    rewrite !released_lookup_ne by done. by rewrite lookup_insert_ne.
  - intros Hp. destruct (decide (d2 = info)) as [E|Hne];
      [rewrite E; apply lookup_delete_eq|].
    rewrite lookup_delete_ne by done. by apply released_lookup.
  - intros Hp. destruct (decide (u_name_name i = info)) as [E|Hne];
      [rewrite E; apply lookup_delete_eq|].
    rewrite lookup_delete_ne by done.
    destruct (decide (u_name_name i = d2)) as [E|Hne'].
    + rewrite E. apply released_lookup. by rewrite <- E.
    + rewrite released_lookup_ne by done. by apply released_lookup.
Qed.

(** ** The copy of a name outlives the Name *)

Lemma released_Some p x b (m : gmap Z block) :
  released p m !! x = Some b → m !! x = Some b ∧ (p = NULL ∨ x ≠ p).
Proof.
  unfold released. destruct (decide (p = NULL)); [by split; [|left]|].
  rewrite lookup_delete. case_decide as Hc; [done|]. intros Hx.
  split; [done|]. right. congruence.
Qed.

Lemma delete_Some p x b (m : gmap Z block) :
  delete p m !! x = Some b → m !! x = Some b ∧ x ≠ p.
Proof.
  rewrite lookup_delete. case_decide as Hc; [done|]. intros Hx.
  split; [done|]. congruence.
Qed.

Lemma releasable_after_fresh name info d q c (h : gmap Z block) :
  h !! q = None →
  releasable d (released name (delete info h)) →
  releasable d (released name (delete info (<[q := c]> h))) ∧
  (d = NULL ∨ d ≠ q).
Proof.
  intros Hq [->|[b Hb]]; [split; by left|].
  apply released_Some in Hb as [Hb Hdn].
  apply delete_Some in Hb as [Hb Hdi].
  assert (d ≠ q) as Hdq by (intros ->; congruence).
  split; [|by right]. right. exists b.
  unfold released. destruct (decide (name = NULL)).
  - rewrite lookup_delete_ne by done. by rewrite lookup_insert_ne.
  - destruct Hdn as [?|Hdn]; [done|].
    rewrite !lookup_delete_ne by done. by rewrite lookup_insert_ne.
Qed.

(** X14: the copy of a name outlives the Name.  With a live name string
    and an allocation that succeeds, the duplicating accessor followed by
    the destructor returns a fresh string holding the name's content; it is
    still allocated after the object, its name and its description are
    gone. *)
Theorem get1_NAME_copy_outlives_object info i s w :
  info ≠ NULL →
  heap w !! info = Some (BInfo i) →
  type i = OSSL_STORE_INFO_NAME →
  u_name_name i ≠ NULL →
  heap w !! u_name_name i = Some (BStr s) →
  releasable (u_name_desc i)
    (released (u_name_name i) (delete info (heap w))) →
  next_alloc_ok w = true →
  ∃ copy w',
    (x ← OSSL_STORE_INFO_get1_NAME info;
     OSSL_STORE_INFO_free info;;
     mret x) w = Ret copy w' ∧
    copy ≠ NULL ∧
    heap w !! copy = None ∧
    heap w' !! copy = Some (BStr s) ∧
    heap w' !! u_name_name i = None ∧
    heap w' !! info = None.
Proof.
  intros Hn Hl Ht Hnn Hs Hdesc Ha.
  set (q := fresh_ptr (heap w)).
  assert (heap w !! q = None) as Hq by apply fresh_ptr_unused.
  assert (q ≠ NULL) as Hqn by apply fresh_ptr_not_NULL.
  assert (q ≠ info) as Hqi by (intros E; congruence).
  assert (q ≠ u_name_name i) as Hqname by (intros E; congruence).
  assert (u_name_name i ≠ info) as Hni by (intros E; congruence).
  destruct (releasable_after_fresh _ _ _ q (BStr s) _ Hq Hdesc)
    as [Hdesc' Hdq].
  assert (OSSL_STORE_INFO_get1_NAME info w = Ret q (copied s q w)) as Hget.
  { unfold OSSL_STORE_INFO_get1_NAME.
    rewrite (bind_Ret _ _ _ _ _ (get_info_live _ _ _ Hl)).
    destruct (decide (type i = _)); [|done].
    rewrite (bind_Ret _ _ _ _ _ (read_str_live _ _ _ Hnn Hs)).
    by rewrite strdup_then_report, Ha. }
  exists q. eexists. split.
  { rewrite (bind_Ret _ _ _ _ _ Hget).
    erewrite (bind_Ret (OSSL_STORE_INFO_free info)); [reflexivity|].
    apply (free_NAME_eq info i); [done| |done| |].
    - cbn. by rewrite lookup_insert_ne.
    - right. exists (BStr s). cbn.
      rewrite lookup_delete_ne by done. by rewrite lookup_insert_ne.
    - exact Hdesc'. }
  split; [done|]. split; [done|]. cbn [heap set_heap copied set_alloc_plan].
  split; [|split; [|apply lookup_delete_eq]].
  - rewrite lookup_delete_ne by done.
    rewrite !released_lookup_ne; [apply lookup_insert_eq|done|].
    destruct Hdq as [E|Hne]; [by rewrite E | done].
  - rewrite lookup_delete_ne by done.
    destruct (decide (u_name_name i = u_name_desc i)) as [E|Hne].
    + rewrite <- E. by apply released_lookup.
    + rewrite released_lookup_ne by done. by apply released_lookup.
Qed.

(** ** Embedded streams *)

Lemma new_EMBEDDED_None_eq embedded w :
  next_alloc_ok w = true →
  ossl_store_info_new_EMBEDDED None embedded w =
    Ret (fresh_ptr (heap w))
        (constructed OSSL_STORE_INFO_EMBEDDED embedded NULL w).
Proof.
  intros Ha. unfold ossl_store_info_new_EMBEDDED.
  rewrite (bind_Ret _ _ _ _ _ (store_info_new_succeeds _ _ _ Ha)).
  destruct (decide _) as [E|_]; [by apply fresh_ptr_not_NULL in E|].
  erewrite (bind_Ret (assign_info _ _));
    [|apply assign_info_live; cbn; apply lookup_insert_eq].
  destruct (decide (None = None)); [|done].
  rewrite bind_unfold. cbn [mret M_ret ret].
  erewrite (bind_Ret (assign_info _ _));
    [|apply assign_info_live; cbn; apply lookup_insert_eq].
  destruct (decide _) as [[Hno _]|_]; [done|].
  cbn. unfold constructed, set_heap, set_alloc_plan. cbn.
  by rewrite !insert_insert_eq.
Qed.

Lemma new_EMBEDDED_Some_eq s embedded w :
  next_alloc_ok w = true →
  next_alloc_ok (set_alloc_plan (tail (alloc_plan w)) w) = true →
  ossl_store_info_new_EMBEDDED (Some s) embedded w =
    Ret (fresh_ptr (heap w))
        (set_alloc_plan (tail (tail (alloc_plan w)))
           (set_heap
              (<[fresh_ptr (heap w) :=
                   BInfo (mk_info OSSL_STORE_INFO_EMBEDDED embedded
                            (fresh_ptr
                               (<[fresh_ptr (heap w) :=
                                    BInfo (mk_info OSSL_STORE_INFO_EMBEDDED
                                             embedded NULL)]> (heap w))))]>
                 (<[fresh_ptr
                      (<[fresh_ptr (heap w) :=
                           BInfo (mk_info OSSL_STORE_INFO_EMBEDDED
                                    embedded NULL)]> (heap w)) := BStr s]>
                    (heap w)))
              w)).
Proof.
  intros Ha Ha2. unfold ossl_store_info_new_EMBEDDED.
  rewrite (bind_Ret _ _ _ _ _ (store_info_new_succeeds _ _ _ Ha)).
  destruct (decide _) as [E|_]; [by apply fresh_ptr_not_NULL in E|].
  erewrite (bind_Ret (assign_info _ _));
    [|apply assign_info_live; cbn; apply lookup_insert_eq].
  destruct (decide (Some s = None)); [done|].
  unfold OPENSSL_strdup.
  erewrite (bind_Ret (CRYPTO_malloc _));
    [|apply CRYPTO_malloc_succeeds; exact Ha2].
  cbn [heap set_heap set_alloc_plan alloc_plan].
  rewrite !insert_insert_eq.
  set (p := fresh_ptr (heap w)).
  set (I2 := BInfo (set_u_embedded_blob embedded
                      (mk_info OSSL_STORE_INFO_EMBEDDED NULL NULL))).
  change (BInfo (mk_info OSSL_STORE_INFO_EMBEDDED embedded NULL)) with I2.
  set (q := fresh_ptr (<[p := I2]> (heap w))).
  assert (q ≠ p) as Hqp.
  { apply (fresh_ptr_not_live _ _ I2). apply lookup_insert_eq. }
  erewrite (bind_Ret (assign_info _ _)); cycle 1.
  { apply assign_info_live with (i := set_u_embedded_blob embedded
               (mk_info OSSL_STORE_INFO_EMBEDDED NULL NULL)).
    cbn. rewrite lookup_insert_ne by done. apply lookup_insert_eq. }
  destruct (decide _) as [[_ E]|_];
    [by apply fresh_ptr_not_NULL in E|].
  cbn. unfold set_heap, set_alloc_plan. cbn. f_equal. f_equal.
  rewrite (insert_insert_ne _ q p) by done.
  by rewrite insert_insert_eq.
Qed.

Lemma free_EMBEDDED_eq info i w :
  info ≠ NULL →
  heap w !! info = Some (BInfo i) →
  type i = OSSL_STORE_INFO_EMBEDDED →
  (u_embedded_blob i = NULL ∨
   ∃ data, heap w !! u_embedded_blob i = Some (BBufMem data)) →
  releasable (u_embedded_pem_name i)
    (released (u_embedded_blob i) (delete info (heap w))) →
  OSSL_STORE_INFO_free info w =
    Ret () (set_heap (delete info (released (u_embedded_pem_name i)
                                     (released (u_embedded_blob i)
                                        (heap w)))) w).
Proof.
  intros Hn Hl Ht Hblob Hpem. unfold OSSL_STORE_INFO_free.
  destruct (decide (info ≠ NULL)); [|done].
  rewrite (bind_Ret _ _ _ _ _ (get_info_live _ _ _ Hl)).
  assert (u_embedded_blob i = NULL ∨ u_embedded_blob i ≠ info) as Hbi.
  { destruct Hblob as [?|[d Hd]]; [by left|]. right. intros E.
    rewrite E in Hd. congruence. }
  assert (releasable (u_embedded_pem_name i)
            (released (u_embedded_blob i) (heap w)) ∧
          (u_embedded_pem_name i = NULL ∨ u_embedded_pem_name i ≠ info))
    as [Hpem' Hpi].
  { destruct Hpem as [->|[b Hb]]; [split; by left|].
    apply released_Some in Hb as [Hb Hpb].
    apply delete_Some in Hb as [Hb Hpi].
    split; [|by right]. right. exists b. unfold released.
    destruct (decide (u_embedded_blob i = NULL)); [done|].
    destruct Hpb as [?|Hpb]; [done|]. by rewrite lookup_delete_ne. }
  apply free_structure with (i := i); [done|done| |].
  - tag_decide Ht.
    rewrite (bind_Ret _ _ _ _ _ (BUF_MEM_free_released _ _ Hblob)).
    by rewrite (OPENSSL_free_released _ (set_heap _ w) Hpem').
  - rewrite !released_lookup_ne, Hl; [by eexists| |].
    + intros E. destruct Hbi; congruence.
    + intros E. destruct Hpi; congruence.
Qed.

(** X15: embedded-stream round trip.  When its allocations succeed, the
    internal constructor returns a fresh object on which the buffer
    accessor answers the very buffer given and the format-name accessor
    answers NULL if no name was given, else a fresh string holding a copy
    of the name; no error is queued and every block that was there is as
    before.  Destroying the object restores the heap but for the buffer,
    which is released with it. *)
Theorem ossl_store_info_new_EMBEDDED_roundtrip pem_name embedded w :
  next_alloc_ok w = true →
  (pem_name = None ∨
   next_alloc_ok (set_alloc_plan (tail (alloc_plan w)) w) = true) →
  (embedded = NULL ∨ ∃ data, heap w !! embedded = Some (BBufMem data)) →
  ∃ info w',
    ossl_store_info_new_EMBEDDED pem_name embedded w = Ret info w' ∧
    info ≠ NULL ∧
    heap w !! info = None ∧
    ossl_store_info_get0_EMBEDDED_buffer info w' = Ret embedded w' ∧
    (pem_name = None →
       ossl_store_info_get0_EMBEDDED_pem_name info w' = Ret NULL w') ∧
    (∀ s, pem_name = Some s →
       ∃ q, ossl_store_info_get0_EMBEDDED_pem_name info w' = Ret q w' ∧
            q ≠ NULL ∧ heap w !! q = None ∧ heap w' !! q = Some (BStr s)) ∧
    err_queue w' = err_queue w ∧
    (∀ q b, heap w !! q = Some b → heap w' !! q = Some b) ∧
    ∃ w'',
      OSSL_STORE_INFO_free info w' = Ret () w'' ∧
      heap w'' = released embedded (heap w).
Proof.
  intros Ha Ha2 Hbuf.
  pose proof (fresh_ptr_unused (heap w)) as Hfresh.
  pose proof (fresh_ptr_not_NULL (heap w)) as Hnn.
  destruct pem_name as [s|].
  - destruct Ha2 as [?|Ha2]; [done|].
    set (p := fresh_ptr (heap w)) in *.
    set (I2 := BInfo (mk_info OSSL_STORE_INFO_EMBEDDED embedded NULL)).
    set (q := fresh_ptr (<[p := I2]> (heap w))).
    assert (q ≠ p) as Hqp.
    { apply (fresh_ptr_not_live _ _ I2). apply lookup_insert_eq. }
    assert (q ≠ NULL) as Hqn by apply fresh_ptr_not_NULL.
    assert (heap w !! q = None) as Hq.
    { pose proof (fresh_ptr_unused (<[p := I2]> (heap w))) as Hf.
      fold q in Hf. by rewrite lookup_insert_ne in Hf. }
    eexists p, _. split; [by apply new_EMBEDDED_Some_eq|].
    fold p I2 q. cbn [heap set_heap set_alloc_plan err_queue].
    set (I3 := mk_info OSSL_STORE_INFO_EMBEDDED embedded q).
    set (w' := set_alloc_plan _ _).
    assert (heap w' !! p = Some (BInfo I3)) as Hl'
      by (cbn; apply lookup_insert_eq).
    pose proof (borrowing_accessors _ _ _ Hl')
      as (_ & _ & _ & _ & _ & _ & _ & Hb & Hpn).
    cbn in Hb, Hpn.
    split; [done|]. split; [done|]. split; [exact Hb|].
    split; [done|]. split.
    { intros s' [= <-]. exists q. split; [exact Hpn|].
      split; [done|]. split; [done|]. cbn.
      rewrite lookup_insert_ne by done. apply lookup_insert_eq. }
    split; [done|]. split.
    { intros x b Hx. cbn.
      rewrite !lookup_insert_ne; [done| |]; intros E; congruence. }
    eexists. split.
    { apply (free_EMBEDDED_eq p I3); [done|exact Hl'|done| |].
      - destruct Hbuf as [?|[d Hd]]; [by left|]. right. exists d. cbn.
        rewrite !lookup_insert_ne; [done| |]; intros E; congruence.
      - right. exists (BStr s). cbn. rewrite delete_insert_eq.
        assert (embedded = NULL ∨ q ≠ embedded) as Hqe.
        { destruct Hbuf as [?|[d Hd]]; [by left|]. right. congruence. }
        unfold released. destruct (decide (embedded = NULL)).
        + rewrite lookup_delete_ne by done. apply lookup_insert_eq.
        + destruct Hqe as [?|Hqe]; [done|].
          rewrite !lookup_delete_ne by done. apply lookup_insert_eq. }
    cbn [heap set_heap]. subst w'. cbn [heap set_heap set_alloc_plan].
    change (u_embedded_pem_name I3) with q.
    change (u_embedded_blob I3) with embedded.
    apply map_eq. intros x.
    unfold released. destruct (decide (q = NULL)); [done|].
    destruct (decide (embedded = NULL)).
    + rewrite !lookup_delete, !lookup_insert.
      repeat case_decide; subst; try done; try congruence.
    + assert (embedded ≠ p ∧ embedded ≠ q) as [Hep Heq].
      { destruct Hbuf as [?|[d Hd]]; [done|]. split; congruence. }
      destruct (decide (x = p)) as [Exp|Hxp].
      { rewrite Exp, lookup_delete_eq.
        rewrite lookup_delete_ne by done. by rewrite Hfresh. }
      rewrite (lookup_delete_ne _ p x) by congruence.
      destruct (decide (x = q)) as [Exq|Hxq].
      { rewrite Exq, lookup_delete_eq.
        rewrite lookup_delete_ne by done. by rewrite Hq. }
      rewrite (lookup_delete_ne _ q x) by congruence.
      destruct (decide (embedded = x)) as [Eex|Hex].
      { by rewrite <- Eex, !lookup_delete_eq. }
      rewrite !(lookup_delete_ne _ embedded x) by done.
      rewrite !lookup_insert_ne by congruence. done.
  - eexists _, _. split; [by apply new_EMBEDDED_None_eq|].
    set (p := fresh_ptr (heap w)) in *.
    set (I3 := mk_info OSSL_STORE_INFO_EMBEDDED embedded NULL).
    pose proof (constructed_lookup OSSL_STORE_INFO_EMBEDDED embedded NULL w)
      as Hl'.
    pose proof (borrowing_accessors _ _ _ Hl')
      as (_ & _ & _ & _ & _ & _ & _ & Hb & Hpn).
    cbn in Hb, Hpn.
    split; [done|]. split; [done|]. split; [exact Hb|].
    split; [done|]. split; [done|]. split; [done|]. split.
    { intros x b Hx. cbn. rewrite lookup_insert_ne; [done|].
      by eapply fresh_ptr_not_live. }
    eexists. split.
    { apply (free_EMBEDDED_eq p I3); [done|exact Hl'|done| |].
      - destruct Hbuf as [?|[d Hd]]; [by left|]. right. exists d. cbn.
        rewrite lookup_insert_ne; [done|]. by eapply fresh_ptr_not_live.
      - by left. }
    cbn [heap set_heap constructed set_alloc_plan].
    change (u_embedded_pem_name I3) with NULL.
    change (u_embedded_blob I3) with embedded.
    unfold released at 1. destruct (decide (NULL = NULL)); [|done].
    by apply delete_fresh_released.
Qed.

(** ** The discipline of the error queue *)

Local Abbreviation quiet := (quiet (Backend := Backend)).

Lemma quiet_ret {A} (a : A) : quiet (mret a : M A).
Proof. by intros w a' w' [= _ <-]. Qed.

Lemma quiet_bind {A B} (m : M A) (f : A → M B) :
  quiet m → (∀ a, quiet (f a)) → quiet (m ≫= f).
Proof.
  intros Hm Hf w b w'. rewrite bind_unfold.
  destruct (m w) as [a w1| |] eqn:E; try done.
  intros Hr. rewrite (Hf _ _ _ _ Hr). by eapply Hm.
Qed.

Lemma quiet_bind_inv {A B} (m : M A) (f : A → M B) w b w' :
  quiet m → (m ≫= f) w = Ret b w' →
  ∃ a w1, f a w1 = Ret b w' ∧ err_queue w1 = err_queue w.
Proof.
  intros Hm. rewrite bind_unfold.
  destruct (m w) as [a w1| |] eqn:E; try done.
  intros Hr. exists a, w1. split; [done|]. by eapply Hm.
Qed.

Lemma quiet_get_info p : quiet (get_info p).
Proof.
  intros w a w'. unfold get_info.
  destruct (heap w !! p) as [[]|]; try done. by intros [= _ <-].
Qed.

Lemma quiet_put_info p i : quiet (put_info p i).
Proof.
  intros w a w'. unfold put_info.
  destruct (heap w !! p) as [[]|]; try done. by intros [= _ <-].
Qed.

Lemma quiet_assign_info p f : quiet (assign_info p f).
Proof.
  apply quiet_bind; [apply quiet_get_info|]. intros a. apply quiet_put_info.
Qed.

Lemma quiet_read_str p : quiet (read_str p).
Proof.
  intros w a w'. unfold read_str. destruct (decide _); [by intros [= _ <-]|].
  destruct (heap w !! p) as [[]|]; try done. by intros [= _ <-].
Qed.

Lemma quiet_CRYPTO_malloc b : quiet (CRYPTO_malloc b).
Proof.
  intros w a w'. unfold CRYPTO_malloc.
  destruct (alloc_plan w) as [|[] plan]; by intros [= _ <-].
Qed.

Lemma quiet_OPENSSL_strdup s : quiet (OPENSSL_strdup s).
Proof. destruct s; [apply quiet_CRYPTO_malloc | apply (quiet_ret NULL)]. Qed.

Lemma quiet_up_ref k h : quiet (up_ref k h).
Proof.
  intros w a w'. unfold up_ref.
  destruct (heap w !! h) as [[]|]; try done.
  destruct (decide _); [|done]. by intros [= _ <-].
Qed.

Lemma quiet_obj_free k h : quiet (obj_free k h).
Proof.
  intros w a w'. unfold obj_free. destruct (decide _); [by intros [= _ <-]|].
  destruct (heap w !! h) as [[]|]; try done.
  destruct (decide _); [|done]. destruct (decide _); by intros [= _ <-].
Qed.

Lemma quiet_OPENSSL_free p : quiet (OPENSSL_free p).
Proof.
  intros w a w'. unfold OPENSSL_free. destruct (decide _); [by intros [= _ <-]|].
  destruct (heap w !! p); [|done]. by intros [= _ <-].
Qed.

Lemma quiet_BUF_MEM_free p : quiet (BUF_MEM_free p).
Proof.
  intros w a w'. unfold BUF_MEM_free. destruct (decide _); [by intros [= _ <-]|].
  destruct (heap w !! p) as [[]|]; try done. by intros [= _ <-].
Qed.

Ltac quiet_tac :=
  repeat first
    [ apply quiet_ret
    | apply quiet_get_info
    | apply quiet_assign_info
    | apply quiet_read_str
    | apply quiet_OPENSSL_strdup
    | apply quiet_CRYPTO_malloc
    | apply quiet_up_ref
    | apply quiet_obj_free
    | apply quiet_OPENSSL_free
    | apply quiet_BUF_MEM_free
    | apply quiet_bind; [|intros ?]
    | match goal with
      | |- _ (if ?b then _ else _) => destruct b
      end ].

Lemma quiet_OSSL_STORE_INFO_free info : quiet (OSSL_STORE_INFO_free info).
Proof.
  unfold OSSL_STORE_INFO_free, EVP_PKEY_free, X509_free, X509_CRL_free.
  destruct (decide (info ≠ NULL)); [|apply quiet_ret].
  apply quiet_bind; [apply quiet_get_info|]. intros i.
  apply quiet_bind; [|intros ?; apply quiet_OPENSSL_free].
  repeat (destruct (decide (type i = _))); quiet_tac.
Qed.

Lemma quiet_store_info_new t d : quiet (store_info_new t d).
Proof.
  unfold store_info_new, zalloc_info.
  apply quiet_bind; [apply quiet_CRYPTO_malloc|]. intros p.
  destruct (decide _); quiet_tac.
Qed.

Local Abbreviation reports_with_zero :=
  (reports_with_zero (Backend := Backend)).
Local Abbreviation reports_iff_null :=
  (reports_iff_null (Backend := Backend)).

Lemma rz_of_quiet (m : M Z) : quiet m → reports_with_zero m.
Proof. intros Hm w r w' H. left. by eapply Hm. Qed.

Lemma rz_bind {A} (m : M A) (f : A → M Z) :
  quiet m → (∀ a, reports_with_zero (f a)) → reports_with_zero (m ≫= f).
Proof.
  intros Hm Hf w r w' H.
  apply quiet_bind_inv in H as (a & w1 & H & Hq); [|done].
  rewrite <- Hq. by eapply Hf.
Qed.

Lemma rz_err f r : reports_with_zero (OSSL_STOREerr f r;; mret 0).
Proof. intros w r' w' [= <- <-]. right. split; [done|]. by eexists. Qed.

Lemma rz_report (r : ptr) f :
  reports_with_zero
    ((if decide (r = NULL) then OSSL_STOREerr f ERR_R_MALLOC_FAILURE
      else mret ());; mret r).
Proof.
  destruct (decide (r = NULL)) as [->|Hr].
  - apply rz_err.
  - apply rz_of_quiet. apply quiet_bind; [apply quiet_ret|].
    intros ?. apply quiet_ret.
Qed.

Ltac rz_tac :=
  repeat first
    [ apply rz_err
    | apply rz_report
    | apply rz_bind; [solve [quiet_tac] | intros ?]
    | match goal with
      | |- _ (if ?b then _ else _) => destruct b
      end
    | apply rz_of_quiet; solve [quiet_tac] ].

Lemma tagged_constructor_reports t d f :
  reports_iff_null
    (info ← store_info_new t d;
     (if decide (info = NULL) then OSSL_STOREerr f ERR_R_MALLOC_FAILURE
      else mret ());;
     mret info).
Proof.
  intros w r w' H.
  apply quiet_bind_inv in H as (p & w1 & H & Hq);
    [|apply quiet_store_info_new].
  rewrite <- Hq. destruct (decide (p = NULL)) as [->|Hp].
  - injection H as <- <-. right. split; [done|]. by eexists.
  - injection H as <- <-. by left.
Qed.

(** X16: the discipline of the error queue.  No operation on a credential
    object queues an error without returning zero (NULL), and then it
    queues a single one; the destructor never queues any; each constructor
    returns NULL exactly when it has queued an error, which is then one
    allocation failure. *)
Theorem error_queue_discipline :
  (∀ op info, reports_with_zero (run_op op info)) ∧
  (∀ info, quiet (OSSL_STORE_INFO_free info)) ∧
  (∀ payload,
     reports_iff_null (OSSL_STORE_INFO_new_NAME payload) ∧
     reports_iff_null (OSSL_STORE_INFO_new_PARAMS payload) ∧
     reports_iff_null (OSSL_STORE_INFO_new_PKEY payload) ∧
     reports_iff_null (OSSL_STORE_INFO_new_CERT payload) ∧
     reports_iff_null (OSSL_STORE_INFO_new_CRL payload)) ∧
  (∀ pem_name embedded,
     reports_iff_null (ossl_store_info_new_EMBEDDED pem_name embedded)).
Proof.
  split; [|split; [|split]].
  - intros op info. destruct op; cbn [run_op];
      unfold OSSL_STORE_INFO_get_type,
        OSSL_STORE_INFO_get0_NAME, OSSL_STORE_INFO_get1_NAME,
        OSSL_STORE_INFO_get0_NAME_description,
        OSSL_STORE_INFO_get1_NAME_description,
        OSSL_STORE_INFO_get0_PARAMS, OSSL_STORE_INFO_get1_PARAMS,
        OSSL_STORE_INFO_get0_PKEY, OSSL_STORE_INFO_get1_PKEY,
        OSSL_STORE_INFO_get0_CERT, OSSL_STORE_INFO_get1_CERT,
        OSSL_STORE_INFO_get0_CRL, OSSL_STORE_INFO_get1_CRL,
        ossl_store_info_get0_EMBEDDED_buffer,
        ossl_store_info_get0_EMBEDDED_pem_name,
        OSSL_STORE_INFO_set0_NAME_description,
        EVP_PKEY_up_ref, X509_up_ref, X509_CRL_up_ref;
      rz_tac.
  - apply quiet_OSSL_STORE_INFO_free.
  - intros payload. repeat split; try apply tagged_constructor_reports.
    intros w r w' H. unfold OSSL_STORE_INFO_new_NAME in H.
    apply quiet_bind_inv in H as (p & w1 & H & Hq);
      [|apply quiet_store_info_new].
    rewrite <- Hq. destruct (decide (p = NULL)) as [->|Hp].
    + injection H as <- <-. right. split; [done|]. by eexists.
    + apply quiet_bind_inv in H as (? & w2 & H & Hq2);
        [|apply quiet_assign_info].
      apply quiet_bind_inv in H as (? & w3 & H & Hq3);
        [|apply quiet_assign_info].
      injection H as <- <-. left. split; [done|]. congruence.
  - intros pem_name embedded w r w' H.
    unfold ossl_store_info_new_EMBEDDED in H.
    apply quiet_bind_inv in H as (p & w1 & H & Hq);
      [|apply quiet_store_info_new].
    rewrite <- Hq. destruct (decide (p = NULL)) as [->|Hp].
    + injection H as <- <-. right. split; [done|]. by eexists.
    + apply quiet_bind_inv in H as (? & w2 & H & Hq2);
        [|apply quiet_assign_info].
      apply quiet_bind_inv in H as (q & w3 & H & Hq3);
        [|destruct (decide _); [apply quiet_ret|apply quiet_OPENSSL_strdup]].
      apply quiet_bind_inv in H as (? & w4 & H & Hq4);
        [|apply quiet_assign_info].
      destruct (decide _).
      * rewrite bind_unfold in H. cbn [OSSL_STOREerr] in H.
        apply quiet_bind_inv in H as (? & w5 & H & Hq5);
          [|apply quiet_OSSL_STORE_INFO_free].
        injection H as <- <-. right. split; [done|].
        exists OSSL_STORE_F_OSSL_STORE_INFO_NEW_EMBEDDED.
        rewrite Hq5. cbn. f_equal. congruence.
      * injection H as <- <-. left. split; [done|]. congruence.
Qed.

(** ** The embedded-stream bridge *)

Lemma attach_done_no_session ld ctx w :
  attach_done env ld NULL ctx w = Ret ctx w.
Proof. reflexivity. Qed.

Lemma attach_succeeds_eq bp um ud w ld w1 session w2 :
  ossl_store_get0_loader_int env "file" w = Ret ld w1 →
  ld ≠ NULL →
  ossl_store_file_attach_pem_bio_int file bp w1 = Ret session w2 →
  session ≠ NULL →
  next_alloc_ok w2 = true →
  ossl_store_attach_pem_bio env file bp um ud w =
    Ret (fresh_ptr (heap w2))
        (set_alloc_plan (tail (alloc_plan w2))
           (set_heap (<[fresh_ptr (heap w2) :=
                          BCtx (mk_ctx ld session um ud NULL NULL)]> (heap w2))
              w2)).
Proof.
  intros Hr Hld Ho Hs Ha. unfold ossl_store_attach_pem_bio.
  rewrite (bind_Ret _ _ _ _ _ Hr). destruct (decide _); [done|].
  rewrite (bind_Ret _ _ _ _ _ Ho). destruct (decide _); [done|].
  unfold zalloc_ctx.
  rewrite (bind_Ret _ _ _ _ _ (CRYPTO_malloc_succeeds _ _ Ha)).
  destruct (decide _) as [E|_]; [by apply fresh_ptr_not_NULL in E|].
  rewrite bind_unfold. unfold put_ctx. cbn [heap set_heap set_alloc_plan].
  rewrite lookup_insert_eq. rewrite attach_done_no_session.
  unfold set_heap, set_alloc_plan. cbn. by rewrite insert_insert_eq.
Qed.

(** X17: attaching a stream.  The registry is asked for [file] and nothing
    else.  Without such a loader, or when the file loader's attach yields
    no session, NULL is returned at once; when the context cannot be
    allocated, the session is handed to the loader's close and NULL is
    returned whatever close reports; otherwise a fresh context is returned
    that holds the loader, the session and the caller's UI arguments, and
    no filter: its filter and filter data are NULL. *)
Theorem ossl_store_attach_pem_bio_outcomes bp um ud w :
  (∀ w1,
     ossl_store_get0_loader_int env "file" w = Ret NULL w1 →
     ossl_store_attach_pem_bio env file bp um ud w = Ret NULL w1) ∧
  (∀ ld w1 w2,
     ossl_store_get0_loader_int env "file" w = Ret ld w1 →
     ld ≠ NULL →
     ossl_store_file_attach_pem_bio_int file bp w1 = Ret NULL w2 →
     ossl_store_attach_pem_bio env file bp um ud w = Ret NULL w2) ∧
  (∀ ld L w1 session w2 status w3,
     ossl_store_get0_loader_int env "file" w = Ret ld w1 →
     ld ≠ NULL →
     ossl_store_file_attach_pem_bio_int file bp w1 = Ret session w2 →
     session ≠ NULL →
     next_alloc_ok w2 = false →
     loader_at env ld = Some L →
     close L session
       (push_err (OSSL_STORE_F_OSSL_STORE_ATTACH_PEM_BIO file)
          ERR_R_MALLOC_FAILURE
          (set_alloc_plan (tail (alloc_plan w2)) w2)) = Ret status w3 →
     ossl_store_attach_pem_bio env file bp um ud w = Ret NULL w3) ∧
  (∀ ld w1 session w2,
     ossl_store_get0_loader_int env "file" w = Ret ld w1 →
     ld ≠ NULL →
     ossl_store_file_attach_pem_bio_int file bp w1 = Ret session w2 →
     session ≠ NULL →
     next_alloc_ok w2 = true →
     ∃ ctx w3,
       ossl_store_attach_pem_bio env file bp um ud w = Ret ctx w3 ∧
       ctx ≠ NULL ∧
       heap w2 !! ctx = None ∧
       heap w3 = <[ctx := BCtx (mk_ctx ld session um ud NULL NULL)]> (heap w2) ∧
       err_queue w3 = err_queue w2).
Proof.
  split; [|split; [|split]].
  - intros w1 Hr. unfold ossl_store_attach_pem_bio.
    by rewrite (bind_Ret _ _ _ _ _ Hr).
  - intros ld w1 w2 Hr Hld Ho. unfold ossl_store_attach_pem_bio.
    rewrite (bind_Ret _ _ _ _ _ Hr). destruct (decide _); [done|].
    by rewrite (bind_Ret _ _ _ _ _ Ho).
  - intros ld L w1 session w2 status w3 Hr Hld Ho Hs Ha HL Hc.
    unfold ossl_store_attach_pem_bio.
    rewrite (bind_Ret _ _ _ _ _ Hr). destruct (decide _); [done|].
    rewrite (bind_Ret _ _ _ _ _ Ho). destruct (decide _); [done|].
    unfold zalloc_ctx.
    rewrite (bind_Ret _ _ _ _ _ (CRYPTO_malloc_fails _ _ Ha)).
    destruct (decide _); [|done].
    rewrite bind_unfold. cbn [OSSL_STOREerr].
    unfold attach_done. destruct (decide _); [|done].
    rewrite !bind_unfold.
    rewrite (loader_deref_Some _ _ _ _ HL).
    rewrite bind_unfold. fold (push_err
      (OSSL_STORE_F_OSSL_STORE_ATTACH_PEM_BIO file) ERR_R_MALLOC_FAILURE
      (set_alloc_plan (tail (alloc_plan w2)) w2)).
    by rewrite Hc.
  - intros ld w1 session w2 Hr Hld Ho Hs Ha. eexists _, _. split.
    + by eapply attach_succeeds_eq.
    + split; [apply fresh_ptr_not_NULL|].
      split; [apply fresh_ptr_unused|done].
Qed.

(** X18: nothing loaded through an attached stream is filtered.  Load on
    the context that attach returned is one call of the file loader's load
    on the attached session with the caller's UI arguments: its result,
    object or sentinel, is returned as it is. *)
Theorem ossl_store_attach_pem_bio_then_load
    bp um ud w ld L w1 session w2 v w4 fuel :
  ossl_store_get0_loader_int env "file" w = Ret ld w1 →
  ld ≠ NULL →
  ossl_store_file_attach_pem_bio_int file bp w1 = Ret session w2 →
  session ≠ NULL →
  next_alloc_ok w2 = true →
  loader_at env ld = Some L →
  load L session um ud
    (set_alloc_plan (tail (alloc_plan w2))
       (set_heap (<[fresh_ptr (heap w2) :=
                      BCtx (mk_ctx ld session um ud NULL NULL)]> (heap w2))
          w2)) = Ret v w4 →
  heap w4 !! fresh_ptr (heap w2) =
    Some (BCtx (mk_ctx ld session um ud NULL NULL)) →
  (ctx ← ossl_store_attach_pem_bio env file bp um ud;
   OSSL_STORE_load env (S fuel) ctx) w = Ret v w4.
Proof.
  intros Hr Hld Ho Hs Ha HL Hl Hstill.
  rewrite (bind_Ret _ _ _ _ _
             (attach_succeeds_eq _ um ud _ _ _ _ _ Hr Hld Ho Hs Ha)).
  rewrite (load_prefix env _ (mk_ctx ld session um ud NULL NULL) L _ v w4
             (mk_ctx ld session um ud NULL NULL)).
  - destruct (decide _) as [[Hno _]|_]; [by destruct Hno | done].
  - unfold ctx_at. cbn. by rewrite lookup_insert_eq.
  - exact HL.
  - exact Hl.
  - unfold ctx_at. by rewrite Hstill.
Qed.

(** X19: detaching.  The file loader's detach is run on the session, then
    the context is released whatever status detach reported, and that
    status is returned; the loader structure the context points to is not
    consulted and its close is not called.  In particular a stream that
    was attached can be detached: the context is gone afterwards. *)
Theorem ossl_store_detach_pem_bio_releases ctx c w status w1 :
  ctx ≠ NULL →
  heap w !! ctx = Some (BCtx c) →
  ossl_store_file_detach_pem_bio_int file (loader_ctx c) w = Ret status w1 →
  is_Some (heap w1 !! ctx) →
  ossl_store_detach_pem_bio file ctx w =
    Ret status (set_heap (delete ctx (heap w1)) w1) ∧
  heap (set_heap (delete ctx (heap w1)) w1) !! ctx = None ∧
  (∀ q, q ≠ ctx →
        heap (set_heap (delete ctx (heap w1)) w1) !! q = heap w1 !! q).
Proof.
  intros Hn Hl Hd [b Hb]. split; [|split].
  - unfold ossl_store_detach_pem_bio.
    rewrite (bind_Ret _ _ _ _ _ (get_ctx_live _ _ _ Hl)).
    rewrite (bind_Ret _ _ _ _ _ Hd).
    by rewrite (bind_Ret _ _ _ _ _ (OPENSSL_free_live _ _ _ Hn Hb)).
  - apply lookup_delete_eq.
  - intros q Hq. cbn. by rewrite lookup_delete_ne.
Qed.

End MoreFacts.

(** * The further properties on the test backend *)

Lemma OSSL_STORE_open_succeeds_witness :
  ∃ w2 ctx w3,
    Stub.stub_open Stub.file_loader "file:/tmp/x" NULL NULL
      (Stub.stub_world [] 1) = Ret 5 w2 ∧
    OSSL_STORE_open Stub.stub_env "file:/tmp/x" NULL NULL
      Stub.reject_names_fn NULL (Stub.stub_world [] 1) = Ret ctx w3 ∧
    ctx ≠ NULL ∧
    heap w2 !! ctx = None ∧
    heap w3 = <[ctx := BCtx (mk_ctx Stub.file_loader 5 NULL NULL
                               Stub.reject_names_fn NULL)]> (heap w2) ∧
    err_queue w3 = err_queue w2 ∧
    backend w3 = backend w2.
Proof.
  eexists. 
  assert (∀ (A : Prop) (B : ptr → World Stub.state → Prop),
            A → (A → ∃ ctx w3, B ctx w3) → ∃ ctx w3, A ∧ B ctx w3) as pack.
  { intros A B HA HB. destruct (HB HA) as (ctx & w3 & H). by exists ctx, w3. }
  apply pack; [vm_compute; reflexivity|]. intros Ho.
  apply (OSSL_STORE_open_succeeds Stub.stub_env "file:/tmp/x" NULL NULL
           Stub.reject_names_fn NULL (Stub.stub_world [] 1)
           Stub.file_loader Stub.stub_loader (Stub.stub_world [] 1) 5 _).
  - reflexivity.
  - unfold Stub.file_loader, NULL. lia.
  - reflexivity.
  - exact Ho.
  - unfold NULL. lia.
  - reflexivity.
Defined.

Lemma OSSL_STORE_open_then_close_witness :
  ∃ w',
    (ctx ← OSSL_STORE_open Stub.stub_env "file:/tmp/x" NULL NULL NULL NULL;
     OSSL_STORE_close Stub.stub_env ctx) (Stub.stub_world [] 0) = Ret 0 w' ∧
    heap w' = heap (Stub.stub_world [] 0).
Proof.
  assert (∀ (A : World Stub.state → Prop) (B : World Stub.state → Prop),
            (∃ w', A w') → (∀ w', A w' → B w') → ∃ w', A w' ∧ B w') as pack.
  { intros A B [w' HA] HB. exists w'. split; [done | by apply HB]. }
  apply pack.
  - eexists. eapply proj1.
    eapply (OSSL_STORE_open_then_close Stub.stub_env "file:/tmp/x"
              NULL NULL NULL NULL (Stub.stub_world [] 0)
              Stub.file_loader Stub.stub_loader).
    + reflexivity.
    + unfold Stub.file_loader, NULL. lia.
    + reflexivity.
    + reflexivity.
    + vm_compute. discriminate.
    + reflexivity.
    + vm_compute. reflexivity.
    + vm_compute. reflexivity.
  - intros w'. vm_compute. by intros [= <-].
Defined.

Lemma OSSL_STORE_ctrl_eof_error_delegate_witness :
  ctrl Stub.stub_loader = None ∧
  OSSL_STORE_ctrl Stub.stub_env 10 7 [1; 2] (Stub.open_world 0) =
    Ret 0 (Stub.open_world 0).
Proof.
  split; [reflexivity|].
  apply (proj1 (OSSL_STORE_ctrl_eof_error_delegate Stub.stub_env 10
                  (mk_ctx Stub.file_loader 9 NULL NULL NULL NULL)
                  Stub.stub_loader (Stub.open_world 0) eq_refl eq_refl)).
  reflexivity.
Defined.

Lemma OSSL_STORE_load_without_filter_witness :
  ∃ w1,
    OSSL_STORE_load Stub.stub_env 1 10 BridgeStub.unfiltered_world =
      Ret 6 w1.
Proof.
  eexists.
  eapply (OSSL_STORE_load_without_filter Stub.stub_env 10
            (mk_ctx Stub.file_loader 9 NULL NULL NULL NULL) Stub.stub_loader
            BridgeStub.unfiltered_world 6 _
            (mk_ctx Stub.file_loader 9 NULL NULL NULL NULL)).
  - reflexivity.
  - reflexivity.
  - reflexivity.
  - vm_compute. reflexivity.
  - reflexivity.
Defined.

Lemma constructor_get0_roundtrip_witness :
  next_alloc_ok (Stub.stub_world [] 1) = true ∧
  (info ← OSSL_STORE_INFO_new_CERT NULL;
   t ← OSSL_STORE_INFO_get_type info;
   a ← OSSL_STORE_INFO_get0_CERT info;
   mret (t, a)) (Stub.stub_world [] 1) =
    Ret (OSSL_STORE_INFO_CERT, NULL)
        (constructed OSSL_STORE_INFO_CERT NULL NULL (Stub.stub_world [] 1)).
Proof.
  split; [reflexivity|].
  pose proof (constructor_get0_roundtrip NULL (Stub.stub_world [] 1) eq_refl)
    as (_ & _ & _ & [_ H] & _).
  exact H.
Defined.

Lemma OSSL_STORE_INFO_free_NAME_releases_witness :
  ∃ w',
    OSSL_STORE_INFO_free 5 (BridgeStub.described_world []) = Ret () w' ∧
    heap w' !! 5 = None ∧ heap w' !! 1 = None ∧ heap w' !! 3 = None ∧
    heap w' !! 4 = Some (BStr "spare").
Proof.
  destruct (OSSL_STORE_INFO_free_NAME_releases 5
              (mk_info OSSL_STORE_INFO_NAME 1 3) (BridgeStub.described_world []))
    as (w' & Hf & _ & H5 & H1 & H3 & Hq & _).
  - unfold NULL. lia.
  - reflexivity.
  - reflexivity.
  - right. vm_compute. eexists. reflexivity.
  - right. vm_compute. eexists. reflexivity.
  - exists w'. split; [exact Hf|]. split; [exact H5|]. split.
    + apply H1. vm_compute. discriminate.
    + split.
      * apply H3. vm_compute. discriminate.
      * rewrite Hq; [reflexivity | | |]; vm_compute; discriminate.
Defined.

Lemma OSSL_STORE_INFO_free_gives_up_one_reference_witness :
  OSSL_STORE_INFO_free 6 (BridgeStub.described_world []) =
    Ret () (set_heap (delete 6 (given_up K_X509 2 2
                                  (heap (BridgeStub.described_world []))))
              (BridgeStub.described_world [])) ∧
  given_up K_X509 2 2 (heap (BridgeStub.described_world [])) !! 2 =
    Some (BObj K_X509 (2 - 1)).
Proof.
  pose proof (OSSL_STORE_INFO_free_gives_up_one_reference 6
                (mk_info OSSL_STORE_INFO_CERT 2 NULL) 2
                (BridgeStub.described_world [])) as H.
  destruct H as (_ & _ & Hcert & _ & Hg).
  - unfold NULL. lia.
  - reflexivity.
  - split.
    + apply Hcert; [reflexivity|]. right. reflexivity.
    + apply (Hg K_X509 2); [unfold NULL|]; lia.
Defined.

Lemma get1_then_free_hands_over_witness :
  (x ← OSSL_STORE_INFO_get1_CERT 6;
   OSSL_STORE_INFO_free 6;;
   mret x) (BridgeStub.described_world []) =
    Ret 2 (set_heap (delete 6 (heap (BridgeStub.described_world [])))
             (BridgeStub.described_world [])) ∧
  delete 6 (heap (BridgeStub.described_world [])) !! 2 = Some (BObj K_X509 2).
Proof.
  split; [|reflexivity].
  pose proof (get1_then_free_hands_over 6
                (mk_info OSSL_STORE_INFO_CERT 2 NULL) 2
                (BridgeStub.described_world [])) as H.
  destruct H as (_ & _ & Hcert & _).
  - unfold NULL. lia.
  - reflexivity.
  - lia.
  - apply Hcert; [reflexivity | vm_compute; discriminate | reflexivity].
Defined.

Lemma construct_then_free_consumes_payload_witness :
  (info ← OSSL_STORE_INFO_new_CERT 2;
   OSSL_STORE_INFO_free info) (Stub.stub_world [] 1) =
    Ret () (set_alloc_plan []
              (set_heap (given_up K_X509 1 2 (heap (Stub.stub_world [] 1)))
                 (Stub.stub_world [] 1))) ∧
  given_up K_X509 1 2 (heap (Stub.stub_world [] 1)) !! 2 = None.
Proof.
  split; [|reflexivity].
  pose proof (construct_then_free_consumes_payload 2 1 (Stub.stub_world [] 1)
                eq_refl) as (_ & _ & Hcert & _).
  apply Hcert. right. reflexivity.
Defined.

Lemma set0_NAME_description_roundtrip_witness :
  ∃ w1 copy w2,
    OSSL_STORE_INFO_set0_NAME_description 5 4 (BridgeStub.described_world [])
      = Ret 1 w1 ∧
    OSSL_STORE_INFO_get0_NAME_description 5 w1 = Ret 4 w1 ∧
    OSSL_STORE_INFO_get1_NAME_description 5 w1 = Ret copy w2 ∧
    copy ≠ 4 ∧
    heap w2 !! copy = Some (BStr "spare").
Proof.
  destruct (set0_NAME_description_roundtrip 5
              (mk_info OSSL_STORE_INFO_NAME 1 3) 4 "spare"
              (BridgeStub.described_world []))
    as (w1 & copy & w2 & H1 & H2 & _ & _ & H3 & _ & H4 & _ & H5 & _).
  - reflexivity.
  - reflexivity.
  - unfold NULL. lia.
  - reflexivity.
  - reflexivity.
  - by exists w1, copy, w2.
Defined.

Lemma set0_NAME_description_overwrite_leaks_witness :
  ∃ w',
    (OSSL_STORE_INFO_set0_NAME_description 5 4;;
     OSSL_STORE_INFO_set0_NAME_description 5 3;;
     OSSL_STORE_INFO_free 5) (BridgeStub.described_world []) = Ret () w' ∧
    heap w' !! 4 = Some (BStr "spare") ∧
    heap w' !! 5 = None.
Proof.
  destruct (set0_NAME_description_overwrite_leaks 5
              (mk_info OSSL_STORE_INFO_NAME 1 3) 4 "spare" 3
              (BridgeStub.described_world []))
    as (w' & H1 & H2 & H3 & _).
  - unfold NULL. lia.
  - reflexivity.
  - reflexivity.
  - reflexivity.
  - lia.
  - vm_compute. discriminate.
  - right. vm_compute. eexists. reflexivity.
  - right. vm_compute. eexists. reflexivity.
  - by exists w'.
Defined.

Lemma get1_NAME_copy_outlives_object_witness :
  ∃ copy w',
    (x ← OSSL_STORE_INFO_get1_NAME 5;
     OSSL_STORE_INFO_free 5;;
     mret x) (BridgeStub.described_world []) = Ret copy w' ∧
    heap w' !! copy = Some (BStr "alice") ∧
    heap w' !! 1 = None ∧
    heap w' !! 5 = None.
Proof.
  destruct (get1_NAME_copy_outlives_object 5
              (mk_info OSSL_STORE_INFO_NAME 1 3) "alice"
              (BridgeStub.described_world []))
    as (copy & w' & H1 & _ & _ & H2 & H3 & H4).
  - unfold NULL. lia.
  - reflexivity.
  - reflexivity.
  - vm_compute. discriminate.
  - reflexivity.
  - right. vm_compute. eexists. reflexivity.
  - reflexivity.
  - by exists copy, w'.
Defined.

Lemma ossl_store_info_new_EMBEDDED_roundtrip_witness :
  ∃ info w' q w'',
    ossl_store_info_new_EMBEDDED (Some "ENCRYPTED PRIVATE KEY") 1
      (set_alloc_plan [] Stub.blob_world) = Ret info w' ∧
    ossl_store_info_get0_EMBEDDED_buffer info w' = Ret 1 w' ∧
    ossl_store_info_get0_EMBEDDED_pem_name info w' = Ret q w' ∧
    heap w' !! q = Some (BStr "ENCRYPTED PRIVATE KEY") ∧
    OSSL_STORE_INFO_free info w' = Ret () w'' ∧
    heap w'' = released 1 (heap Stub.blob_world).
Proof.
  destruct (ossl_store_info_new_EMBEDDED_roundtrip
              (Some "ENCRYPTED PRIVATE KEY") 1
              (set_alloc_plan [] Stub.blob_world))
    as (info & w' & H1 & _ & _ & H2 & _ & H3 & _ & _ & w'' & H4 & H5).
  - reflexivity.
  - right. reflexivity.
  - right. exists "blob". reflexivity.
  - destruct (H3 _ eq_refl) as (q & Hq1 & _ & _ & Hq2).
    by exists info, w', q, w''.
Defined.

Lemma ossl_store_attach_pem_bio_outcomes_witness :
  ∃ ctx w3,
    ossl_store_attach_pem_bio Stub.stub_env BridgeStub.stub_bridge 77
      NULL NULL (Stub.stub_world [] 1) = Ret ctx w3 ∧
    ctx ≠ NULL ∧
    ctx_at ctx w3 = Some (mk_ctx Stub.file_loader 5 NULL NULL NULL NULL).
Proof.
  destruct (proj2 (proj2 (proj2
              (ossl_store_attach_pem_bio_outcomes Stub.stub_env
                 BridgeStub.stub_bridge 77 NULL NULL (Stub.stub_world [] 1))))
              Stub.file_loader (Stub.stub_world [] 1) 5
              (set_heap (<[5 := BStr "bio"]> (heap (Stub.stub_world [] 1)))
                 (Stub.stub_world [] 1)))
    as (ctx & w3 & H1 & H2 & _ & H3 & _).
  - reflexivity.
  - unfold Stub.file_loader, NULL. lia.
  - vm_compute. reflexivity.
  - unfold NULL. lia.
  - reflexivity.
  - exists ctx, w3. split; [exact H1|]. split; [exact H2|].
    unfold ctx_at. rewrite H3. by rewrite lookup_insert_eq.
Defined.

Lemma ossl_store_attach_pem_bio_then_load_witness :
  ∃ w4,
    (ctx ← ossl_store_attach_pem_bio Stub.stub_env BridgeStub.stub_bridge 77
             NULL NULL;
     OSSL_STORE_load Stub.stub_env 1 ctx) (Stub.objects_world []) =
      Ret NULL w4.
Proof.
  eexists.
  eapply (ossl_store_attach_pem_bio_then_load Stub.stub_env
            BridgeStub.stub_bridge 77 NULL NULL (Stub.objects_world [])
            Stub.file_loader Stub.stub_loader).
  - reflexivity.
  - unfold Stub.file_loader, NULL. lia.
  - reflexivity.
  - vm_compute. discriminate.
  - reflexivity.
  - reflexivity.
  - vm_compute. reflexivity.
  - vm_compute. reflexivity.
Defined.

Lemma ossl_store_detach_pem_bio_releases_witness :
  ∃ w1,
    BridgeStub.detach_int 9 (Stub.open_world 0) = Ret 0 w1 ∧
    ossl_store_detach_pem_bio BridgeStub.stub_bridge 10 (Stub.open_world 0) =
      Ret 0 (set_heap (delete 10 (heap w1)) w1) ∧
    heap (set_heap (delete 10 (heap w1)) w1) !! 10 = None.
Proof.
  eexists. split; [reflexivity|].
  destruct (ossl_store_detach_pem_bio_releases BridgeStub.stub_bridge 10
              (mk_ctx Stub.file_loader 9 NULL NULL NULL NULL)
              (Stub.open_world 0) 0
              (set_heap (delete 9 (heap (Stub.open_world 0)))
                 (Stub.open_world 0)))
    as (H1 & H2 & _).
  - unfold NULL. lia.
  - reflexivity.
  - reflexivity.
  - vm_compute. eexists. reflexivity.
  - split; [exact H1 | exact H2].
Defined.
